(** * basement_lights: the control panel script [gpt_zero_script.py]

    A shallow embedding of the script that drives the e-paper panel and the
    four buttons against the Home Assistant hub, and the properties of it
    that the specification states.

    Layout of the development:
    - [Py]      the Python values the script computes with: parsed JSON,
                truthiness, integer and binary64 arithmetic, exceptions;
    - [Panel]   the script itself, as a state-and-exception monad over the
                hub, the cache dictionary and the trace of I/O;
    - [Threads] the threads of the script, [main] and the handlers, followed
                statement by statement;
    - the theorems. *)

From Stdlib Require Import ZArith List String Ascii Bool Lia.
From Stdlib Require Import Floats.SpecFloat.
From Stdlib Require Import DecimalString.

Import ListNotations.
Local Open Scope string_scope.
Local Open Scope Z_scope.

Set Warnings "-register-all".

(* ================================================================== *)
(** ** Python values                                                    *)
(* ================================================================== *)

Module Py.

(** What [r.json()] can return, and what the script stores in its
    dictionaries.  A JSON object is kept as its key/value pairs in order
    (the parser keeps one binding per key; [dict_lookup] takes the first).
    [JNull] is Python's [None]. *)
Inductive json : Type :=
| JNull
| JBool (b : bool)
| JInt (z : Z)
| JFloat (f : spec_float)
| JStr (s : string)
| JList (l : list json)
| JObj (kv : list (string * json)).

(** The exceptions the script's expressions can raise. *)
Inductive exn : Type :=
| KeyError
| TypeError
| AttributeError
| ValueError
| OverflowError
| ZeroDivisionError
| IndexError.

Inductive res (A : Type) : Type :=
| Ok (a : A)
| Raise (e : exn).
Arguments Ok {A} a.
Arguments Raise {A} e.

Definition res_bind {A B} (r : res A) (k : A -> res B) : res B :=
  match r with
  | Ok a => k a
  | Raise e => Raise e
  end.

(** *** binary64 *)

Definition prec : Z := 53.
Definition emax : Z := 1024.

Definition f_of_Z (z : Z) : spec_float := binary_normalize prec emax z 0 false.
Definition fdiv : spec_float -> spec_float -> spec_float := SFdiv prec emax.
Definition fmul : spec_float -> spec_float -> spec_float := SFmul prec emax.
Definition fadd : spec_float -> spec_float -> spec_float := SFadd prec emax.
Definition fsub : spec_float -> spec_float -> spec_float := SFsub prec emax.

Definition f_is_zero (f : spec_float) : bool :=
  match f with
  | S754_zero _ => true
  | _ => false
  end.

(** [int(x)] on a float: truncation toward zero; [OverflowError] on an
    infinity, [ValueError] on a NaN. *)
Definition int_of_float (f : spec_float) : res Z :=
  match f with
  | S754_zero _ => Ok 0
  | S754_infinity _ => Raise OverflowError
  | S754_nan => Raise ValueError
  | S754_finite s m e =>
      let a := match e with
               | Z0 => Zpos m
               | Zpos p => Z.shiftl (Zpos m) (Zpos p)
               | Zneg p => Z.shiftr (Zpos m) (Zpos p)
               end in
      Ok (if s then - a else a)
  end.

(** [a / b] on two Python ints: the exact quotient rounded once to the
    nearest double (CPython's [long_true_divide]), [ZeroDivisionError] on a
    zero divisor, [OverflowError] when the quotient exceeds the doubles. *)
Definition int_truediv (a b : Z) : res spec_float :=
  match a, b with
  | _, Z0 => Raise ZeroDivisionError
  | Z0, _ => Ok (S754_zero (b <? 0))
  | _, _ =>
      match SFdiv prec emax
              (S754_finite (a <? 0) (Z.to_pos (Z.abs a)) 0)
              (S754_finite (b <? 0) (Z.to_pos (Z.abs b)) 0) with
      | S754_infinity _ => Raise OverflowError
      | q => Ok q
      end
  end.

(** An int against a double, compared exactly as CPython does (no
    conversion of the int); [None] when the double is a NaN. *)
Definition Z_float_compare (z : Z) (f : spec_float) : option comparison :=
  match f with
  | S754_nan => None
  | S754_infinity s => Some (if s then Gt else Lt)
  | S754_zero _ => Some (z ?= 0)
  | S754_finite s m e =>
      let v := if s then Zneg m else Zpos m in
      Some match e with
           | Z0 => z ?= v
           | Zpos p => z ?= Z.shiftl v (Zpos p)
           | Zneg p => Z.shiftl z (Zpos p) ?= v
           end
  end.

(** *** Truthiness, dictionaries *)

Definition truthy (v : json) : bool :=
  match v with
  | JNull => false
  | JBool b => b
  | JInt z => negb (z =? 0)
  | JFloat f => negb (f_is_zero f)
  | JStr s => negb (String.eqb s "")
  | JList l => match l with [] => false | _ => true end
  | JObj kv => match kv with [] => false | _ => true end
  end.

(** [x or d] *)
Definition py_or (x d : json) : json := if truthy x then x else d.

Fixpoint dict_lookup (k : string) (kv : list (string * json)) : option json :=
  match kv with
  | [] => None
  | (k', v) :: rest => if String.eqb k k' then Some v else dict_lookup k rest
  end.

(** [d[k]]: only a dict can be indexed by a string. *)
Definition py_getitem (d : json) (k : string) : res json :=
  match d with
  | JObj kv => match dict_lookup k kv with
               | Some v => Ok v
               | None => Raise KeyError
               end
  | _ => Raise TypeError
  end.

(** [d.get(k, dflt)]: only a dict has [get]. *)
Definition py_get_default (d : json) (k : string) (dflt : json) : res json :=
  match d with
  | JObj kv => Ok match dict_lookup k kv with
                  | Some v => v
                  | None => dflt
                  end
  | _ => Raise AttributeError
  end.

(** [d.get(k)] *)
Definition py_get (d : json) (k : string) : res json := py_get_default d k JNull.

(** [v == s] for a string literal [s] *)
Definition py_eq_str (v : json) (s : string) : bool :=
  match v with
  | JStr t => String.eqb t s
  | _ => false
  end.

(** *** Arithmetic with an int literal on one side

    Every arithmetic expression of the script has an int literal as one
    operand; [bool] is a subclass of [int] and computes as 0 or 1. *)

Definition Z_of_bool (b : bool) : Z := if b then 1 else 0.

(** [x + c] *)
Definition py_add_int (x : json) (c : Z) : res json :=
  match x with
  | JInt a => Ok (JInt (a + c))
  | JBool b => Ok (JInt (Z_of_bool b + c))
  | JFloat f => Ok (JFloat (fadd f (f_of_Z c)))
  | _ => Raise TypeError
  end.

(** [x - c] *)
Definition py_sub_int (x : json) (c : Z) : res json :=
  match x with
  | JInt a => Ok (JInt (a - c))
  | JBool b => Ok (JInt (Z_of_bool b - c))
  | JFloat f => Ok (JFloat (fsub f (f_of_Z c)))
  | _ => Raise TypeError
  end.

(** [x / c], always a float *)
Definition py_truediv_int (x : json) (c : Z) : res spec_float :=
  match x with
  | JInt a => int_truediv a c
  | JBool b => int_truediv (Z_of_bool b) c
  | JFloat f => if c =? 0 then Raise ZeroDivisionError
                else Ok (fdiv f (f_of_Z c))
  | _ => Raise TypeError
  end.

(** [c / x], always a float *)
Definition py_int_truediv (c : Z) (x : json) : res spec_float :=
  match x with
  | JInt a => int_truediv c a
  | JBool b => int_truediv c (Z_of_bool b)
  | JFloat f => if f_is_zero f then Raise ZeroDivisionError
                else Ok (fdiv (f_of_Z c) f)
  | _ => Raise TypeError
  end.

(** [x < c] *)
Definition py_lt_int (x : json) (c : Z) : res bool :=
  match x with
  | JInt a => Ok (a <? c)
  | JBool b => Ok (Z_of_bool b <? c)
  | JFloat f => Ok match Z_float_compare c f with
                   | Some Gt => true
                   | _ => false
                   end
  | _ => Raise TypeError
  end.

(** [x > c] *)
Definition py_gt_int (x : json) (c : Z) : res bool :=
  match x with
  | JInt a => Ok (c <? a)
  | JBool b => Ok (c <? Z_of_bool b)
  | JFloat f => Ok match Z_float_compare c f with
                   | Some Lt => true
                   | _ => false
                   end
  | _ => Raise TypeError
  end.

(** [min(c, x)]: the builtin keeps its first argument unless a later one is
    strictly smaller. *)
Definition py_min_int (c : Z) (x : json) : res json :=
  res_bind (py_lt_int x c) (fun lt => Ok (if lt then x else JInt c)).

(** [max(c, x)]: the first argument unless a later one is strictly larger. *)
Definition py_max_int (c : Z) (x : json) : res json :=
  res_bind (py_gt_int x c) (fun gt => Ok (if gt then x else JInt c)).

(** *** Lists of ints: [min(l)], [l.index(x)], [l[i]] *)

Fixpoint list_min (x : Z) (l : list Z) : Z :=
  match l with
  | [] => x
  | y :: l' => list_min (if y <? x then y else x) l'
  end.

(** [min(l)]; [ValueError] on an empty list. *)
Definition py_min_list (l : list Z) : res Z :=
  match l with
  | [] => Raise ValueError
  | x :: l' => Ok (list_min x l')
  end.

Fixpoint index_from (i : Z) (x : Z) (l : list Z) : res Z :=
  match l with
  | [] => Raise ValueError
  | y :: l' => if y =? x then Ok i else index_from (i + 1) x l'
  end.

(** [l.index(x)]: the first position holding [x]. *)
Definition py_index (l : list Z) (x : Z) : res Z := index_from 0 x l.

(** [range(lo, lo + n)] *)
Fixpoint zrange (lo : Z) (n : nat) : list Z :=
  match n with
  | O => []
  | S n' => lo :: zrange (lo + 1) n'
  end.

(** *** Text *)

Definition dec (z : Z) : string := NilEmpty.string_of_int (Z.to_int z).

(** [s.upper()] on the ASCII letters (the hub's state strings are ASCII
    identifiers). *)
Definition upper_ascii (c : ascii) : ascii :=
  let n := nat_of_ascii c in
  if andb (Nat.leb 97 n) (Nat.leb n 122) then ascii_of_nat (n - 32) else c.

Fixpoint upper (s : string) : string :=
  match s with
  | EmptyString => EmptyString
  | String c s' => String (upper_ascii c) (upper s')
  end.

End Py.

(* ================================================================== *)
(** ** The script                                                       *)
(* ================================================================== *)

Module Panel.
Import Py.

(** *** Configuration *)

Definition LIGHT_ENTITY : string := "light.basement_lights".
Definition WEATHER_ENTITY : string := "weather.forecast_home".
Definition ADAPTIVE_SWITCH : string := "switch.adaptive_lighting_basement_adaptive".

Definition WARM_K : Z := 2700.
Definition NEUTRAL_K : Z := 4000.
Definition COOL_K : Z := 6000.

Definition REFRESH_INTERVAL : Z := 15.

(** *** The outside world as the script sees it *)

(** Outcome of [requests.get]: the call raises (connection error, timeout)
    or returns a response with a status code and a body that parses as JSON
    or does not. *)
Inductive get_result : Type :=
| GetFailed
| GetResponse (status : Z) (body : option json).

(** Outcome of [requests.post]. *)
Inductive post_result : Type :=
| PostFailed
| PostResponse (status : Z) (text : string).

(** [r.raise_for_status()] raises on the 4xx and 5xx codes. *)
Definition raises_for_status (status : Z) : bool :=
  (400 <=? status) && (status <? 600).

(** The dictionary returned by [get_light_info]. *)
Record light_info : Type := mk_light_info {
  li_state : json;
  li_brightness : json;
  li_brightness_pct : option Z;
  li_mired : json;
  li_kelvin : option Z
}.

(** The dictionary returned by [get_weather_info]. *)
Record weather_info : Type := mk_weather_info {
  wi_temp : json;
  wi_condition : json
}.

(** [state_cache], with its three keys. *)
Record cache : Type := mk_cache {
  c_light : light_info;
  c_weather : option weather_info;
  c_adaptive : bool
}.

(** An f-string before formatting: literal text and values to format. *)
Inductive piece : Type :=
| Lit (s : string)
| Fmt (v : json).

Inductive font : Type := font_large | font_med | font_small.

(** One [draw.text((x, y), line, font=f, fill=0)]. *)
Record text_cmd : Type := mk_text {
  tx : Z;
  ty : Z;
  tline : list piece;
  tfont : font
}.

Definition image : Type := list text_cmd.

(** The I/O the script performs, in the order it happens. *)
Inductive event : Type :=
| EvGet (entity : string)
| EvPost (domain service : string) (data : list (string * json))
| EvPrint (msg : string)
| EvDisplay (img : image).

Definition is_get (e : event) : bool :=
  match e with EvGet _ => true | _ => false end.
Definition is_post (e : event) : bool :=
  match e with EvPost _ _ _ => true | _ => false end.
Definition is_display (e : event) : bool :=
  match e with EvDisplay _ => true | _ => false end.

(** The hub, the clock and whatever else lies outside the process: a state
    [Env] and the library calls that read or change it. *)
Class Outside (Env : Type) : Type := {
  (** [requests.get(f"{HA_URL}/api/states/{entity_id}", ...)] *)
  http_get : string -> Env -> get_result * Env;
  (** [requests.post(f"{HA_URL}/api/services/{domain}/{service}", json=data, ...)] *)
  http_post : string -> string -> list (string * json) -> Env -> post_result * Env;
  (** [time.strftime("%a %b %d  %H:%M")] *)
  strftime : Env -> string;
  (** [time.time()] *)
  time_time : Env -> spec_float;
  (** [time.sleep(0.5)] *)
  time_sleep : Env -> Env
}.

Section Script.

Context {Env : Type} `{Outside Env}.

Record world : Type := mk_world {
  w_env : Env;
  state_cache : cache;
  w_trace : list event
}.

(** State and exceptions: a computation runs in a world and returns a
    value or raises, with the world it leaves behind. *)
Definition M (A : Type) : Type := world -> res A * world.

Definition ret {A} (a : A) : M A := fun w => (Ok a, w).

Definition bind {A B} (m : M A) (k : A -> M B) : M B :=
  fun w => match m w with
           | (Ok a, w') => k a w'
           | (Raise e, w') => (Raise e, w')
           end.

Notation "x <- m ;; k" := (bind m (fun x => k))
  (at level 61, m at next level, right associativity).
Notation "m ;;; k" := (bind m (fun _ => k))
  (at level 61, right associativity).

Definition lift {A} (r : res A) : M A := fun w => (r, w).

Definition emit (e : event) : M unit :=
  fun w => (Ok tt, mk_world (w_env w) (state_cache w) (w_trace w ++ [e])).

Definition print (msg : string) : M unit := emit (EvPrint msg).

Definition do_get (entity : string) : M get_result :=
  fun w => let (r, e') := http_get entity (w_env w) in
           (Ok r, mk_world e' (state_cache w) (w_trace w ++ [EvGet entity])).

Definition do_post (domain service : string) (data : list (string * json))
  : M post_result :=
  fun w => let (r, e') := http_post domain service data (w_env w) in
           (Ok r, mk_world e' (state_cache w)
                    (w_trace w ++ [EvPost domain service data])).

Definition get_cache : M cache := fun w => (Ok (state_cache w), w).

Definition set_cache (f : cache -> cache) : M unit :=
  fun w => (Ok tt, mk_world (w_env w) (f (state_cache w)) (w_trace w)).

(** *** [ha_get_state], [ha_call_service] *)

(** Everything raised inside the [try] is caught, printed, and turned into
    [None]; the text of the exception is not kept in the printed line. *)
Definition ha_get_state (entity_id : string) : M json :=
  r <- do_get entity_id ;;
  match r with
  | GetFailed =>
      print ("Error getting state for " ++ entity_id ++ " :") ;;;
      ret JNull
  | GetResponse status body =>
      if raises_for_status status then
        print ("Error getting state for " ++ entity_id ++ " :") ;;;
        ret JNull
      else match body with
           | None =>
               print ("Error getting state for " ++ entity_id ++ " :") ;;;
               ret JNull
           | Some j => ret j
           end
  end.

Definition ha_call_service (domain service : string)
    (data : list (string * json)) : M unit :=
  r <- do_post domain service data ;;
  match r with
  | PostFailed =>
      print ("Error calling service " ++ domain ++ " " ++ service ++ " :")
  | PostResponse status text =>
      if negb (status =? 200) then
        print ("Service error: " ++ dec status ++ " " ++ text)
      else ret tt
  end.

(** *** [get_light_info] *)

Definition unknown_light : light_info :=
  mk_light_info (JStr "unknown") JNull None JNull None.

(** [int(bri / 255 * 100)] *)
Definition brightness_pct_of (bri : json) : res Z :=
  res_bind (py_truediv_int bri 255) (fun q =>
  int_of_float (fmul q (f_of_Z 100))).

(** [int(1_000_000 / color_temp)] *)
Definition kelvin_of (color_temp : json) : res Z :=
  res_bind (py_int_truediv 1000000 color_temp) int_of_float.

(** The body of [get_light_info] after the read. *)
Definition light_info_of (data : json) : res light_info :=
  if negb (truthy data) then Ok unknown_light
  else
    res_bind (py_getitem data "state") (fun state =>
    res_bind (py_get_default data "attributes" (JObj [])) (fun attrs =>
    res_bind (py_get attrs "brightness") (fun bri =>
    res_bind (py_get attrs "color_temp") (fun color_temp =>
    res_bind (match bri with
              | JNull => Ok None
              | _ => res_bind (brightness_pct_of bri) (fun p => Ok (Some p))
              end) (fun bri_pct =>
    res_bind (if truthy color_temp
              then res_bind (kelvin_of color_temp) (fun k => Ok (Some k))
              else Ok None) (fun kelvin =>
    Ok (mk_light_info state bri bri_pct color_temp kelvin))))))).

Definition get_light_info : M light_info :=
  data <- ha_get_state LIGHT_ENTITY ;;
  lift (light_info_of data).

(** *** [get_weather_info] *)

Definition weather_info_of (data : json) : res (option weather_info) :=
  if negb (truthy data) then Ok None
  else
    res_bind (py_get_default data "attributes" (JObj [])) (fun attrs =>
    res_bind (py_get attrs "temperature") (fun temp =>
    res_bind (py_getitem data "state") (fun cond =>
    match temp with
    | JNull => Ok None
    | _ => Ok (Some (mk_weather_info temp cond))
    end))).

Definition get_weather_info : M (option weather_info) :=
  data <- ha_get_state WEATHER_ENTITY ;;
  lift (weather_info_of data).

(** *** [get_adaptive_on] *)

Definition adaptive_of (data : json) : res bool :=
  if negb (truthy data) then Ok false
  else res_bind (py_get data "state") (fun st => Ok (py_eq_str st "on")).

Definition get_adaptive_on : M bool :=
  data <- ha_get_state ADAPTIVE_SWITCH ;;
  lift (adaptive_of data).

(** *** [set_light] *)

(** [max(1, min(255, brightness))] *)
Definition clamp_brightness (brightness : json) : res json :=
  res_bind (py_min_int 255 brightness) (py_max_int 1).

(** [int(1_000_000 / kelvin)] for the int [kelvin] the callers pass. *)
Definition mired_of_kelvin (kelvin : Z) : res Z :=
  res_bind (int_truediv 1000000 kelvin) int_of_float.

(** The payload [set_light] builds when [toggle] is false: the dictionary
    in insertion order. *)
Definition turn_on_payload (brightness : json) (kelvin : option Z)
  : res (list (string * json)) :=
  res_bind (match brightness with
            | JNull => Ok []
            | _ => res_bind (clamp_brightness brightness) (fun b =>
                   Ok [("brightness", b)])
            end) (fun pb =>
  res_bind (match kelvin with
            | None => Ok []
            | Some k => res_bind (mired_of_kelvin k) (fun mired =>
                        Ok [("color_temp", JInt mired)])
            end) (fun pk =>
  Ok ([("entity_id", JStr LIGHT_ENTITY)] ++ pb ++ pk)%list)).

Definition set_light (brightness : json) (kelvin : option Z) (toggle : bool)
  : M unit :=
  if toggle then
    ha_call_service "light" "toggle" [("entity_id", JStr LIGHT_ENTITY)]
  else
    payload <- lift (turn_on_payload brightness kelvin) ;;
    ha_call_service "light" "turn_on" payload.

(** *** [cycle_color_temp] *)

Definition presets : list Z := [WARM_K; NEUTRAL_K; COOL_K].

(** [light_info.get("kelvin") or NEUTRAL_K] *)
Definition current_kelvin (kelvin : option Z) : Z :=
  match kelvin with
  | Some k => if k =? 0 then NEUTRAL_K else k
  | None => NEUTRAL_K
  end.

(** The [next_k] that [cycle_color_temp] computes. *)
Definition next_kelvin (kelvin : option Z) : res Z :=
  let current_k := current_kelvin kelvin in
  let diffs := map (fun p => Z.abs (current_k - p)) presets in
  res_bind (py_min_list diffs) (fun m =>
  res_bind (py_index diffs m) (fun idx =>
  match nth_error presets (Z.to_nat ((idx + 1) mod Z.of_nat (List.length presets))) with
  | Some k => Ok k
  | None => Raise IndexError
  end)).

Definition cycle_color_temp (info : light_info) : M unit :=
  next_k <- lift (next_kelvin (li_kelvin info)) ;;
  set_light (li_brightness info) (Some next_k) false.

(** *** [draw_panel] *)

Definition legend : image :=
  [ mk_text 4 102 [Lit "BTN1: Natural ON/OFF"] font_small;
    mk_text 4 118 [Lit "BTN2: Brighter"] font_small;
    mk_text 4 134 [Lit "BTN3: Dimmer"] font_small;
    mk_text 4 150 [Lit "BTN4: Cycle CT (Nat)"] font_small ].

(** [light_info["state"].upper()]: only a string has [upper]. *)
Definition state_upper (state : json) : res string :=
  match state with
  | JStr s => Ok (upper s)
  | _ => Raise AttributeError
  end.

(** The text drawn on the image, top to bottom. *)
Definition panel_image (now_str : string) (info : light_info)
    (weather : option weather_info) (adaptive_on : bool) : res image :=
  res_bind (state_upper (li_state info)) (fun state =>
  let line :=
    ([Lit "Lights: "; Lit state]
     ++ match li_brightness_pct info with
        | Some p => [Lit " "; Fmt (JInt p); Lit "%"]
        | None => []
        end
     ++ match li_kelvin info with
        | Some k => [Lit " "; Fmt (JInt k); Lit "K"]
        | None => []
        end)%list in
  let mode_str := if adaptive_on then "MODE: NATURAL" else "MODE: MANUAL" in
  Ok ([ mk_text 4 2 [Lit now_str] font_large;
        mk_text 4 26 line font_med;
        mk_text 4 44 [Lit mode_str] font_med ]
      ++ match weather with
         | Some wi =>
             [ mk_text 4 64 [Lit "Weather:"] font_med;
               mk_text 4 80 [Fmt (wi_temp wi); Lit "° "; Fmt (wi_condition wi)]
                 font_med ]
         | None => []
         end
      ++ legend)%list).

Definition draw_panel (info : light_info) (weather : option weather_info)
    (adaptive_on : bool) : M unit :=
  fun w =>
    (img <- lift (panel_image (strftime (w_env w)) info weather adaptive_on) ;;
     emit (EvDisplay img)) w.

(** *** [state_cache] and [refresh_display] *)

(** The module-level dictionary literal: three reads, then the dictionary. *)
Definition init_state_cache : M unit :=
  l <- get_light_info ;;
  wx <- get_weather_info ;;
  a <- get_adaptive_on ;;
  set_cache (fun _ => mk_cache l wx a).

Definition store_light : M unit :=
  l <- get_light_info ;;
  set_cache (fun c => mk_cache l (c_weather c) (c_adaptive c)).

Definition store_weather : M unit :=
  wx <- get_weather_info ;;
  set_cache (fun c => mk_cache (c_light c) wx (c_adaptive c)).

Definition store_adaptive : M unit :=
  a <- get_adaptive_on ;;
  set_cache (fun c => mk_cache (c_light c) (c_weather c) a).

Definition draw_cached : M unit :=
  c <- get_cache ;;
  draw_panel (c_light c) (c_weather c) (c_adaptive c).

(** The four statements of [refresh_display]. *)
Definition refresh_display : M unit :=
  store_light ;;;
  store_weather ;;;
  store_adaptive ;;;
  draw_cached.

(** *** The button handlers *)

Definition on_btn1 : M unit :=
  current <- get_adaptive_on ;;
  (if current : bool then
     print "BTN1: Natural OFF" ;;;
     ha_call_service "switch" "turn_off" [("entity_id", JStr ADAPTIVE_SWITCH)]
   else
     print "BTN1: Natural ON" ;;;
     ha_call_service "switch" "turn_on" [("entity_id", JStr ADAPTIVE_SWITCH)]) ;;;
  refresh_display.

Definition on_btn2 : M unit :=
  print "BTN2: Brighter" ;;;
  info <- get_light_info ;;
  let bri := py_or (li_brightness info) (JInt 128) in
  b <- lift (py_add_int bri 25) ;;
  set_light b None false ;;;
  refresh_display.

Definition on_btn3 : M unit :=
  print "BTN3: Dimmer" ;;;
  info <- get_light_info ;;
  let bri := py_or (li_brightness info) (JInt 128) in
  b <- lift (py_sub_int bri 25) ;;
  set_light b None false ;;;
  refresh_display.

Definition on_btn4 : M unit :=
  a <- get_adaptive_on ;;
  if negb a then
    print "BTN4: Natural is OFF, ignoring"
  else
    print "BTN4: Cycle color temp" ;;;
    info <- get_light_info ;;
    cycle_color_temp info ;;;
    refresh_display.

(** *** [main] *)

Definition sleep : M unit :=
  fun w => (Ok tt, mk_world (time_sleep (w_env w)) (state_cache w) (w_trace w)).

Definition now : M spec_float := fun w => (Ok (time_time (w_env w)), w).

(** [now - last > REFRESH_INTERVAL] *)
Definition interval_elapsed (now last : spec_float) : bool :=
  match Z_float_compare REFRESH_INTERVAL (fsub now last) with
  | Some Lt => true
  | _ => false
  end.

(** [n] turns of the [while True] loop, [last] being the time of the last
    periodic refresh. *)
Fixpoint main_loop (n : nat) (last : spec_float) : M unit :=
  match n with
  | O => ret tt
  | S n' =>
      t <- now ;;
      last' <- (if interval_elapsed t last
                then refresh_display ;;; ret t
                else ret last) ;;
      sleep ;;;
      main_loop n' last'
  end.

(** [main], its loop cut after [n] turns. *)
Definition main (n : nat) : M unit :=
  print "Booting!" ;;;
  refresh_display ;;;
  last <- now ;;
  main_loop n last.

(** *** What one read does to the world *)

(** The [except] branch of [ha_get_state] is taken. *)
Definition read_failed (r : get_result) : bool :=
  match r with
  | GetFailed => true
  | GetResponse status body =>
      raises_for_status status
      || match body with None => true | Some _ => false end
  end.

(** The value [ha_get_state] returns for an outcome of the request. *)
Definition read_value (r : get_result) : json :=
  match r with
  | GetResponse status (Some j) => if raises_for_status status then JNull else j
  | _ => JNull
  end.

Definition read_log (entity_id : string) (r : get_result) : list event :=
  if read_failed r
  then [EvPrint ("Error getting state for " ++ entity_id ++ " :")]
  else [].

(** The answer of the hub to a read of [entity_id] in the world [w]. *)
Definition answer_to (entity_id : string) (w : world) : get_result :=
  fst (http_get entity_id (w_env w)).

(** The world after [ha_get_state entity_id]. *)
Definition after_get (entity_id : string) (w : world) : world :=
  mk_world (snd (http_get entity_id (w_env w))) (state_cache w)
    (w_trace w ++ EvGet entity_id :: read_log entity_id (answer_to entity_id w)).

(** The service calls, the reads and the panels recorded in a world. *)
Definition posts (w : world) : list event := filter is_post (w_trace w).
Definition gets (w : world) : list event := filter is_get (w_trace w).
Definition panels (w : world) : list event := filter is_display (w_trace w).

(** Every service call a computation adds to the trace, whether it returns
    or raises, satisfies [good]. *)
Definition posts_only {A} (good : event -> Prop) (m : M A) : Prop :=
  forall w, exists new,
    posts (snd (m w)) = (posts w ++ new)%list /\ Forall good new.

End Script.

Arguments world : clear implicits.
Arguments M : clear implicits.

Notation "x <- m ;; k" := (bind m (fun x => k))
  (at level 61, m at next level, right associativity).
Notation "m ;;; k" := (bind m (fun _ => k))
  (at level 61, right associativity).

(** *** Ranges of hub data *)

(** The largest mired value on which the conversion to kelvin is checked
    by evaluation (a kelvin of 50 or more). *)
Definition MIRED_MAX : Z := 20000.

Definition pct_agrees (b : Z) : bool :=
  match brightness_pct_of (JInt b) with
  | Ok p => p =? 100 * b / 255
  | Raise _ => false
  end.

Definition kelvin_agrees (m : Z) : bool :=
  match kelvin_of (JInt m) with
  | Ok k => k =? 1000000 / m
  | Raise _ => false
  end.

(** A brightness as [set_light] may send it: a number from 1 to 255. *)
Definition brightness_ok (v : json) : Prop :=
  match v with
  | JInt z => 1 <= z <= 255
  | JFloat f => Z_float_compare 1 f = Some Lt /\ Z_float_compare 255 f = Some Gt
  | _ => False
  end.

(** A call of [light.turn_on] on the light, its brightness, if any, from 1
    to 255. *)
Definition turn_on_call (e : event) : Prop :=
  match e with
  | EvPost domain service data =>
      domain = "light" /\ service = "turn_on"
      /\ dict_lookup "entity_id" data = Some (JStr LIGHT_ENTITY)
      /\ forall v, dict_lookup "brightness" data = Some v -> brightness_ok v
  | _ => False
  end.

(** An attribute the hub may send for [key]: absent, null, or an int in
    the range [lo .. hi]. *)
Definition attr_in_range (key : string) (lo hi : Z) (attrs : list (string * json))
  : Prop :=
  match dict_lookup key attrs with
  | None | Some JNull => True
  | Some (JInt z) => lo <= z <= hi
  | Some _ => False
  end.

(** An entity as the hub documents it: a state string and, possibly, an
    attributes mapping in which [brightness] and [color_temp] may be missing,
    null, or ints in their ranges. *)
Definition entity_ok (j : json) : Prop :=
  exists kv st,
    j = JObj kv /\ dict_lookup "state" kv = Some (JStr st)
    /\ match dict_lookup "attributes" kv with
       | None => True
       | Some (JObj attrs) =>
           attr_in_range "brightness" 0 255 attrs
           /\ attr_in_range "color_temp" 0 MIRED_MAX attrs
       | Some _ => False
       end.

(** An outcome of a read that is a remote error or a documented entity. *)
Definition outcome_ok (r : get_result) : Prop :=
  read_failed r = true \/ entity_ok (read_value r).

(** A hub whose reads, in the states [Inv] it can be in, either fail or
    answer with a documented entity. *)
Definition hub_ok {Env : Type} `{Outside Env} (Inv : Env -> Prop) : Prop :=
  (forall id e, Inv e ->
     outcome_ok (fst (http_get id e)) /\ Inv (snd (http_get id e)))
  /\ (forall e, Inv e -> Inv (time_sleep e)).

End Panel.

(* ================================================================== *)
(** ** The threads of the script                                        *)
(* ================================================================== *)

(** [main] runs on the main thread.  Lines 241 to 244 hand the four
    handlers to gpiozero, which calls the handler of a button when it is
    pressed, on a thread of its own making: a handler runs while [main] is
    in the middle of its loop.  The script takes no lock and keeps no
    pending flag, so nothing in it makes a thread wait for another.

    A thread is followed here statement by statement: its code is kept as
    the statement to run next, labelled with its line in the source, and
    what follows it.  The code of each thread is the code of [Panel], cut
    at its statements ([exec] puts it together again). *)
Module Threads.
Import Py Panel.

(** The four buttons, and who is called for each (lines 241 to 244). *)
Inductive button : Type := Btn1 | Btn2 | Btn3 | Btn4.

Inductive action : Type :=
| Press (b : button)       (* gpiozero begins the handler of [b] *)
| StepMain                 (* the main thread runs its next statement *)
| StepHandler (i : nat).   (* the handler of the [i]-th press runs its next one *)

Fixpoint set_nth {A} (i : nat) (x : A) (l : list A) : list A :=
  match l, i with
  | [], _ => []
  | _ :: l', O => x :: l'
  | y :: l', S i' => y :: set_nth i' x l'
  end.

Section Interleaving.

Context {Env : Type} `{Outside Env}.

(** Code still to run: nothing, or the statement of line [line] and then
    the code that follows it, given the value the statement produced. *)
Inductive proc : Type :=
| Done
| Do {A : Type} (line : Z) (m : M Env A) (k : A -> proc).

(** Run to the end without interruption. *)
Fixpoint exec (p : proc) : M Env unit :=
  match p with
  | Done => ret tt
  | Do _ m k => bind m (fun a => exec (k a))
  end.

(** A call of [refresh_display], followed by [k]. *)
Definition refresh_proc (k : proc) : proc :=
  Do 201 store_light (fun _ =>
  Do 202 store_weather (fun _ =>
  Do 203 store_adaptive (fun _ =>
  Do 204 draw_cached (fun _ => k)))).

Definition btn1_proc : proc :=
  Do 208 get_adaptive_on (fun current =>
  if current : bool then
    Do 210 (print "BTN1: Natural OFF") (fun _ =>
    Do 211 (ha_call_service "switch" "turn_off"
              [("entity_id", JStr ADAPTIVE_SWITCH)]) (fun _ =>
    refresh_proc Done))
  else
    Do 213 (print "BTN1: Natural ON") (fun _ =>
    Do 214 (ha_call_service "switch" "turn_on"
              [("entity_id", JStr ADAPTIVE_SWITCH)]) (fun _ =>
    refresh_proc Done))).

Definition btn2_proc : proc :=
  Do 218 (print "BTN2: Brighter") (fun _ =>
  Do 219 get_light_info (fun info =>
  Do 220 (ret (py_or (li_brightness info) (JInt 128))) (fun bri =>
  Do 221 (b <- lift (py_add_int bri 25) ;; set_light b None false) (fun _ =>
  refresh_proc Done)))).

Definition btn3_proc : proc :=
  Do 225 (print "BTN3: Dimmer") (fun _ =>
  Do 226 get_light_info (fun info =>
  Do 227 (ret (py_or (li_brightness info) (JInt 128))) (fun bri =>
  Do 228 (b <- lift (py_sub_int bri 25) ;; set_light b None false) (fun _ =>
  refresh_proc Done)))).

Definition btn4_proc : proc :=
  Do 233 get_adaptive_on (fun a =>
  if negb a then
    Do 234 (print "BTN4: Natural is OFF, ignoring") (fun _ => Done)
  else
    Do 236 (print "BTN4: Cycle color temp") (fun _ =>
    Do 237 get_light_info (fun info =>
    Do 238 (cycle_color_temp info) (fun _ =>
    refresh_proc Done)))).

Definition handler (b : button) : proc :=
  match b with
  | Btn1 => btn1_proc
  | Btn2 => btn2_proc
  | Btn3 => btn3_proc
  | Btn4 => btn4_proc
  end.

(** [n] turns of the loop of [main]. *)
Fixpoint main_loop_proc (n : nat) (last : spec_float) : proc :=
  match n with
  | O => Done
  | S n' =>
      Do 254 now (fun t =>
      if interval_elapsed t last then
        refresh_proc (Do 258 sleep (fun _ => main_loop_proc n' t))
      else
        Do 258 sleep (fun _ => main_loop_proc n' last))
  end.

Definition main_proc (n : nat) : proc :=
  Do 249 (print "Booting!") (fun _ =>
  refresh_proc (
  Do 251 now (fun last =>
  main_loop_proc n last))).

(** A thread has code to run ([Running Done]: it has returned) or was
    ended by an exception. *)
Inductive thread : Type :=
| Running (p : proc)
| Raised (e : exn).

(** The next statement of a thread, run in the shared world. *)
Definition step_thread (t : thread) (w : world Env) : thread * world Env :=
  match t with
  | Running (Do _ m k) =>
      match m w with
      | (Ok a, w') => (Running (k a), w')
      | (Raise e, w') => (Raised e, w')
      end
  | _ => (t, w)
  end.

(** The shared world, the main thread, and the handlers begun so far,
    oldest first. *)
Record system : Type := mk_system {
  sys_world : world Env;
  sys_main : thread;
  sys_handlers : list thread
}.

Definition step_system (a : action) (s : system) : system :=
  match a with
  | Press b =>
      mk_system (sys_world s) (sys_main s)
        (sys_handlers s ++ [Running (handler b)])
  | StepMain =>
      let (t', w') := step_thread (sys_main s) (sys_world s) in
      mk_system w' t' (sys_handlers s)
  | StepHandler i =>
      match nth_error (sys_handlers s) i with
      | Some t =>
          let (t', w') := step_thread t (sys_world s) in
          mk_system w' (sys_main s) (set_nth i t' (sys_handlers s))
      | None => s
      end
  end.

Fixpoint run (sched : list action) (s : system) : system :=
  match sched with
  | [] => s
  | a :: sched' => run sched' (step_system a s)
  end.

(** [main] is called (line 264), with [n] turns of its loop ahead, in the
    world the statements of the module left; no button has been pressed. *)
Definition start (n : nat) (w : world Env) : system :=
  mk_system w (Running (main_proc n)) [].

(** Where a thread stands. *)
Inductive place : Type :=
| At (line : Z)
| Returned
| Ended (e : exn).

Definition position (t : thread) : place :=
  match t with
  | Running Done => Returned
  | Running (Do line _ _) => At line
  | Raised e => Ended e
  end.

(** A thread is in the middle of a reconciliation when it has run line
    201 of a call of [refresh_display] and not yet line 204. *)
Definition reconciling (t : thread) : bool :=
  match position t with
  | At line => (202 <=? line) && (line <=? 204)
  | _ => false
  end.

(** Reconciliations in flight. *)
Definition in_flight (s : system) : nat :=
  List.length (filter reconciling (sys_main s :: sys_handlers s)).

(** Panels pushed to the display so far. *)
Definition displays (w : world Env) : nat :=
  List.length (filter is_display (w_trace w)).

End Interleaving.

Arguments proc : clear implicits.
Arguments thread : clear implicits.
Arguments system : clear implicits.

End Threads.

(* ================================================================== *)
(** ** A scripted hub for running the script                            *)
(* ================================================================== *)

Module Sim.
Import Py Panel.

(** The successive answers of the hub for each entity (the last one
    repeats), the answers to the service calls, and the clock in half
    seconds. *)
Record sim : Type := mk_sim {
  sim_light : list get_result;
  sim_weather : list get_result;
  sim_switch : list get_result;
  sim_clock : Z
}.

Definition answer (q : list get_result) : get_result * list get_result :=
  match q with
  | [] => (GetFailed, [])
  | [r] => (r, [r])
  | r :: q' => (r, q')
  end.

Definition sim_get (entity : string) (e : sim) : get_result * sim :=
  if String.eqb entity LIGHT_ENTITY then
    let (r, q) := answer (sim_light e) in
    (r, mk_sim q (sim_weather e) (sim_switch e) (sim_clock e))
  else if String.eqb entity WEATHER_ENTITY then
    let (r, q) := answer (sim_weather e) in
    (r, mk_sim (sim_light e) q (sim_switch e) (sim_clock e))
  else if String.eqb entity ADAPTIVE_SWITCH then
    let (r, q) := answer (sim_switch e) in
    (r, mk_sim (sim_light e) (sim_weather e) q (sim_clock e))
  else (GetResponse 404 None, e).

#[export] Instance sim_outside : Outside sim := {
  http_get := sim_get;
  http_post := fun _ _ _ e => (PostResponse 200 "[]", e);
  strftime := fun _ => "Thu Jan 01  00:00";
  time_time := fun e => fdiv (f_of_Z (sim_clock e)) (f_of_Z 2);
  time_sleep := fun e =>
    mk_sim (sim_light e) (sim_weather e) (sim_switch e) (sim_clock e + 1)
}.

(** An entity as the hub sends it. *)
Definition entity (state : string) (attrs : list (string * json)) : get_result :=
  GetResponse 200 (Some (JObj [("state", JStr state); ("attributes", JObj attrs)])).

Definition light_on (brightness color_temp : Z) : get_result :=
  entity "on" [("brightness", JInt brightness); ("color_temp", JInt color_temp)].

Definition light_off : get_result :=
  entity "off" [("brightness", JNull); ("color_temp", JNull)].

Definition sunny : get_result :=
  entity "sunny" [("temperature", JInt 21)].

Definition switch (on : bool) : get_result :=
  entity (if on then "on" else "off") [].

Definition blank_cache : cache := mk_cache unknown_light None false.

(** A hub that is down on every other request: the requests are counted,
    the even ones fail with a 503, the odd ones answer with an entity. *)
Definition flaky_get (id : string) (n : nat) : get_result * nat :=
  (if Nat.even n then GetResponse 503 None else light_on 128 370, S n).

Definition flaky_outside : Outside nat := {|
  http_get := flaky_get;
  http_post := fun _ _ _ n => (PostFailed, S n);
  strftime := fun _ => "Thu Jan 01  00:00";
  time_time := fun n => f_of_Z (Z.of_nat n);
  time_sleep := fun n => S n
|}.

Definition world_of (e : sim) : world sim := mk_world e blank_cache [].

End Sim.

(* ================================================================== *)
(** ** The specification's formulas                                     *)
(* ================================================================== *)

Module Spec.

(** [round(n / d)] for a positive [d], halves upward. *)
Definition round_div (n d : Z) : Z := (2 * n + d) / (2 * d).

(** The specification's [round(brightness / 255 * 100)]. *)
Definition brightness_pct_rounded (b : Z) : Z := round_div (100 * b) 255.

(** The specification's [round(1,000,000 / mired)]. *)
Definition kelvin_rounded (mired : Z) : Z := round_div 1000000 mired.

(** The specification's nearest preset: minimum absolute difference, the
    first such preset in the list. *)
Definition nearest_index (k : Z) : nat :=
  if (Z.abs (k - 2700) <=? Z.abs (k - 4000)) && (Z.abs (k - 2700) <=? Z.abs (k - 6000))
  then 0%nat
  else if Z.abs (k - 4000) <=? Z.abs (k - 6000) then 1%nat
  else 2%nat.

(** The specification's cycler: the preset after the nearest one, the
    first after the last. *)
Definition next_preset (k : Z) : Z :=
  match nearest_index k with
  | O => 4000
  | S O => 6000
  | _ => 2700
  end.

(** The specification's brightness after a press: [current + delta]
    clamped to the range 1 to 255. *)
Definition clamped (b delta : Z) : Z := Z.min 255 (Z.max 1 (b + delta)).

End Spec.

(* ================================================================== *)
(** ** Facts about the Python layer                                     *)
(* ================================================================== *)

Module PyFacts.
Import Py.

Lemma zrange_In (n : nat) : forall lo i,
  lo <= i < lo + Z.of_nat n -> In i (zrange lo n).
Proof.
  induction n as [|n IH]; intros lo i Hi.
  - simpl in Hi. lia.
  - cbn [zrange]. destruct (Z.eq_dec i lo) as [->|Hne].
    + now left.
    + right. apply IH. lia.
Qed.

(** A property checked by evaluation on every element of a range holds on
    the range. *)
Lemma forallb_zrange (p : Z -> bool) (lo : Z) (n : nat) :
  forallb p (zrange lo n) = true ->
  forall i, lo <= i < lo + Z.of_nat n -> p i = true.
Proof.
  intros Hall i Hi. rewrite forallb_forall in Hall.
  apply Hall, zrange_In, Hi.
Qed.

Lemma res_bind_Ok {A B} (r : res A) (k : A -> res B) (b : B) :
  res_bind r k = Ok b -> exists a, r = Ok a /\ k a = Ok b.
Proof.
  destruct r as [a|e]; simpl; intros Hb; [eauto | discriminate].
Qed.

End PyFacts.

(* ================================================================== *)
(** ** The light reading: percentage, kelvin and mired                  *)
(* ================================================================== *)

Module Reading.
Import Py Panel PyFacts.

(** On the brightness range the binary64 computation of
    [int(bri / 255 * 100)] is the integer quotient of [100 * bri] by 255. *)
Lemma brightness_pct_of_floor (b : Z) :
  0 <= b <= 255 -> brightness_pct_of (JInt b) = Ok (100 * b / 255).
Proof.
  intros Hb.
  assert (Hall : forallb pct_agrees (zrange 0 256) = true) by (vm_compute; reflexivity).
  pose proof (forallb_zrange _ _ _ Hall b ltac:(lia)) as Hp.
  unfold pct_agrees in Hp.
  destruct (brightness_pct_of (JInt b)) as [p|e]; [|discriminate].
  apply Z.eqb_eq in Hp. now subst.
Qed.

(** [int(1_000_000 / color_temp)] is the integer quotient. *)
Lemma kelvin_of_floor (m : Z) :
  1 <= m <= MIRED_MAX -> kelvin_of (JInt m) = Ok (1000000 / m).
Proof.
  intros Hm.
  assert (Hall : forallb kelvin_agrees (zrange 1 (Z.to_nat MIRED_MAX)) = true)
    by (vm_compute; reflexivity).
  pose proof (forallb_zrange _ _ _ Hall m ltac:(unfold MIRED_MAX in *; lia)) as Hk.
  unfold kelvin_agrees in Hk.
  destruct (kelvin_of (JInt m)) as [k|e]; [|discriminate].
  apply Z.eqb_eq in Hk. now subst.
Qed.

Ltac bind_inv H :=
  let a := fresh "a" in
  let Ha := fresh "Ha" in
  apply res_bind_Ok in H; destruct H as (a & Ha & H).

(** What a successful [get_light_info] body returns: the derived fields
    are computed from the raw fields of the same dictionary. *)
Lemma light_info_of_Ok (data : json) (info : light_info) :
  light_info_of data = Ok info ->
  match li_brightness info with
  | JNull => li_brightness_pct info = None
  | bri => exists p, brightness_pct_of bri = Ok p /\ li_brightness_pct info = Some p
  end
  /\ (if truthy (li_mired info)
      then exists k, kelvin_of (li_mired info) = Ok k /\ li_kelvin info = Some k
      else li_kelvin info = None).
Proof.
  unfold light_info_of. destruct (truthy data); simpl.
  2:{ intros [= <-]. simpl. auto. }
  intros Hd.
  bind_inv Hd. bind_inv Hd. bind_inv Hd. bind_inv Hd. bind_inv Hd. bind_inv Hd.
  injection Hd as <-. simpl. split.
  - destruct a1; try (bind_inv Ha3; injection Ha3 as <-; eauto).
    now injection Ha3 as <-.
  - destruct (truthy a2).
    + bind_inv Ha4. injection Ha4 as <-. eauto.
    + now injection Ha4 as <-.
Qed.

(** The bodies of the light entity used as concrete inputs. *)
Definition light_body (brightness color_temp : json) : json :=
  JObj [("state", JStr "on");
        ("attributes", JObj [("brightness", brightness); ("color_temp", color_temp)])].

(** C7, as the code has it: for every light reading with a known brightness
    [b] in 0..255, the derived percentage is [100 * b / 255] truncated to
    an integer ([int(...)] drops the fraction, it does not round). *)
Theorem brightness_pct_truncated (data : json) (info : light_info) (b : Z) :
  light_info_of data = Ok info ->
  li_brightness info = JInt b ->
  0 <= b <= 255 ->
  li_brightness_pct info = Some (100 * b / 255).
Proof.
  intros Hinfo Hb Hrange.
  destruct (light_info_of_Ok _ _ Hinfo) as [Hpct _].
  rewrite Hb in Hpct. destruct Hpct as (p & Hp & ->).
  rewrite (brightness_pct_of_floor b Hrange) in Hp. congruence.
Qed.

Lemma brightness_pct_truncated_witness :
  light_info_of (light_body (JInt 128) (JInt 370))
  = Ok (mk_light_info (JStr "on") (JInt 128) (Some 50) (JInt 370) (Some 2702))
  /\ Some 50 = Some (100 * 128 / 255).
Proof.
  split; [vm_compute; reflexivity|].
  apply (brightness_pct_truncated (light_body (JInt 128) (JInt 370))
           (mk_light_info (JStr "on") (JInt 128) (Some 50) (JInt 370) (Some 2702)) 128);
    [vm_compute; reflexivity | reflexivity | lia].
Defined.

(** C7 as stated fails: a brightness of 254 is shown as 99 percent, and
    [round(254 / 255 * 100)] is 100. *)
Lemma brightness_pct_not_rounded :
  exists info,
    light_info_of (light_body (JInt 254) JNull) = Ok info
    /\ li_brightness info = JInt 254
    /\ li_brightness_pct info = Some 99
    /\ Spec.brightness_pct_rounded 254 = 100.
Proof.
  exists (mk_light_info (JStr "on") (JInt 254) (Some 99) JNull None).
  repeat split; vm_compute; reflexivity.
Qed.

(** C8, as the code has it: kelvin is [1,000,000 / mired] truncated to an
    integer (for every mired from 1 to [MIRED_MAX]); through the two
    conversions of the program the presets come back as 2702, 4000 and
    6024, so within 24 of the preset and exact only for 4000. *)
Theorem kelvin_truncated_round_trip (data : json) (info : light_info) (m : Z) :
  light_info_of data = Ok info ->
  li_mired info = JInt m ->
  1 <= m <= MIRED_MAX ->
  li_kelvin info = Some (1000000 / m)
  /\ (mired_of_kelvin WARM_K = Ok 370 /\ kelvin_of (JInt 370) = Ok 2702)
  /\ (mired_of_kelvin NEUTRAL_K = Ok 250 /\ kelvin_of (JInt 250) = Ok 4000)
  /\ (mired_of_kelvin COOL_K = Ok 166 /\ kelvin_of (JInt 166) = Ok 6024).
Proof.
  intros Hinfo Hm Hrange. split.
  - destruct (light_info_of_Ok _ _ Hinfo) as [_ Hk].
    rewrite Hm in Hk. simpl in Hk.
    destruct (Z.eqb_spec m 0) as [->|_]; [lia|]. simpl in Hk.
    destruct Hk as (k & Hk & ->).
    rewrite (kelvin_of_floor m Hrange) in Hk. congruence.
  - repeat split; vm_compute; reflexivity.
Qed.

Lemma kelvin_truncated_round_trip_witness :
  li_kelvin (mk_light_info (JStr "on") (JInt 128) (Some 50) (JInt 370) (Some 2702))
  = Some (1000000 / 370)
  /\ (mired_of_kelvin WARM_K = Ok 370 /\ kelvin_of (JInt 370) = Ok 2702)
  /\ (mired_of_kelvin NEUTRAL_K = Ok 250 /\ kelvin_of (JInt 250) = Ok 4000)
  /\ (mired_of_kelvin COOL_K = Ok 166 /\ kelvin_of (JInt 166) = Ok 6024).
Proof.
  apply (kelvin_truncated_round_trip (light_body (JInt 128) (JInt 370)) _ 370);
    [vm_compute; reflexivity | reflexivity | unfold MIRED_MAX; lia].
Defined.

(** C8 as stated fails twice: a mired of 370 gives 2702 kelvin where
    [round(1,000,000 / 370)] is 2703, and the preset 6000 comes back from
    its mired value 166 as 6024, which is not within 1 of 6000. *)
Lemma kelvin_round_trip_off :
  kelvin_of (JInt 370) = Ok 2702
  /\ Spec.kelvin_rounded 370 = 2703
  /\ mired_of_kelvin COOL_K = Ok 166
  /\ kelvin_of (JInt 166) = Ok 6024
  /\ ~ (COOL_K - 1 <= 6024 <= COOL_K + 1).
Proof.
  repeat split; try (vm_compute; reflexivity).
  unfold COOL_K. lia.
Qed.

(** C9, as the code has it: kelvin is present exactly when mired is
    present and truthy (so not for a mired of 0), and then it is the
    conversion of that same mired value. *)
Theorem kelvin_from_mired (data : json) (info : light_info) :
  light_info_of data = Ok info ->
  (li_mired info = JNull -> li_kelvin info = None)
  /\ (li_kelvin info <> None <-> truthy (li_mired info) = true)
  /\ (forall k, li_kelvin info = Some k -> kelvin_of (li_mired info) = Ok k).
Proof.
  intros Hinfo. destruct (light_info_of_Ok _ _ Hinfo) as [_ Hk].
  destruct (truthy (li_mired info)) eqn:Ht.
  - destruct Hk as (k & Hk & Hsome). repeat split.
    + intros Hnull. rewrite Hnull in Ht. discriminate.
    + congruence.
    + intros k' Hk'. congruence.
  - repeat split; congruence.
Qed.

Lemma kelvin_from_mired_witness :
  (JInt 370 = JNull -> Some 2702 = None)
  /\ (Some 2702 <> None <-> truthy (JInt 370) = true)
  /\ (forall k, Some 2702 = Some k -> kelvin_of (JInt 370) = Ok k).
Proof.
  apply (kelvin_from_mired (light_body (JInt 128) (JInt 370))
           (mk_light_info (JStr "on") (JInt 128) (Some 50) (JInt 370) (Some 2702))).
  vm_compute; reflexivity.
Defined.

(** C9 as stated fails: a reading whose [color_temp] is 0 gives a snapshot
    with mired present (0) and kelvin absent. *)
Lemma mired_without_kelvin :
  exists info,
    light_info_of (light_body (JInt 128) (JInt 0)) = Ok info
    /\ li_mired info = JInt 0
    /\ li_mired info <> JNull
    /\ li_kelvin info = None.
Proof.
  exists (mk_light_info (JStr "on") (JInt 128) (Some 50) (JInt 0) None).
  repeat split; try (vm_compute; reflexivity).
  simpl. discriminate.
Qed.

End Reading.

(* ================================================================== *)
(** ** How the functions of the script run                              *)
(* ================================================================== *)

Module Effects.
Import Py Panel PyFacts.

Section Runs.

Context {Env : Type} `{Outside Env}.

Lemma ha_get_state_run (id : string) (w : world Env) :
  ha_get_state id w = (Ok (read_value (answer_to id w)), after_get id w).
Proof.
  unfold ha_get_state, bind, do_get, after_get, answer_to, read_log, print, emit, ret.
  destruct (http_get id (w_env w)) as [r e']. simpl.
  destruct r as [|st [j|]]; simpl; try destruct (raises_for_status st); simpl;
    rewrite <- ?app_assoc; reflexivity.
Qed.

Lemma get_light_info_run (w : world Env) :
  get_light_info w
  = (light_info_of (read_value (answer_to LIGHT_ENTITY w)), after_get LIGHT_ENTITY w).
Proof.
  unfold get_light_info, bind. rewrite ha_get_state_run. reflexivity.
Qed.

Lemma get_weather_info_run (w : world Env) :
  get_weather_info w
  = (weather_info_of (read_value (answer_to WEATHER_ENTITY w)),
     after_get WEATHER_ENTITY w).
Proof.
  unfold get_weather_info, bind. rewrite ha_get_state_run. reflexivity.
Qed.

Lemma get_adaptive_on_run (w : world Env) :
  get_adaptive_on w
  = (adaptive_of (read_value (answer_to ADAPTIVE_SWITCH w)),
     after_get ADAPTIVE_SWITCH w).
Proof.
  unfold get_adaptive_on, bind. rewrite ha_get_state_run. reflexivity.
Qed.

(** A read adds one [EvGet], perhaps a printed line, and nothing else. *)
Lemma after_get_posts (id : string) (w : world Env) :
  posts (after_get id w) = posts w.
Proof.
  unfold posts, after_get, read_log. simpl. rewrite filter_app. simpl.
  destruct (read_failed _); simpl; apply app_nil_r.
Qed.

Lemma after_get_panels (id : string) (w : world Env) :
  panels (after_get id w) = panels w.
Proof.
  unfold panels, after_get, read_log. simpl. rewrite filter_app. simpl.
  destruct (read_failed _); simpl; apply app_nil_r.
Qed.

Lemma after_get_gets (id : string) (w : world Env) :
  gets (after_get id w) = (gets w ++ [EvGet id])%list.
Proof.
  unfold gets, after_get, read_log. simpl. rewrite filter_app. simpl.
  destruct (read_failed _); reflexivity.
Qed.

Lemma after_get_cache (id : string) (w : world Env) :
  state_cache (after_get id w) = state_cache w.
Proof. reflexivity. Qed.

(** *** [posts_only], rule by rule *)

Lemma posts_only_same {A} (good : event -> Prop) (m : M Env A) :
  (forall w, posts (snd (m w)) = posts w) -> posts_only good m.
Proof.
  intros Hm w. exists []. rewrite Hm, app_nil_r. auto.
Qed.

Lemma posts_only_ret {A} (good : event -> Prop) (a : A) :
  posts_only good (ret (Env:=Env) a).
Proof. apply posts_only_same. reflexivity. Qed.

Lemma posts_only_lift {A} (good : event -> Prop) (r : res A) :
  posts_only good (lift (Env:=Env) r).
Proof. apply posts_only_same. reflexivity. Qed.

Lemma posts_only_print (good : event -> Prop) (msg : string) :
  posts_only good (print (Env:=Env) msg).
Proof.
  apply posts_only_same. intros w. unfold posts, print, emit. simpl.
  rewrite filter_app. simpl. apply app_nil_r.
Qed.

Lemma posts_only_bind {A B} (good : event -> Prop) (m : M Env A) (k : A -> M Env B) :
  posts_only good m -> (forall a, posts_only good (k a)) ->
  posts_only good (bind m k).
Proof.
  intros Hm Hk w. unfold bind.
  destruct (Hm w) as (n1 & E1 & G1).
  destruct (m w) as [[a|e] w1]; simpl in *.
  - destruct (Hk a w1) as (n2 & E2 & G2).
    exists (n1 ++ n2)%list. rewrite E2, E1, app_assoc. split; [reflexivity|].
    apply Forall_app. auto.
  - exists n1. auto.
Qed.

(** After a pure step the continuation is only run on the value it gave. *)
Lemma posts_only_bind_lift {A B} (good : event -> Prop) (r : res A)
    (k : A -> M Env B) :
  (forall a, r = Ok a -> posts_only good (k a)) ->
  posts_only good (bind (lift r) k).
Proof.
  intros Hk w. unfold bind, lift. destruct r as [a|e].
  - apply (Hk a eq_refl).
  - exists []. simpl. rewrite app_nil_r. auto.
Qed.

Lemma posts_only_ha_get_state (good : event -> Prop) (id : string) :
  posts_only good (ha_get_state (Env:=Env) id).
Proof.
  apply posts_only_same. intros w. rewrite ha_get_state_run. apply after_get_posts.
Qed.

Lemma posts_only_ha_call_service (good : event -> Prop) (d s : string)
    (data : list (string * json)) :
  good (EvPost d s data) -> posts_only good (ha_call_service (Env:=Env) d s data).
Proof.
  intros Hg w. exists [EvPost d s data]. split; [|auto].
  unfold ha_call_service, bind, do_post, posts.
  destruct (http_post d s data (w_env w)) as [r e']. simpl.
  destruct r as [|st txt]; [|destruct (negb (st =? 200))];
    unfold print, emit, ret; simpl; rewrite ?filter_app; simpl;
    rewrite ?app_nil_r; reflexivity.
Qed.

Lemma posts_only_get_cache (good : event -> Prop) :
  posts_only good (get_cache (Env:=Env)).
Proof. apply posts_only_same. reflexivity. Qed.

Lemma posts_only_set_cache (good : event -> Prop) (f : cache -> cache) :
  posts_only good (set_cache (Env:=Env) f).
Proof. apply posts_only_same. reflexivity. Qed.

Lemma posts_only_draw_panel (good : event -> Prop) (info : light_info)
    (wx : option weather_info) (a : bool) :
  posts_only good (draw_panel (Env:=Env) info wx a).
Proof.
  apply posts_only_same. intros w. unfold draw_panel, bind, lift.
  destruct (panel_image _ _ _ _); simpl; [|reflexivity].
  unfold posts. simpl. rewrite filter_app. simpl. apply app_nil_r.
Qed.

End Runs.

Create HintDb posts.

#[export] Hint Resolve posts_only_ret posts_only_lift posts_only_print
  posts_only_ha_get_state posts_only_get_cache posts_only_set_cache
  posts_only_draw_panel : posts.

Ltac posts_steps :=
  repeat first
    [ solve [auto with posts]
    | apply posts_only_bind; [|intros ?] ].

Section Calls.

Context {Env : Type} `{Outside Env}.

(** [refresh_display] only reads and draws. *)
Lemma refresh_display_posts_only (good : event -> Prop) :
  posts_only good (refresh_display (Env:=Env)).
Proof.
  unfold refresh_display, store_light, store_weather, store_adaptive,
    draw_cached, get_light_info, get_weather_info, get_adaptive_on.
  posts_steps.
Qed.

Lemma refresh_display_posts (w : world Env) :
  posts (snd (refresh_display w)) = posts w.
Proof.
  destruct (refresh_display_posts_only (fun _ => False) w) as (new & E & G).
  destruct new as [|e new]; [now rewrite app_nil_r in E|].
  now inversion G.
Qed.

End Calls.
End Effects.

(* ================================================================== *)
(** ** The color-temperature cycler                                     *)
(* ================================================================== *)

Module Cycler.
Import Py Panel.

(** [next_kelvin] on the kelvin the [or] has chosen: the preset after the
    nearest one. *)
Lemma next_kelvin_nearest (kelvin : option Z) :
  next_kelvin kelvin = Ok (Spec.next_preset (current_kelvin kelvin)).
Proof.
  unfold next_kelvin, Spec.next_preset, Spec.nearest_index, presets,
    WARM_K, NEUTRAL_K, COOL_K.
  generalize (current_kelvin kelvin) as k. intros k.
  cbn [map py_min_list list_min res_bind].
  set (a := Z.abs (k - 2700)). set (b := Z.abs (k - 4000)).
  set (c := Z.abs (k - 6000)).
  unfold py_index. cbn [index_from].
  destruct (Z.ltb_spec b a), (Z.leb_spec a b); try lia;
    destruct (Z.leb_spec a c), (Z.leb_spec b c); simpl;
    repeat match goal with
           | |- context [if ?x <? ?y then _ else _] => destruct (Z.ltb_spec x y)
           | |- context [?x =? ?y] => destruct (Z.eqb_spec x y)
           end; simpl; try reflexivity; try lia.
Qed.

(** C3, as the code has it: for every non-zero current kelvin [k] (4000
    when the kelvin is unknown or 0), the cycler takes the preset of
    [2700, 4000, 6000] nearest to [k], the first one on a tie, and passes
    the next preset of the list, the first after the last, to [set_light];
    so 2700 gives 4000, 4000 gives 6000, 6000 gives 2700, 3000 gives 4000. *)
Theorem cycler_next_preset {Env : Type} `{Outside Env} (info : light_info) :
  let k := match li_kelvin info with
           | Some k => if k =? 0 then 4000 else k
           | None => 4000
           end in
  next_kelvin (li_kelvin info) = Ok (Spec.next_preset k)
  /\ cycle_color_temp (Env:=Env) info
     = set_light (li_brightness info) (Some (Spec.next_preset k)) false
  /\ next_kelvin (Some 2700) = Ok 4000
  /\ next_kelvin (Some 4000) = Ok 6000
  /\ next_kelvin (Some 6000) = Ok 2700
  /\ next_kelvin (Some 3000) = Ok 4000.
Proof.
  intros k.
  assert (Hk : next_kelvin (li_kelvin info) = Ok (Spec.next_preset k))
    by apply next_kelvin_nearest.
  split; [exact Hk|]. split.
  - unfold cycle_color_temp. rewrite Hk. reflexivity.
  - repeat split; reflexivity.
Qed.

(** C3 as stated fails at a kelvin of 0: the preset nearest to 0 is 2700
    and the next one is 4000, but the [or] replaces the 0 by 4000 and the
    cycler answers 6000. *)
Lemma cycler_at_zero :
  next_kelvin (Some 0) = Ok 6000 /\ Spec.next_preset 0 = 4000.
Proof. split; reflexivity. Qed.

End Cycler.

(* ================================================================== *)
(** ** The button handlers                                              *)
(* ================================================================== *)

Module Buttons.
Import Py Panel PyFacts Effects Sim.

(** The payload of a brightness change. *)
Definition brightness_payload (b : Z) : list (string * json) :=
  [("entity_id", JStr LIGHT_ENTITY); ("brightness", JInt b)].

(** A hub where the light reports a brightness of 0 and adaptive mode is
    off. *)
Definition dark_hub : Sim.sim :=
  Sim.mk_sim [Sim.light_on 0 370] [Sim.sunny] [Sim.switch false] 0.

(** A hub where the light is off (no brightness reported). *)
Definition off_hub : Sim.sim :=
  Sim.mk_sim [Sim.light_off] [Sim.sunny] [Sim.switch true] 0.

(** A hub where the light is at a brightness of 250. *)
Definition bright_hub : Sim.sim :=
  Sim.mk_sim [Sim.light_on 250 370] [Sim.sunny] [Sim.switch true] 0.

Lemma clamp_brightness_int (x : Z) :
  clamp_brightness (JInt x) = Ok (JInt (Z.min 255 (Z.max 1 x))).
Proof.
  unfold clamp_brightness, py_min_int, py_max_int, py_lt_int, py_gt_int.
  simpl. destruct (Z.ltb_spec x 255); simpl.
  - destruct (Z.ltb_spec 1 x); do 2 f_equal; lia.
  - do 2 f_equal; lia.
Qed.

(** Whatever [max(1, min(255, brightness))] returns is a number from 1 to
    255. *)
Lemma clamp_brightness_ok (x v : json) :
  clamp_brightness x = Ok v -> brightness_ok v.
Proof.
  unfold clamp_brightness, py_min_int, py_max_int.
  destruct x as [|b|a|f|s|l|kv]; simpl; try discriminate.
  - destruct b; simpl; intros [= <-]; simpl; lia.
  - destruct (Z.ltb_spec a 255); simpl.
    + destruct (Z.ltb_spec 1 a); intros [= <-]; simpl; lia.
    + intros [= <-]; simpl; lia.
  - destruct (Z_float_compare 255 f) as [[| |]|] eqn:Hhi; simpl;
      try (intros [= <-]; simpl; lia).
    destruct (Z_float_compare 1 f) as [[| |]|] eqn:Hlo; simpl;
      intros [= <-]; simpl; auto; lia.
Qed.

Lemma turn_on_payload_ok (b : json) (k : option Z) (payload : list (string * json)) :
  turn_on_payload b k = Ok payload ->
  turn_on_call (EvPost "light" "turn_on" payload).
Proof.
  unfold turn_on_payload. intros Hp.
  apply res_bind_Ok in Hp. destruct Hp as (pb & Hpb & Hp).
  apply res_bind_Ok in Hp. destruct Hp as (pk & Hpk & Hp).
  injection Hp as <-. simpl. repeat split.
  intros v Hv.
  assert (Hkey : dict_lookup "brightness" pk = None).
  { destruct k as [k|]; [|now injection Hpk as <-].
    apply res_bind_Ok in Hpk. destruct Hpk as (m & _ & Hpk).
    now injection Hpk as <-. }
  assert (Hcases : pb = [] \/ exists c, clamp_brightness b = Ok c /\ pb = [("brightness", c)]).
  { destruct b; try (apply res_bind_Ok in Hpb; destruct Hpb as (c & Hc & Hpb);
                     injection Hpb as <-; right; eauto).
    left. now injection Hpb as <-. }
  destruct Hcases as [-> | (c & Hc & ->)]; simpl in Hv.
  - congruence.
  - injection Hv as <-. eapply clamp_brightness_ok, Hc.
Qed.

Section Handlers.

Context {Env : Type} `{Outside Env}.

Lemma set_light_posts_only (b : json) (k : option Z) :
  posts_only turn_on_call (set_light (Env:=Env) b k false).
Proof.
  unfold set_light. apply posts_only_bind_lift. intros payload Hp.
  apply posts_only_ha_call_service. eapply turn_on_payload_ok, Hp.
Qed.

Lemma ha_call_service_posts (d s : string) (data : list (string * json))
    (w : world Env) :
  posts (snd (ha_call_service d s data w)) = (posts w ++ [EvPost d s data])%list.
Proof.
  unfold ha_call_service, bind, do_post, posts.
  destruct (http_post d s data (w_env w)) as [r e']. simpl.
  destruct r as [|st txt]; [|destruct (negb (st =? 200))];
    unfold print, emit, ret; simpl; rewrite ?filter_app; simpl;
    rewrite ?app_nil_r; reflexivity.
Qed.

(** What a Brighter or Dimmer press sends, once the light has been read
    and the new brightness computed. *)
Lemma brightness_press_posts (msg : string) (step : json -> res json)
    (w : world Env) (info : light_info) (b : json) (payload : list (string * json)) :
  fst (get_light_info w) = Ok info ->
  step (py_or (li_brightness info) (JInt 128)) = Ok b ->
  turn_on_payload b None = Ok payload ->
  posts (snd ((print msg ;;; info <- get_light_info ;;
               b <- lift (step (py_or (li_brightness info) (JInt 128))) ;;
               set_light b None false ;;; refresh_display) w))
  = (posts w ++ [EvPost "light" "turn_on" payload])%list.
Proof.
  intros Hinfo Hb Hp.
  rewrite get_light_info_run in Hinfo. simpl in Hinfo.
  unfold bind at 1. unfold print, emit. simpl.
  unfold bind at 1. rewrite get_light_info_run.
  change (answer_to LIGHT_ENTITY _) with (answer_to LIGHT_ENTITY w).
  rewrite Hinfo.
  unfold bind at 1. unfold lift at 1. rewrite Hb.
  unfold bind at 1. unfold set_light.
  unfold bind at 1. unfold lift at 1. rewrite Hp.
  match goal with
  | |- context [ha_call_service ?d ?s ?p ?w0] =>
      pose proof (ha_call_service_posts d s p w0) as Hcall;
      destruct (ha_call_service d s p w0) as [[[]|e] w1]
  end; simpl in Hcall |- *.
  - rewrite refresh_display_posts, Hcall, after_get_posts.
    unfold posts. simpl. rewrite filter_app. simpl. now rewrite app_nil_r.
  - rewrite Hcall, after_get_posts.
    unfold posts. simpl. rewrite filter_app. simpl. now rewrite app_nil_r.
Qed.

Lemma on_btn2_posts_only : posts_only turn_on_call (on_btn2 (Env:=Env)).
Proof.
  unfold on_btn2, get_light_info.
  apply posts_only_bind; [auto with posts|intros _].
  apply posts_only_bind; [posts_steps|intros info].
  apply posts_only_bind_lift. intros b _.
  apply posts_only_bind; [apply set_light_posts_only|intros _].
  apply refresh_display_posts_only.
Qed.

Lemma on_btn3_posts_only : posts_only turn_on_call (on_btn3 (Env:=Env)).
Proof.
  unfold on_btn3, get_light_info.
  apply posts_only_bind; [auto with posts|intros _].
  apply posts_only_bind; [posts_steps|intros info].
  apply posts_only_bind_lift. intros b _.
  apply posts_only_bind; [apply set_light_posts_only|intros _].
  apply refresh_display_posts_only.
Qed.

Lemma on_btn4_posts_only : posts_only turn_on_call (on_btn4 (Env:=Env)).
Proof.
  unfold on_btn4, get_adaptive_on, get_light_info.
  apply posts_only_bind; [posts_steps|intros a].
  destruct (negb a); [auto with posts|].
  apply posts_only_bind; [auto with posts|intros _].
  apply posts_only_bind; [posts_steps|intros info].
  apply posts_only_bind; [|intros _; apply refresh_display_posts_only].
  unfold cycle_color_temp. apply posts_only_bind_lift. intros k _.
  apply set_light_posts_only.
Qed.

End Handlers.

Section Presses.

Context {Env : Type} `{Outside Env}.

(** C2, as the code has it: a Button 2 press writes
    [min(255, max(1, b + 25))] and a Button 3 press
    [min(255, max(1, b - 25))], where [b] is the brightness just read from
    the hub when that is a non-zero int, and 128 when it is unknown (null)
    or 0; from 250, Button 2 writes 255. *)
Theorem brightness_press_clamped (w : world Env) (info : light_info) (b : Z) :
  fst (get_light_info w) = Ok info ->
  (li_brightness info = JInt b /\ b <> 0)
  \/ ((li_brightness info = JNull \/ li_brightness info = JInt 0) /\ b = 128) ->
  posts (snd (on_btn2 w))
  = (posts w ++ [EvPost "light" "turn_on" (brightness_payload (Spec.clamped b 25))])%list
  /\ posts (snd (on_btn3 w))
     = (posts w ++ [EvPost "light" "turn_on" (brightness_payload (Spec.clamped b (-25)))])%list
  /\ Spec.clamped 250 25 = 255.
Proof.
  intros Hinfo Hb.
  assert (Hor : py_or (li_brightness info) (JInt 128) = JInt b).
  { destruct Hb as [[-> Hnz] | [[-> | ->] ->]]; unfold py_or; simpl; auto.
    destruct (Z.eqb_spec b 0); [contradiction|reflexivity]. }
  split; [|split; [|reflexivity]].
  - apply (brightness_press_posts "BTN2: Brighter" (fun x => py_add_int x 25)
             w info (JInt (b + 25))); auto.
    + rewrite Hor. reflexivity.
    + unfold turn_on_payload. rewrite clamp_brightness_int. reflexivity.
  - apply (brightness_press_posts "BTN3: Dimmer" (fun x => py_sub_int x 25)
             w info (JInt (b - 25))); auto.
    + rewrite Hor. reflexivity.
    + unfold turn_on_payload. rewrite clamp_brightness_int. reflexivity.
Qed.

(** C10: every service call that Buttons 2, 3 and 4 issue is
    [light.turn_on] on the light with a brightness, if any, from 1 to 255,
    whatever the hub answers; on a light that is off (no brightness
    reported) a Brighter press sends [turn_on] with 153 and a Dimmer press
    sends [turn_on] with 103. *)
Theorem presses_only_turn_on :
  posts_only turn_on_call (on_btn2 (Env:=Env))
  /\ posts_only turn_on_call (on_btn3 (Env:=Env))
  /\ posts_only turn_on_call (on_btn4 (Env:=Env))
  /\ forall (w : world Env) (info : light_info),
       fst (get_light_info w) = Ok info ->
       li_brightness info = JNull ->
       posts (snd (on_btn2 w))
       = (posts w ++ [EvPost "light" "turn_on" (brightness_payload 153)])%list
       /\ posts (snd (on_btn3 w))
          = (posts w ++ [EvPost "light" "turn_on" (brightness_payload 103)])%list.
Proof.
  split; [apply on_btn2_posts_only|].
  split; [apply on_btn3_posts_only|].
  split; [apply on_btn4_posts_only|].
  intros w info Hinfo Hnull. split.
  - apply (brightness_press_posts "BTN2: Brighter" (fun x => py_add_int x 25)
             w info (JInt 153)); auto.
    rewrite Hnull. reflexivity.
  - apply (brightness_press_posts "BTN3: Dimmer" (fun x => py_sub_int x 25)
             w info (JInt 103)); auto.
    rewrite Hnull. reflexivity.
Qed.

(** C4, as the code has it: a Button 4 press while adaptive mode is off
    reads the adaptive switch once (that read is the check), prints that it
    ignores the press, and does nothing else: no service call, no other
    read, no panel pushed, the cache untouched. *)
Theorem btn4_off_only_reads_switch (w : world Env) :
  fst (get_adaptive_on w) = Ok false ->
  fst (on_btn4 w) = Ok tt
  /\ gets (snd (on_btn4 w)) = (gets w ++ [EvGet ADAPTIVE_SWITCH])%list
  /\ posts (snd (on_btn4 w)) = posts w
  /\ panels (snd (on_btn4 w)) = panels w
  /\ state_cache (snd (on_btn4 w)) = state_cache w.
Proof.
  intros Hoff. rewrite get_adaptive_on_run in Hoff. simpl in Hoff.
  assert (Hrun : on_btn4 w
                 = print "BTN4: Natural is OFF, ignoring"
                     (after_get ADAPTIVE_SWITCH w)).
  { unfold on_btn4, bind. rewrite get_adaptive_on_run, Hoff. reflexivity. }
  rewrite Hrun. unfold print, emit, gets, posts, panels. cbn [fst snd w_trace state_cache].
  rewrite !filter_app. cbn [filter is_get is_post is_display]. rewrite !app_nil_r.
  fold (gets (after_get ADAPTIVE_SWITCH w)).
  fold (posts (after_get ADAPTIVE_SWITCH w)).
  fold (panels (after_get ADAPTIVE_SWITCH w)).
  rewrite after_get_gets, after_get_posts, after_get_panels.
  repeat split.
Qed.

End Presses.

(** C2 as stated fails at a brightness of 0: the press writes 153, as for
    an unknown brightness, and [min(255, max(1, 0 + 25))] is 25. *)
Lemma brighter_from_zero :
  fst (get_light_info (Sim.world_of dark_hub))
  = Ok (mk_light_info (JStr "on") (JInt 0) (Some 0) (JInt 370) (Some 2702))
  /\ posts (snd (on_btn2 (Sim.world_of dark_hub)))
     = [EvPost "light" "turn_on" (brightness_payload 153)]
  /\ Spec.clamped 0 25 = 25.
Proof. repeat split; vm_compute; reflexivity. Qed.

Lemma brightness_press_clamped_witness :
  posts (snd (on_btn2 (Sim.world_of bright_hub)))
  = [EvPost "light" "turn_on" (brightness_payload 255)]
  /\ posts (snd (on_btn3 (Sim.world_of bright_hub)))
     = [EvPost "light" "turn_on" (brightness_payload 225)]
  /\ Spec.clamped 250 25 = 255.
Proof.
  apply (brightness_press_clamped (Sim.world_of bright_hub)
           (mk_light_info (JStr "on") (JInt 250) (Some 98) (JInt 370) (Some 2702)) 250).
  - vm_compute; reflexivity.
  - left. split; [reflexivity | lia].
Defined.

Lemma presses_only_turn_on_witness :
  posts (snd (on_btn2 (Sim.world_of off_hub)))
  = [EvPost "light" "turn_on" (brightness_payload 153)]
  /\ posts (snd (on_btn3 (Sim.world_of off_hub)))
     = [EvPost "light" "turn_on" (brightness_payload 103)].
Proof.
  apply (proj2 (proj2 (proj2 presses_only_turn_on)) (Sim.world_of off_hub)
           (mk_light_info (JStr "off") JNull None JNull None)).
  - vm_compute; reflexivity.
  - reflexivity.
Defined.

Lemma btn4_off_only_reads_switch_witness :
  fst (on_btn4 (Sim.world_of dark_hub)) = Ok tt
  /\ gets (snd (on_btn4 (Sim.world_of dark_hub))) = [EvGet ADAPTIVE_SWITCH]
  /\ posts (snd (on_btn4 (Sim.world_of dark_hub))) = []
  /\ panels (snd (on_btn4 (Sim.world_of dark_hub))) = []
  /\ state_cache (snd (on_btn4 (Sim.world_of dark_hub))) = Sim.blank_cache.
Proof.
  apply (btn4_off_only_reads_switch (Sim.world_of dark_hub)).
  vm_compute; reflexivity.
Defined.

(** C4 as stated fails: with adaptive mode off the press still makes one
    call to the hub, the read of the adaptive switch. *)
Lemma btn4_off_reads_hub :
  fst (get_adaptive_on (Sim.world_of dark_hub)) = Ok false
  /\ gets (snd (on_btn4 (Sim.world_of dark_hub))) = [EvGet ADAPTIVE_SWITCH]
  /\ List.length (gets (snd (on_btn4 (Sim.world_of dark_hub)))) <> 0%nat.
Proof. repeat split; [vm_compute; reflexivity .. | vm_compute; discriminate]. Qed.

End Buttons.

(* ================================================================== *)
(** ** Failed reads and the loop of [main]                              *)
(* ================================================================== *)

Module Failures.
Import Py Panel PyFacts Effects Reading Sim.

Lemma read_failed_value (r : get_result) :
  read_failed r = true -> read_value r = JNull.
Proof.
  destruct r as [|st [j|]]; simpl; auto.
  rewrite orb_false_r. now intros ->.
Qed.

Lemma dict_lookup_truthy (k : string) (kv : list (string * json)) (v : json) :
  dict_lookup k kv = Some v -> truthy (JObj kv) = true.
Proof. destruct kv; [discriminate | reflexivity]. Qed.

(** An attribute of a documented entity is null or an int in its range. *)
Lemma attr_get (key : string) (lo hi : Z) (attrs : list (string * json)) :
  attr_in_range key lo hi attrs ->
  exists v, py_get (JObj attrs) key = Ok v
            /\ (v = JNull \/ exists z, v = JInt z /\ lo <= z <= hi).
Proof.
  unfold attr_in_range, py_get, py_get_default.
  destruct (dict_lookup key attrs) as [[| |z| | | |]|]; try contradiction;
    intros Hv; eauto 10.
Qed.

Lemma pct_of_attr (bri : json) :
  bri = JNull \/ (exists z, bri = JInt z /\ 0 <= z <= 255) ->
  exists pct,
    match bri with
    | JNull => Ok None
    | _ => res_bind (brightness_pct_of bri) (fun p => Ok (Some p))
    end = Ok pct.
Proof.
  intros [-> | (z & -> & Hz)]; [eauto|].
  rewrite (brightness_pct_of_floor z Hz). simpl. eauto.
Qed.

Lemma kelvin_of_attr (ct : json) :
  ct = JNull \/ (exists z, ct = JInt z /\ 0 <= z <= MIRED_MAX) ->
  exists kel,
    (if truthy ct
     then res_bind (kelvin_of ct) (fun k => Ok (Some k))
     else Ok None) = Ok kel.
Proof.
  intros [-> | (z & -> & Hz)]; [simpl; eauto|].
  cbn [truthy]. destruct (Z.eqb_spec z 0) as [->|Hnz]; cbn [negb]; [eauto|].
  rewrite (kelvin_of_floor z ltac:(lia)). simpl. eauto.
Qed.

Lemma light_info_of_entity (j : json) :
  entity_ok j ->
  exists info s, light_info_of j = Ok info /\ li_state info = JStr s.
Proof.
  intros (kv & st & -> & Hst & Hattrs).
  unfold light_info_of. rewrite (dict_lookup_truthy _ _ _ Hst).
  cbn [negb py_getitem py_get_default]. rewrite Hst. cbn [res_bind].
  destruct (dict_lookup "attributes" kv) as [[| | | | | |attrs]|];
    try contradiction.
  - destruct Hattrs as [Hb Hc].
    destruct (attr_get _ _ _ _ Hb) as (bri & E1 & Hbri).
    destruct (attr_get _ _ _ _ Hc) as (ct & E2 & Hct).
    destruct (pct_of_attr bri Hbri) as (pct & E3).
    destruct (kelvin_of_attr ct Hct) as (kel & E4).
    rewrite E1. cbn [res_bind]. rewrite E2. cbn [res_bind].
    rewrite E3. cbn [res_bind]. rewrite E4. cbn [res_bind].
    do 2 eexists. split; reflexivity.
  - do 2 eexists. split; reflexivity.
Qed.

Lemma weather_info_of_entity (j : json) :
  entity_ok j -> exists wx, weather_info_of j = Ok wx.
Proof.
  intros (kv & st & -> & Hst & Hattrs).
  unfold weather_info_of. rewrite (dict_lookup_truthy _ _ _ Hst).
  cbn [negb py_getitem py_get_default].
  destruct (dict_lookup "attributes" kv) as [[| | | | | |attrs]|];
    try contradiction; cbn [res_bind py_get py_get_default]; rewrite Hst;
    cbn [res_bind].
  - destruct (dict_lookup "temperature" attrs) as [[| | | | | |]|]; eauto.
  - simpl. eauto.
Qed.

Lemma adaptive_of_entity (j : json) :
  entity_ok j -> exists a, adaptive_of j = Ok a.
Proof.
  intros (kv & st & -> & Hst & _).
  unfold adaptive_of. rewrite (dict_lookup_truthy _ _ _ Hst).
  cbn [negb py_get py_get_default res_bind]. eauto.
Qed.

Lemma light_info_of_outcome (r : get_result) :
  outcome_ok r ->
  exists info s, light_info_of (read_value r) = Ok info /\ li_state info = JStr s.
Proof.
  intros [Hf | He].
  - rewrite (read_failed_value r Hf). exists unknown_light, "unknown". auto.
  - apply light_info_of_entity, He.
Qed.

Lemma weather_info_of_outcome (r : get_result) :
  outcome_ok r -> exists wx, weather_info_of (read_value r) = Ok wx.
Proof.
  intros [Hf | He].
  - rewrite (read_failed_value r Hf). exists None. auto.
  - apply weather_info_of_entity, He.
Qed.

Lemma adaptive_of_outcome (r : get_result) :
  outcome_ok r -> exists a, adaptive_of (read_value r) = Ok a.
Proof.
  intros [Hf | He].
  - rewrite (read_failed_value r Hf). exists false. auto.
  - apply adaptive_of_entity, He.
Qed.

Section Loop.

Context {Env : Type} `{Outside Env}.

(** *** The four statements of [refresh_display], one by one *)

Lemma store_light_run (w : world Env) :
  store_light w
  = match light_info_of (read_value (answer_to LIGHT_ENTITY w)) with
    | Ok l =>
        (Ok tt,
         mk_world (w_env (after_get LIGHT_ENTITY w))
           (mk_cache l (c_weather (state_cache w)) (c_adaptive (state_cache w)))
           (w_trace (after_get LIGHT_ENTITY w)))
    | Raise e => (Raise e, after_get LIGHT_ENTITY w)
    end.
Proof.
  unfold store_light, bind. rewrite get_light_info_run.
  destruct (light_info_of _); reflexivity.
Qed.

Lemma store_weather_run (w : world Env) :
  store_weather w
  = match weather_info_of (read_value (answer_to WEATHER_ENTITY w)) with
    | Ok wx =>
        (Ok tt,
         mk_world (w_env (after_get WEATHER_ENTITY w))
           (mk_cache (c_light (state_cache w)) wx (c_adaptive (state_cache w)))
           (w_trace (after_get WEATHER_ENTITY w)))
    | Raise e => (Raise e, after_get WEATHER_ENTITY w)
    end.
Proof.
  unfold store_weather, bind. rewrite get_weather_info_run.
  destruct (weather_info_of _); reflexivity.
Qed.

Lemma store_adaptive_run (w : world Env) :
  store_adaptive w
  = match adaptive_of (read_value (answer_to ADAPTIVE_SWITCH w)) with
    | Ok a =>
        (Ok tt,
         mk_world (w_env (after_get ADAPTIVE_SWITCH w))
           (mk_cache (c_light (state_cache w)) (c_weather (state_cache w)) a)
           (w_trace (after_get ADAPTIVE_SWITCH w)))
    | Raise e => (Raise e, after_get ADAPTIVE_SWITCH w)
    end.
Proof.
  unfold store_adaptive, bind. rewrite get_adaptive_on_run.
  destruct (adaptive_of _); reflexivity.
Qed.

Lemma draw_cached_run (w : world Env) :
  draw_cached w
  = match panel_image (strftime (w_env w)) (c_light (state_cache w))
            (c_weather (state_cache w)) (c_adaptive (state_cache w)) with
    | Ok img =>
        (Ok tt, mk_world (w_env w) (state_cache w) (w_trace w ++ [EvDisplay img]))
    | Raise e => (Raise e, w)
    end.
Proof.
  unfold draw_cached, bind, get_cache, draw_panel, bind, lift.
  destruct (panel_image _ _ _ _); reflexivity.
Qed.

Lemma panel_image_string_state (now_str : string) (info : light_info)
    (wx : option weather_info) (a : bool) (s : string) :
  li_state info = JStr s -> exists img, panel_image now_str info wx a = Ok img.
Proof.
  intros Hs. unfold panel_image. rewrite Hs. simpl. eauto.
Qed.

(** *** With a hub that fails or answers well, nothing raises *)

Variable Inv : Env -> Prop.
Hypothesis Hhub : hub_ok Inv.

Lemma answer_ok (id : string) (w : world Env) :
  Inv (w_env w) ->
  outcome_ok (answer_to id w) /\ Inv (w_env (after_get id w)).
Proof. intros Hw. apply (proj1 Hhub id (w_env w) Hw). Qed.

Lemma refresh_display_returns (w : world Env) :
  Inv (w_env w) ->
  exists w', refresh_display w = (Ok tt, w') /\ Inv (w_env w').
Proof.
  intros Hw. unfold refresh_display.
  (* line 201 *)
  destruct (answer_ok LIGHT_ENTITY w Hw) as [Ho1 Hw1].
  destruct (light_info_of_outcome _ Ho1) as (l & s & El & Hs).
  unfold bind at 1. rewrite store_light_run, El.
  set (w1 := mk_world _ _ _).
  (* line 202 *)
  destruct (answer_ok WEATHER_ENTITY w1 Hw1) as [Ho2 Hw2].
  destruct (weather_info_of_outcome _ Ho2) as (wx & Ewx).
  unfold bind at 1. rewrite store_weather_run, Ewx.
  set (w2 := mk_world _ _ _).
  (* line 203 *)
  destruct (answer_ok ADAPTIVE_SWITCH w2 Hw2) as [Ho3 Hw3].
  destruct (adaptive_of_outcome _ Ho3) as (a & Ea).
  unfold bind at 1. rewrite store_adaptive_run, Ea.
  set (w3 := mk_world _ _ _).
  (* line 204 *)
  rewrite draw_cached_run.
  destruct (panel_image_string_state (strftime (w_env w3)) l wx a s Hs) as (img & Ei).
  change (c_light (state_cache w3)) with l.
  change (c_weather (state_cache w3)) with wx.
  change (c_adaptive (state_cache w3)) with a.
  rewrite Ei. eexists. split; [reflexivity|exact Hw3].
Qed.

Lemma main_loop_returns (n : nat) : forall (last : spec_float) (w : world Env),
  Inv (w_env w) -> exists w', main_loop n last w = (Ok tt, w').
Proof.
  induction n as [|n IH]; intros last w Hw.
  - eexists. reflexivity.
  - cbn [main_loop]. unfold bind at 1. unfold now at 1.
    destruct (interval_elapsed (time_time (w_env w)) last).
    + destruct (refresh_display_returns w Hw) as (w1 & E1 & Hw1).
      unfold bind at 1. unfold bind at 1. rewrite E1.
      unfold ret at 1. unfold bind at 1. unfold sleep at 1.
      apply IH. simpl. apply (proj2 Hhub), Hw1.
    + unfold bind at 1. unfold ret at 1. unfold bind at 1. unfold sleep at 1.
      apply IH. simpl. apply (proj2 Hhub), Hw.
Qed.

Lemma main_returns (n : nat) (w : world Env) :
  Inv (w_env w) -> fst (main n w) = Ok tt.
Proof.
  intros Hw. unfold main.
  unfold bind at 1. unfold print, emit.
  set (w0 := mk_world _ _ _).
  destruct (refresh_display_returns w0 Hw) as (w1 & E1 & Hw1).
  unfold bind at 1. rewrite E1.
  unfold bind at 1. unfold now at 1.
  destruct (main_loop_returns n (time_time (w_env w1)) w1 Hw1) as (w2 & E2).
  rewrite E2. reflexivity.
Qed.

End Loop.

(** The value of [attrs.get(key)]. *)
Definition attr (key : string) (attrs : list (string * json)) : json :=
  match dict_lookup key attrs with
  | Some v => v
  | None => JNull
  end.

(** A hub that answers the light read with a redirection: a 302 whose body
    is JSON and is not an entity, or a 302 whose body is the entity. *)
Definition found_hub : sim :=
  mk_sim [GetResponse 302 (Some (JObj [("message", JStr "Found")]))]
         [sunny] [switch false] 0.

Definition moved_hub : sim :=
  mk_sim [GetResponse 302
            (Some (JObj [("state", JStr "on");
                         ("attributes", JObj [("brightness", JInt 128)])]))]
         [sunny] [switch false] 0.

(** The light reading of an entity whose attributes are in their ranges,
    whichever of them are there. *)
Lemma light_info_of_attrs (kv : list (string * json)) (st : json)
    (attrs : list (string * json)) :
  dict_lookup "state" kv = Some st ->
  dict_lookup "attributes" kv = Some (JObj attrs) ->
  attr_in_range "brightness" 0 255 attrs ->
  attr_in_range "color_temp" 0 MIRED_MAX attrs ->
  light_info_of (JObj kv)
  = Ok (mk_light_info st
          (attr "brightness" attrs)
          match attr "brightness" attrs with
          | JInt b => Some (100 * b / 255)
          | _ => None
          end
          (attr "color_temp" attrs)
          match attr "color_temp" attrs with
          | JInt m => if m =? 0 then None else Some (1000000 / m)
          | _ => None
          end).
Proof.
  intros Hst Hattrs Hb Hc. unfold light_info_of.
  rewrite (dict_lookup_truthy _ _ _ Hst).
  cbn [negb py_getitem py_get_default py_get]. rewrite Hst, Hattrs.
  cbn [res_bind py_get py_get_default].
  unfold attr_in_range in Hb, Hc. unfold attr.
  destruct (dict_lookup "brightness" attrs) as [[| |b| | | |]|];
    try contradiction;
    destruct (dict_lookup "color_temp" attrs) as [[| |m| | | |]|];
    try contradiction; cbn [res_bind truthy negb];
    rewrite ?(brightness_pct_of_floor _ Hb); cbn [res_bind];
    try reflexivity;
    (destruct (Z.eqb_spec m 0) as [->|Hm]; cbn [negb]; [reflexivity|];
     rewrite (kelvin_of_floor m ltac:(lia)); reflexivity).
Qed.

(** The light reading of an entity without attributes. *)
Lemma light_info_of_bare (kv : list (string * json)) (st : json) :
  dict_lookup "state" kv = Some st ->
  dict_lookup "attributes" kv = None ->
  light_info_of (JObj kv) = Ok (mk_light_info st JNull None JNull None).
Proof.
  intros Hst Hattrs. unfold light_info_of.
  rewrite (dict_lookup_truthy _ _ _ Hst).
  cbn [negb py_getitem py_get_default py_get]. rewrite Hst, Hattrs.
  reflexivity.
Qed.

(** C5, as the code has it.  [ha_get_state] takes a read as failed when
    the request raises (network error, timeout), when the status is a 4xx
    or a 5xx ([raise_for_status]), or when the body is not JSON; any other
    status is a success whose body is returned.  On a failed read the light
    read returns the unknown marker, the weather read [None] and the mode
    read [False].  An entity whose attributes lack [brightness],
    [color_temp] or [temperature], or that has no attributes at all, gives
    a reading with the fields derived from them absent.  With a hub whose
    every read fails or answers with a documented entity, [main] runs any
    number of turns of its loop without raising. *)
Theorem failed_reads_fall_back {Env : Type} `{Outside Env} :
  (forall r,
     read_failed r = true
     <-> r = GetFailed
         \/ exists st body, r = GetResponse st body
                            /\ (400 <= st < 600 \/ body = None))
  /\ (forall id (w : world Env),
        (read_failed (answer_to id w) = true -> fst (ha_get_state id w) = Ok JNull)
        /\ (forall st j, answer_to id w = GetResponse st (Some j) ->
              ~ 400 <= st < 600 -> fst (ha_get_state id w) = Ok j))
  /\ (forall w : world Env,
        read_failed (answer_to LIGHT_ENTITY w) = true ->
        fst (get_light_info w) = Ok unknown_light)
  /\ (forall w : world Env,
        read_failed (answer_to WEATHER_ENTITY w) = true ->
        fst (get_weather_info w) = Ok None)
  /\ (forall w : world Env,
        read_failed (answer_to ADAPTIVE_SWITCH w) = true ->
        fst (get_adaptive_on w) = Ok false)
  /\ (forall kv st,
        dict_lookup "state" kv = Some st ->
        (dict_lookup "attributes" kv = None ->
         light_info_of (JObj kv) = Ok (mk_light_info st JNull None JNull None)
         /\ weather_info_of (JObj kv) = Ok None)
        /\ (forall attrs,
              dict_lookup "attributes" kv = Some (JObj attrs) ->
              attr_in_range "brightness" 0 255 attrs ->
              attr_in_range "color_temp" 0 MIRED_MAX attrs ->
              light_info_of (JObj kv)
              = Ok (mk_light_info st
                      (attr "brightness" attrs)
                      match attr "brightness" attrs with
                      | JInt b => Some (100 * b / 255)
                      | _ => None
                      end
                      (attr "color_temp" attrs)
                      match attr "color_temp" attrs with
                      | JInt m => if m =? 0 then None else Some (1000000 / m)
                      | _ => None
                      end))
        /\ (forall attrs,
              dict_lookup "attributes" kv = Some (JObj attrs) ->
              attr "temperature" attrs = JNull ->
              weather_info_of (JObj kv) = Ok None))
  /\ (forall (Inv : Env -> Prop) (n : nat) (w : world Env),
        hub_ok Inv -> Inv (w_env w) -> fst (main n w) = Ok tt).
Proof.
  split; [|split; [|split; [|split; [|split; [|split]]]]].
  - intros r. split.
    + destruct r as [|st body]; [auto|]. cbn [read_failed]. intros Hf. right.
      exists st, body. split; [reflexivity|].
      apply orb_true_iff in Hf. destruct Hf as [Hs | Hb].
      * left. unfold raises_for_status in Hs. apply andb_true_iff in Hs.
        destruct Hs as [H1 H2]. apply Z.leb_le in H1. apply Z.ltb_lt in H2. lia.
      * right. destruct body; [discriminate | reflexivity].
    + intros [-> | (st & body & -> & [Hs | ->])]; [reflexivity| |].
      * cbn [read_failed]. apply orb_true_iff. left. unfold raises_for_status.
        apply andb_true_iff. split; [apply Z.leb_le | apply Z.ltb_lt]; lia.
      * cbn [read_failed]. apply orb_true_r.
  - intros id w. rewrite ha_get_state_run. cbn [fst]. split.
    + intros Hf. now rewrite (read_failed_value _ Hf).
    + intros st j -> Hs. cbn [read_value].
      destruct (raises_for_status st) eqn:Hr; [|reflexivity].
      exfalso. apply Hs. unfold raises_for_status in Hr.
      apply andb_true_iff in Hr. destruct Hr as [H1 H2].
      apply Z.leb_le in H1. apply Z.ltb_lt in H2. lia.
  - intros w Hf. rewrite get_light_info_run. simpl.
    now rewrite (read_failed_value _ Hf).
  - intros w Hf. rewrite get_weather_info_run. simpl.
    now rewrite (read_failed_value _ Hf).
  - intros w Hf. rewrite get_adaptive_on_run. simpl.
    now rewrite (read_failed_value _ Hf).
  - intros kv st Hst. split; [|split].
    + intros Hattrs. split; [apply (light_info_of_bare _ _ Hst Hattrs)|].
      unfold weather_info_of. rewrite (dict_lookup_truthy _ _ _ Hst).
      cbn [negb py_getitem py_get_default py_get]. rewrite Hst, Hattrs.
      reflexivity.
    + intros attrs Hattrs Hb Hc. apply (light_info_of_attrs _ _ _ Hst Hattrs Hb Hc).
    + intros attrs Hattrs Ht. unfold weather_info_of.
      rewrite (dict_lookup_truthy _ _ _ Hst).
      cbn [negb py_getitem py_get_default py_get]. rewrite Hst, Hattrs.
      cbn [res_bind py_get py_get_default]. unfold attr in Ht.
      destruct (dict_lookup "temperature" attrs) as [t|]; [|reflexivity].
      subst t. reflexivity.
  - intros Inv n w Hhub Hw. apply (main_returns Inv Hhub n w Hw).
Qed.

(** The hub that is down on every other request is within the hypothesis
    of the loop. *)
Lemma flaky_hub_ok : hub_ok (H:=Sim.flaky_outside) (fun _ => True).
Proof.
  split; [|auto]. intros id n _. split; [|exact I].
  simpl. unfold Sim.flaky_get. simpl. destruct (Nat.even n).
  - left. reflexivity.
  - right. exists [("state", JStr "on");
                   ("attributes", JObj [("brightness", JInt 128);
                                        ("color_temp", JInt 370)])], "on".
    repeat split; unfold attr_in_range, MIRED_MAX; simpl; lia.
Qed.

Lemma failed_reads_fall_back_witness :
  fst (main (H:=Sim.flaky_outside) 40 (mk_world 0%nat Sim.blank_cache [])) = Ok tt.
Proof.
  apply (proj2 (proj2 (proj2 (proj2 (proj2 (proj2
           (failed_reads_fall_back (H:=Sim.flaky_outside)))))))
           (fun _ => True) 40%nat (mk_world 0%nat Sim.blank_cache [])).
  - exact flaky_hub_ok.
  - exact I.
Defined.

(** C5 as stated fails on a status that is neither a success nor a 4xx or
    5xx.  A 302 is not taken as a failure: when its body is the entity the
    light read returns the live reading, not the unknown marker; when its
    body is some other JSON the light read raises [KeyError], which nothing
    catches, and [main] ends before its loop. *)
Lemma redirect_is_no_failure :
  read_failed (answer_to LIGHT_ENTITY (world_of moved_hub)) = false
  /\ fst (get_light_info (world_of moved_hub))
     = Ok (mk_light_info (JStr "on") (JInt 128) (Some 50) JNull None)
  /\ fst (get_light_info (world_of moved_hub)) <> Ok unknown_light
  /\ read_failed (answer_to LIGHT_ENTITY (world_of found_hub)) = false
  /\ fst (get_light_info (world_of found_hub)) = Raise KeyError
  /\ fst (main 0 (world_of found_hub)) = Raise KeyError.
Proof.
  split; [reflexivity|]. split; [vm_compute; reflexivity|].
  split; [vm_compute; discriminate|]. split; [reflexivity|].
  split; vm_compute; reflexivity.
Qed.

End Failures.

(* ================================================================== *)
(** ** The cache during a refresh                                       *)
(* ================================================================== *)

Module CacheFacts.
Import Py Panel PyFacts Effects Failures Threads Sim.

(** A hub whose state changes while it is read: the light goes from off to
    on and adaptive mode from off to on. *)
Definition changing_hub : sim :=
  mk_sim [light_off; light_on 128 250] [sunny]
         [switch false; switch false; switch true] 0.

(** A hub whose weather entity comes without its state. *)
Definition stateless_weather_hub : sim :=
  mk_sim [light_on 128 250]
         [GetResponse 200 (Some (JObj [("attributes", JObj [("temperature", JInt 21)])]))]
         [switch true] 0.

(** The readings before and after the change, and the mixture of both. *)
Definition sunny_info : option weather_info :=
  Some (mk_weather_info (JInt 21) (JStr "sunny")).
Definition light_off_info : light_info :=
  mk_light_info (JStr "off") JNull None JNull None.
Definition light_on_info : light_info :=
  mk_light_info (JStr "on") (JInt 128) (Some 50) (JInt 250) (Some 4000).

Definition old_snapshot : cache := mk_cache light_off_info sunny_info false.
Definition new_snapshot : cache := mk_cache light_on_info sunny_info true.
Definition mixed_snapshot : cache := mk_cache light_on_info sunny_info false.

Definition render (c : cache) : res image :=
  panel_image "Thu Jan 01  00:00" (c_light c) (c_weather c) (c_adaptive c).

(** [main] has read everything and is about to draw (line 204) when
    Button 1 is pressed; the handler runs up to the first statement of its
    own refresh (lines 208, 213, 214, 201), and then [main] draws. *)
Definition overlap : list action :=
  [StepMain; StepMain; StepMain; StepMain;
   Press Btn1; StepHandler 0; StepHandler 0; StepHandler 0; StepHandler 0;
   StepMain].

Section Sequential.

Context {Env : Type} `{Outside Env}.

(** C6, as the code has it: [refresh_display] does not replace the
    snapshot as a whole.  It assigns each key of the cache as soon as its
    own read returns: after line 201 the cache holds the new light with
    the previous weather and mode, after line 202 the new light and
    weather with the previous mode; and line 204 draws whatever the cache
    holds at that moment.  A refresh ended by an exception at a later read
    leaves the cache with the readings it already made next to the
    previous values of the others.  A refresh that runs from line 201 to
    line 204 with no other refresh in between leaves its three readings
    in the cache and, when the panel can be rendered, pushes the panel of
    these three readings as its last action. *)
Theorem refresh_stores_key_by_key (w : world Env) :
  let c := state_cache w in
  let w1 := snd (store_light w) in
  let w2 := snd (store_weather w1) in
  let w3 := snd (store_adaptive w2) in
  let r := fst (refresh_display w) in
  let w' := snd (refresh_display w) in
  (forall e, fst (get_light_info w) = Raise e ->
     r = Raise e /\ state_cache w' = c)
  /\ (forall l, fst (get_light_info w) = Ok l ->
        state_cache w1 = mk_cache l (c_weather c) (c_adaptive c)
        /\ (forall e, fst (get_weather_info w1) = Raise e ->
              r = Raise e /\ state_cache w' = state_cache w1)
        /\ (forall wx, fst (get_weather_info w1) = Ok wx ->
              state_cache w2 = mk_cache l wx (c_adaptive c)
              /\ (forall e, fst (get_adaptive_on w2) = Raise e ->
                    r = Raise e /\ state_cache w' = state_cache w2)
              /\ (forall a, fst (get_adaptive_on w2) = Ok a ->
                    state_cache w' = mk_cache l wx a
                    /\ match panel_image (strftime (w_env w3)) l wx a with
                       | Ok img =>
                           r = Ok tt
                           /\ w_trace w' = (w_trace w3 ++ [EvDisplay img])%list
                       | Raise e =>
                           r = Raise e /\ w_trace w' = w_trace w3
                       end)))
  /\ (forall w0 : world Env,
        draw_cached w0
        = match panel_image (strftime (w_env w0)) (c_light (state_cache w0))
                  (c_weather (state_cache w0)) (c_adaptive (state_cache w0)) with
          | Ok img =>
              (Ok tt,
               mk_world (w_env w0) (state_cache w0)
                 (w_trace w0 ++ [EvDisplay img]))
          | Raise e => (Raise e, w0)
          end).
Proof.
  cbv zeta. split; [|split; [|exact draw_cached_run]].
  all: assert (Hrun : refresh_display w
                      = match store_light w with
                        | (Ok _, w1) =>
                            match store_weather w1 with
                            | (Ok _, w2) =>
                                match store_adaptive w2 with
                                | (Ok _, w3) => draw_cached w3
                                | (Raise e, w3) => (Raise e, w3)
                                end
                            | (Raise e, w2) => (Raise e, w2)
                            end
                        | (Raise e, w1) => (Raise e, w1)
                        end) by reflexivity; rewrite Hrun; clear Hrun.
  - (* the light read raises *)
    intros e. rewrite get_light_info_run, store_light_run. cbn [fst].
    intros ->. split; reflexivity.
  - (* line 201 *)
    intros l. rewrite get_light_info_run, store_light_run. cbn [fst].
    intros ->. cbn [fst snd state_cache].
    set (w1 := mk_world _ _ _).
    split; [reflexivity|].
    (* line 202 *)
    rewrite get_weather_info_run, store_weather_run. cbn [fst].
    split.
    { intros e ->. split; reflexivity. }
    intros wx ->. cbn [fst snd state_cache].
    set (w2 := mk_world _ _ _).
    split; [reflexivity|].
    (* line 203 *)
    rewrite get_adaptive_on_run, store_adaptive_run. cbn [fst].
    split.
    { intros e ->. split; reflexivity. }
    intros a ->. cbn [fst snd].
    set (w3 := mk_world _ _ _).
    (* line 204 *)
    rewrite draw_cached_run.
    change (c_light (state_cache w3)) with l.
    change (c_weather (state_cache w3)) with wx.
    change (c_adaptive (state_cache w3)) with a.
    destruct (panel_image _ l wx a) as [img|e4];
      cbn [fst snd state_cache w_trace]; auto.
Qed.

End Sequential.

Lemma refresh_stores_key_by_key_witness :
  fst (refresh_display (world_of stateless_weather_hub)) = Raise KeyError
  /\ state_cache (snd (refresh_display (world_of stateless_weather_hub)))
     = mk_cache light_on_info None false.
Proof.
  refine (proj1 (proj2 (proj1 (proj2
            (refresh_stores_key_by_key (world_of stateless_weather_hub)))
            light_on_info _)) KeyError _).
  - vm_compute; reflexivity.
  - vm_compute; reflexivity.
Defined.

(** C6 as stated fails: while the handler of Button 1 has stored the light
    reading of its refresh and not yet the mode, [main] draws from the
    cache; the panel it pushes shows the light of the new reading (on) with
    the mode of the old one (manual), a snapshot that is neither the old
    one nor the new one. *)
Lemma mixed_panel_shown :
  position (sys_main (run overlap (start 0 (world_of changing_hub)))) = At 251
  /\ map position (sys_handlers (run overlap (start 0 (world_of changing_hub))))
     = [At 202]
  /\ state_cache (sys_world (run overlap (start 0 (world_of changing_hub))))
     = mixed_snapshot
  /\ (exists img, render mixed_snapshot = Ok img
                  /\ panels (sys_world (run overlap (start 0 (world_of changing_hub))))
                     = [EvDisplay img])
  /\ render mixed_snapshot <> render old_snapshot
  /\ render mixed_snapshot <> render new_snapshot.
Proof.
  split; [vm_compute; reflexivity|].
  split; [vm_compute; reflexivity|].
  split; [vm_compute; reflexivity|].
  split.
  - eexists. split; vm_compute; reflexivity.
  - split; vm_compute; discriminate.
Qed.

End CacheFacts.

(* ================================================================== *)
(** ** The two calls to the hub                                         *)
(* ================================================================== *)

Module Client.
Import Py Panel PyFacts Effects Sim.

Section Contract.

Context {Env : Type} `{Outside Env}.

(** [ha_get_state] never raises: it makes one GET, no service call,
    pushes no panel and leaves the cache alone; a failed read gives [None],
    and a body that parses under a status that is not 4xx or 5xx is
    returned as it is, with nothing printed. *)
Theorem ha_get_state_never_raises (id : string) (w : world Env) :
  exists j w',
    ha_get_state id w = (Ok j, w')
    /\ gets w' = (gets w ++ [EvGet id])%list
    /\ posts w' = posts w
    /\ panels w' = panels w
    /\ state_cache w' = state_cache w
    /\ (read_failed (answer_to id w) = true -> j = JNull)
    /\ (forall st body,
          answer_to id w = GetResponse st (Some body) ->
          raises_for_status st = false ->
          j = body /\ w_trace w' = (w_trace w ++ [EvGet id])%list).
Proof.
  exists (read_value (answer_to id w)), (after_get id w).
  split; [apply ha_get_state_run|].
  split; [apply after_get_gets|].
  split; [apply after_get_posts|].
  split; [apply after_get_panels|].
  split; [reflexivity|].
  split.
  - destruct (answer_to id w) as [|st [j|]]; simpl; auto.
    rewrite orb_false_r. now intros ->.
  - intros st body Ha Hst. unfold after_get, read_log. rewrite Ha.
    simpl. rewrite Hst. simpl. auto.
Qed.

(** [ha_call_service] never raises and returns nothing: it makes the one
    POST it was asked for, whatever the hub answers, makes no read, pushes
    no panel and leaves the cache alone; only a 200 goes unprinted. *)
Theorem ha_call_service_fire_and_forget (d s : string)
    (data : list (string * json)) (w : world Env) :
  exists w',
    ha_call_service d s data w = (Ok tt, w')
    /\ posts w' = (posts w ++ [EvPost d s data])%list
    /\ gets w' = gets w
    /\ panels w' = panels w
    /\ state_cache w' = state_cache w
    /\ (forall txt, fst (http_post d s data (w_env w)) = PostResponse 200 txt ->
          w_trace w' = (w_trace w ++ [EvPost d s data])%list)
    /\ (forall st txt, fst (http_post d s data (w_env w)) = PostResponse st txt ->
          st <> 200 ->
          w_trace w'
          = (w_trace w ++ [EvPost d s data;
                           EvPrint ("Service error: " ++ dec st ++ " " ++ txt)])%list).
Proof.
  unfold ha_call_service, bind, do_post, posts, gets, panels.
  destruct (http_post d s data (w_env w)) as [r e']. cbn [fst].
  destruct r as [|st txt].
  - eexists. split; [reflexivity|]. cbn [w_trace state_cache print emit snd fst].
    rewrite !filter_app. simpl. rewrite !app_nil_r.
    repeat split; try discriminate.
  - destruct (Z.eqb_spec st 200) as [->|Hne]; cbn [negb].
    + eexists. split; [reflexivity|]. cbn [w_trace state_cache].
      rewrite !filter_app. simpl. rewrite !app_nil_r.
      repeat split; congruence.
    + eexists. split; [reflexivity|]. cbn [w_trace state_cache print emit snd fst].
      rewrite !filter_app. simpl. rewrite !app_nil_r.
      repeat split; try congruence.
      intros st' txt' [= <- <-] _. now rewrite <- app_assoc.
Qed.

End Contract.

Lemma ha_get_state_never_raises_witness :
  exists j w',
    ha_get_state LIGHT_ENTITY (world_of (mk_sim [light_off] [sunny] [switch true] 0))
    = (Ok j, w')
    /\ gets w' = [EvGet LIGHT_ENTITY]
    /\ j = JObj [("state", JStr "off");
                 ("attributes", JObj [("brightness", JNull); ("color_temp", JNull)])].
Proof.
  destruct (ha_get_state_never_raises LIGHT_ENTITY
              (world_of (mk_sim [light_off] [sunny] [switch true] 0)))
    as (j & w' & Hrun & Hgets & _ & _ & _ & _ & Hbody).
  exists j, w'. split; [exact Hrun|]. split; [exact Hgets|].
  apply (Hbody 200 _ eq_refl eq_refl).
Defined.

Lemma ha_call_service_fire_and_forget_witness :
  exists w',
    ha_call_service "light" "toggle" [("entity_id", JStr LIGHT_ENTITY)]
      (world_of (mk_sim [light_off] [sunny] [switch true] 0)) = (Ok tt, w')
    /\ w_trace w' = [EvPost "light" "toggle" [("entity_id", JStr LIGHT_ENTITY)]].
Proof.
  destruct (ha_call_service_fire_and_forget "light" "toggle"
              [("entity_id", JStr LIGHT_ENTITY)]
              (world_of (mk_sim [light_off] [sunny] [switch true] 0)))
    as (w' & Hrun & _ & _ & _ & _ & Hquiet & _).
  exists w'. split; [exact Hrun|]. apply (Hquiet "[]" eq_refl).
Defined.

End Client.

(* ================================================================== *)
(** ** What the three reads make of a body                              *)
(* ================================================================== *)

Module Bodies.
Import Py Panel PyFacts Reading.

(** A body that is a non-empty dict without a ["state"] key: the light
    read raises [KeyError]; so does the weather read when the attributes
    are a dict or missing, even if there is no temperature; the mode read
    answers [False]. *)
Theorem body_without_state (kv : list (string * json)) :
  kv <> [] ->
  dict_lookup "state" kv = None ->
  light_info_of (JObj kv) = Raise KeyError
  /\ ((dict_lookup "attributes" kv = None
       \/ exists attrs, dict_lookup "attributes" kv = Some (JObj attrs)) ->
      weather_info_of (JObj kv) = Raise KeyError)
  /\ adaptive_of (JObj kv) = Ok false.
Proof.
  intros Hne Hst.
  assert (Ht : truthy (JObj kv) = true) by (destruct kv; [contradiction|reflexivity]).
  split; [|split].
  - unfold light_info_of. rewrite Ht. cbn [negb py_getitem]. rewrite Hst. reflexivity.
  - intros Hattrs. unfold weather_info_of. rewrite Ht.
    cbn [negb py_get_default py_getitem]. rewrite Hst.
    destruct Hattrs as [-> | (attrs & ->)]; reflexivity.
  - unfold adaptive_of. rewrite Ht. cbn [negb py_get py_get_default].
    rewrite Hst. reflexivity.
Qed.

Lemma body_without_state_witness :
  light_info_of (JObj [("attributes", JObj [])]) = Raise KeyError
  /\ ((dict_lookup "attributes" [("attributes", JObj [])] = None
       \/ exists attrs,
            dict_lookup "attributes" [("attributes", JObj [])] = Some (JObj attrs)) ->
      weather_info_of (JObj [("attributes", JObj [])]) = Raise KeyError)
  /\ adaptive_of (JObj [("attributes", JObj [])]) = Ok false.
Proof.
  apply (body_without_state [("attributes", JObj [])]);
    [discriminate | reflexivity].
Defined.

(** A body that is truthy and not a dict (a list, a string, a number,
    [true]): the light read raises [TypeError] on [data["state"]], the
    weather and mode reads raise [AttributeError] on [data.get]. *)
Theorem body_not_a_dict (data : json) :
  truthy data = true ->
  (forall kv, data <> JObj kv) ->
  light_info_of data = Raise TypeError
  /\ weather_info_of data = Raise AttributeError
  /\ adaptive_of data = Raise AttributeError.
Proof.
  intros Ht Hnd. unfold light_info_of, weather_info_of, adaptive_of.
  rewrite Ht. cbn [negb].
  destruct data; try (repeat split; reflexivity).
  exfalso. eapply Hnd. reflexivity.
Qed.

Lemma body_not_a_dict_witness :
  light_info_of (JList [JInt 1]) = Raise TypeError
  /\ weather_info_of (JList [JInt 1]) = Raise AttributeError
  /\ adaptive_of (JList [JInt 1]) = Raise AttributeError.
Proof.
  apply (body_not_a_dict (JList [JInt 1])); [reflexivity | discriminate].
Defined.

(** The mode read answers [True] exactly for a dict whose state is the
    string ["on"] (so not for ["ON"], [true] or 1), and never raises on a
    dict. *)
Theorem adaptive_on_iff (data : json) :
  (adaptive_of data = Ok true
   <-> exists kv, data = JObj kv /\ dict_lookup "state" kv = Some (JStr "on"))
  /\ (forall kv, exists a, adaptive_of (JObj kv) = Ok a).
Proof.
  split; [split|].
  - unfold adaptive_of. destruct (truthy data) eqn:Ht; cbn [negb]; [|discriminate].
    destruct data as [| | | | | |kv]; cbn [py_get py_get_default res_bind];
      try discriminate.
    destruct (dict_lookup "state" kv) as [[| | | |s| |]|] eqn:Hst;
      cbn [py_eq_str]; try discriminate.
    intros [= Hs]. apply String.eqb_eq in Hs. subst. eauto.
  - intros (kv & -> & Hst). unfold adaptive_of.
    rewrite (Failures.dict_lookup_truthy _ _ _ Hst).
    cbn [negb py_get py_get_default res_bind]. rewrite Hst. reflexivity.
  - intros kv. unfold adaptive_of. destruct (truthy (JObj kv)); cbn [negb]; eauto.
    cbn [py_get py_get_default res_bind]. eauto.
Qed.

(** The percentage is absent exactly when the brightness is [None]: a
    brightness of 0 is known and shown as 0 percent. *)
Theorem brightness_pct_known_iff (data : json) (info : light_info) :
  light_info_of data = Ok info ->
  (li_brightness_pct info = None <-> li_brightness info = JNull)
  /\ (li_brightness info = JInt 0 -> li_brightness_pct info = Some 0).
Proof.
  intros Hinfo. destruct (light_info_of_Ok _ _ Hinfo) as [Hpct _].
  split; [split|].
  - intros Hnone. destruct (li_brightness info); [reflexivity|..];
      destruct Hpct as (p & _ & Hp); rewrite Hp in Hnone; discriminate.
  - intros Hnull. now rewrite Hnull in Hpct.
  - intros Hz. rewrite Hz in Hpct. destruct Hpct as (p & Hp & ->).
    rewrite (brightness_pct_of_floor 0 ltac:(lia)) in Hp.
    injection Hp as <-. reflexivity.
Qed.

Lemma brightness_pct_known_iff_witness :
  (Some 0 = None <-> JInt 0 = JNull) /\ (JInt 0 = JInt 0 -> Some 0 = Some 0).
Proof.
  apply (brightness_pct_known_iff (light_body (JInt 0) JNull)
           (mk_light_info (JStr "on") (JInt 0) (Some 0) JNull None)).
  vm_compute; reflexivity.
Defined.

(** On the brightness range the percentage stays within 0..100, grows
    with the brightness, and is 100 only at 255. *)
Theorem brightness_pct_bounds (b1 b2 : Z) :
  0 <= b1 <= b2 -> b2 <= 255 ->
  exists p1 p2,
    brightness_pct_of (JInt b1) = Ok p1
    /\ brightness_pct_of (JInt b2) = Ok p2
    /\ 0 <= p1 <= p2 /\ p2 <= 100
    /\ (p2 = 100 <-> b2 = 255).
Proof.
  intros H1 H2.
  exists (100 * b1 / 255), (100 * b2 / 255).
  rewrite (brightness_pct_of_floor b1 ltac:(lia)).
  rewrite (brightness_pct_of_floor b2 ltac:(lia)).
  repeat split; try reflexivity.
  - apply Z.div_pos; lia.
  - apply Z.div_le_mono; lia.
  - apply Z.div_le_upper_bound; lia.
  - intros Hp.
    assert (Hlt : 100 * b2 / 255 < 100 \/ b2 = 255).
    { destruct (Z.eq_dec b2 255); [now right|left].
      apply Z.div_lt_upper_bound; lia. }
    destruct Hlt; [lia|assumption].
  - intros ->. reflexivity.
Qed.

Lemma brightness_pct_bounds_witness :
  exists p1 p2,
    brightness_pct_of (JInt 2) = Ok p1
    /\ brightness_pct_of (JInt 254) = Ok p2
    /\ 0 <= p1 <= p2 /\ p2 <= 100
    /\ (p2 = 100 <-> 254 = 255).
Proof. apply (brightness_pct_bounds 2 254); lia. Defined.

(** The weather read passes the temperature and the state through
    unchanged, and answers [None] exactly when the body is falsy or the
    temperature is [None] (a temperature of 0 is kept). *)
Theorem weather_passes_through (data : json) (wx : option weather_info) :
  weather_info_of data = Ok wx ->
  match wx with
  | None =>
      truthy data = false
      \/ exists attrs,
           py_get_default data "attributes" (JObj []) = Ok attrs
           /\ py_get attrs "temperature" = Ok JNull
  | Some wi =>
      truthy data = true
      /\ wi_temp wi <> JNull
      /\ py_getitem data "state" = Ok (wi_condition wi)
      /\ exists attrs,
           py_get_default data "attributes" (JObj []) = Ok attrs
           /\ py_get attrs "temperature" = Ok (wi_temp wi)
  end.
Proof.
  unfold weather_info_of. destruct (truthy data); cbn [negb].
  2:{ intros [= <-]. now left. }
  intros Hw.
  apply res_bind_Ok in Hw. destruct Hw as (attrs & Hattrs & Hw).
  apply res_bind_Ok in Hw. destruct Hw as (temp & Htemp & Hw).
  apply res_bind_Ok in Hw. destruct Hw as (cond & Hcond & Hw).
  destruct temp; injection Hw as <-;
    try (repeat split; [discriminate | assumption | eauto]).
  right. eauto.
Qed.

Lemma weather_passes_through_witness :
  truthy (JObj [("state", JStr "snowy"); ("attributes", JObj [("temperature", JInt 0)])])
  = true
  /\ JInt 0 <> JNull
  /\ py_getitem
       (JObj [("state", JStr "snowy"); ("attributes", JObj [("temperature", JInt 0)])])
       "state" = Ok (JStr "snowy")
  /\ exists attrs,
       py_get_default
         (JObj [("state", JStr "snowy"); ("attributes", JObj [("temperature", JInt 0)])])
         "attributes" (JObj []) = Ok attrs
       /\ py_get attrs "temperature" = Ok (JInt 0).
Proof.
  apply (weather_passes_through
           (JObj [("state", JStr "snowy"); ("attributes", JObj [("temperature", JInt 0)])])
           (Some (mk_weather_info (JInt 0) (JStr "snowy")))).
  reflexivity.
Defined.

End Bodies.

(* ================================================================== *)
(** ** More on the handlers and on [set_light]                          *)
(* ================================================================== *)

Module Handlers.
Import Py Panel PyFacts Effects Buttons Sim.

Lemma mired_of_next_preset (k : Z) :
  mired_of_kelvin (Spec.next_preset k) = Ok (1000000 / Spec.next_preset k).
Proof.
  unfold Spec.next_preset. destruct (Spec.nearest_index k) as [|[|n]];
    vm_compute; reflexivity.
Qed.

Section Presses.

Context {Env : Type} `{Outside Env}.

Lemma ha_call_service_Ok (d s : string) (data : list (string * json))
    (w : world Env) :
  fst (ha_call_service d s data w) = Ok tt.
Proof.
  unfold ha_call_service, bind, do_post.
  destruct (http_post d s data (w_env w)) as [[|st txt] e']; simpl;
    [|destruct (negb (st =? 200))]; reflexivity.
Qed.

Lemma print_posts (msg : string) (w : world Env) :
  posts (snd (print msg w)) = posts w.
Proof.
  unfold posts, print, emit. simpl. rewrite filter_app. simpl. apply app_nil_r.
Qed.

Lemma print_run (msg : string) (w : world Env) :
  print msg w = (Ok tt, snd (print msg w)).
Proof. reflexivity. Qed.

Lemma print_answer (id msg : string) (w : world Env) :
  answer_to id (snd (print msg w)) = answer_to id w.
Proof. reflexivity. Qed.

Lemma print_panels (msg : string) (w : world Env) :
  panels (snd (print msg w)) = panels w.
Proof.
  unfold panels, print, emit. simpl. rewrite filter_app. simpl. apply app_nil_r.
Qed.

(** A service call followed by the refresh adds the one call to the
    service calls recorded. *)
Lemma call_then_refresh_posts (d s : string) (data : list (string * json))
    (w : world Env) :
  posts (snd ((ha_call_service d s data ;;; refresh_display) w))
  = (posts w ++ [EvPost d s data])%list.
Proof.
  unfold bind.
  pose proof (ha_call_service_posts d s data w) as Hcall.
  pose proof (ha_call_service_Ok d s data w) as Hok.
  destruct (ha_call_service d s data w) as [r w1]. cbn [fst snd] in *. subst r.
  now rewrite refresh_display_posts.
Qed.

(** Button 1 reads the mode and sends the opposite order to the adaptive
    switch, [turn_off] when the mode read as on and [turn_on] otherwise (so
    also when the read failed), and nothing else. *)
Theorem on_btn1_toggles (w : world Env) (a : bool) :
  fst (get_adaptive_on w) = Ok a ->
  posts (snd (on_btn1 w))
  = (posts w
     ++ [EvPost "switch" (if a then "turn_off" else "turn_on")
           [("entity_id", JStr ADAPTIVE_SWITCH)]])%list
  /\ (read_failed (answer_to ADAPTIVE_SWITCH w) = true -> a = false).
Proof.
  intros Ha. rewrite get_adaptive_on_run in Ha. cbn [fst] in Ha. split.
  - assert (Hrun : on_btn1 w
                   = ((print (if a then "BTN1: Natural OFF" else "BTN1: Natural ON") ;;;
                       ha_call_service "switch" (if a then "turn_off" else "turn_on")
                         [("entity_id", JStr ADAPTIVE_SWITCH)]) ;;;
                      refresh_display) (after_get ADAPTIVE_SWITCH w)).
    { unfold on_btn1. unfold bind at 1. rewrite get_adaptive_on_run, Ha.
      destruct a; reflexivity. }
    rewrite Hrun.
    change (((print ?m ;;; ?c) ;;; refresh_display) ?W)
      with ((c ;;; refresh_display) (snd (print m W))).
    rewrite call_then_refresh_posts, print_posts, after_get_posts. reflexivity.
  - intros Hf. rewrite (Failures.read_failed_value _ Hf) in Ha.
    now injection Ha as <-.
Qed.

(** A Brighter or Dimmer press whose light read raises (a malformed body)
    raises the same exception and has sent nothing and drawn nothing. *)
Theorem press_with_bad_reading (w : world Env) (e : exn) :
  fst (get_light_info w) = Raise e ->
  (fst (on_btn2 w) = Raise e
   /\ posts (snd (on_btn2 w)) = posts w /\ panels (snd (on_btn2 w)) = panels w)
  /\ (fst (on_btn3 w) = Raise e
      /\ posts (snd (on_btn3 w)) = posts w /\ panels (snd (on_btn3 w)) = panels w).
Proof.
  intros He. rewrite get_light_info_run in He. cbn [fst] in He.
  assert (H2 : on_btn2 w
               = (Raise e, after_get LIGHT_ENTITY (snd (print "BTN2: Brighter" w)))).
  { unfold on_btn2. unfold bind at 1. rewrite print_run. cbv beta iota.
    unfold bind at 1. rewrite get_light_info_run, print_answer, He. reflexivity. }
  assert (H3 : on_btn3 w
               = (Raise e, after_get LIGHT_ENTITY (snd (print "BTN3: Dimmer" w)))).
  { unfold on_btn3. unfold bind at 1. rewrite print_run. cbv beta iota.
    unfold bind at 1. rewrite get_light_info_run, print_answer, He. reflexivity. }
  rewrite H2, H3. cbn [fst snd].
  rewrite !after_get_posts, !after_get_panels, !print_posts, !print_panels. auto.
Qed.

(** Button 4 with adaptive mode on sends one [light.turn_on] whose
    [color_temp] is the mired value of the preset after the nearest one,
    and which keeps the brightness just read, clamped to 1..255, or has no
    brightness when none was read. *)
Theorem on_btn4_cycles (w : world Env) (info : light_info) :
  fst (get_adaptive_on w) = Ok true ->
  fst (get_light_info (snd (get_adaptive_on w))) = Ok info ->
  li_brightness info = JNull \/ (exists b, li_brightness info = JInt b) ->
  let next := Spec.next_preset (current_kelvin (li_kelvin info)) in
  posts (snd (on_btn4 w))
  = (posts w
     ++ [EvPost "light" "turn_on"
           ([("entity_id", JStr LIGHT_ENTITY)]
            ++ match li_brightness info with
               | JInt b => [("brightness", JInt (Z.min 255 (Z.max 1 b)))]
               | _ => []
               end
            ++ [("color_temp", JInt (1000000 / next))])])%list.
Proof.
  intros Ha Hinfo Hb next.
  rewrite get_adaptive_on_run in Ha, Hinfo. cbn [fst snd] in Ha, Hinfo.
  rewrite get_light_info_run in Hinfo. cbn [fst] in Hinfo.
  assert (Hp : turn_on_payload (li_brightness info) (Some next)
               = Ok ([("entity_id", JStr LIGHT_ENTITY)]
                     ++ match li_brightness info with
                        | JInt b => [("brightness", JInt (Z.min 255 (Z.max 1 b)))]
                        | _ => []
                        end
                     ++ [("color_temp", JInt (1000000 / next))])%list).
  { unfold turn_on_payload. unfold next. rewrite mired_of_next_preset.
    destruct Hb as [-> | (b & ->)]; [reflexivity|].
    rewrite clamp_brightness_int. reflexivity. }
  set (W := snd (print "BTN4: Cycle color temp" (after_get ADAPTIVE_SWITCH w))).
  assert (Hrun : on_btn4 w
                 = (ha_call_service "light" "turn_on"
                      ([("entity_id", JStr LIGHT_ENTITY)]
                       ++ match li_brightness info with
                          | JInt b => [("brightness", JInt (Z.min 255 (Z.max 1 b)))]
                          | _ => []
                          end
                       ++ [("color_temp", JInt (1000000 / next))])%list ;;;
                    refresh_display) (after_get LIGHT_ENTITY W)).
  { unfold on_btn4. unfold bind at 1. rewrite get_adaptive_on_run, Ha. cbn [negb].
    unfold bind at 1. rewrite print_run. fold W. cbv beta iota.
    unfold bind at 1. rewrite get_light_info_run.
    change (answer_to LIGHT_ENTITY W)
      with (answer_to LIGHT_ENTITY (after_get ADAPTIVE_SWITCH w)).
    rewrite Hinfo.
    unfold cycle_color_temp. rewrite Cycler.next_kelvin_nearest. fold next.
    unfold set_light. unfold bind at 2. unfold lift at 1.
    unfold bind at 2. unfold lift at 1. rewrite Hp. reflexivity. }
  rewrite Hrun, call_then_refresh_posts, after_get_posts.
  unfold W. rewrite print_posts, after_get_posts. reflexivity.
Qed.

(** [set_light] with [toggle] sends [light.toggle] with the entity alone
    and ignores the other arguments; without it, a kelvin of 0 raises
    [ZeroDivisionError] and a brightness that is a string raises
    [TypeError], in both cases before anything is sent. *)
Theorem set_light_edges (w : world Env) :
  (forall b k,
     fst (set_light b k true w) = Ok tt
     /\ posts (snd (set_light b k true w))
        = (posts w ++ [EvPost "light" "toggle" [("entity_id", JStr LIGHT_ENTITY)]])%list)
  /\ (forall b, b = JNull \/ (exists z, b = JInt z) ->
        set_light b (Some 0) false w = (Raise ZeroDivisionError, w))
  /\ (forall s k, set_light (JStr s) k false w = (Raise TypeError, w)).
Proof.
  split; [|split].
  - intros b k. unfold set_light.
    split; [apply ha_call_service_Ok | apply ha_call_service_posts].
  - intros b [-> | (z & ->)]; unfold set_light, bind, lift, turn_on_payload.
    + reflexivity.
    + rewrite clamp_brightness_int. reflexivity.
  - intros s k. reflexivity.
Qed.

End Presses.

Lemma on_btn1_toggles_witness :
  posts (snd (on_btn1 (world_of (mk_sim [light_off] [sunny] [GetFailed] 0))))
  = [EvPost "switch" "turn_on" [("entity_id", JStr ADAPTIVE_SWITCH)]]
  /\ (read_failed (answer_to ADAPTIVE_SWITCH
                     (world_of (mk_sim [light_off] [sunny] [GetFailed] 0))) = true ->
      false = false).
Proof.
  apply (on_btn1_toggles (world_of (mk_sim [light_off] [sunny] [GetFailed] 0)) false).
  reflexivity.
Defined.

Lemma press_with_bad_reading_witness :
  (fst (on_btn2 (world_of (mk_sim [entity "on" [("brightness", JStr "high")]]
                             [sunny] [switch true] 0))) = Raise TypeError
   /\ posts (snd (on_btn2 (world_of (mk_sim [entity "on" [("brightness", JStr "high")]]
                                       [sunny] [switch true] 0)))) = []
   /\ panels (snd (on_btn2 (world_of (mk_sim [entity "on" [("brightness", JStr "high")]]
                                        [sunny] [switch true] 0)))) = [])
  /\ (fst (on_btn3 (world_of (mk_sim [entity "on" [("brightness", JStr "high")]]
                                [sunny] [switch true] 0))) = Raise TypeError
      /\ posts (snd (on_btn3 (world_of (mk_sim [entity "on" [("brightness", JStr "high")]]
                                          [sunny] [switch true] 0)))) = []
      /\ panels (snd (on_btn3 (world_of (mk_sim [entity "on" [("brightness", JStr "high")]]
                                           [sunny] [switch true] 0)))) = []).
Proof.
  apply (press_with_bad_reading
           (world_of (mk_sim [entity "on" [("brightness", JStr "high")]]
                        [sunny] [switch true] 0)) TypeError).
  reflexivity.
Defined.

Lemma on_btn4_cycles_witness :
  posts (snd (on_btn4 (world_of bright_hub)))
  = [EvPost "light" "turn_on"
       [("entity_id", JStr LIGHT_ENTITY); ("brightness", JInt 250);
        ("color_temp", JInt 250)]].
Proof.
  apply (on_btn4_cycles (world_of bright_hub)
           (mk_light_info (JStr "on") (JInt 250) (Some 98) (JInt 370) (Some 2702))).
  - vm_compute; reflexivity.
  - vm_compute; reflexivity.
  - right. exists 250. reflexivity.
Defined.

Lemma set_light_edges_witness :
  set_light (JInt 10) (Some 0) false (world_of bright_hub)
  = (Raise ZeroDivisionError, world_of bright_hub).
Proof.
  apply (proj1 (proj2 (set_light_edges (world_of bright_hub))) (JInt 10)).
  right. exists 10. reflexivity.
Defined.

End Handlers.

(* ================================================================== *)
(** ** What a refresh and the loop do to the hub                        *)
(* ================================================================== *)

Module Refreshing.
Import Py Panel PyFacts Effects Failures Sim.

Section Statements.

Context {Env : Type} `{Outside Env}.

Lemma store_light_io (w : world Env) :
  gets (snd (store_light w)) = (gets w ++ [EvGet LIGHT_ENTITY])%list
  /\ panels (snd (store_light w)) = panels w.
Proof.
  rewrite store_light_run.
  destruct (light_info_of _); cbn [snd];
    (split; [exact (after_get_gets LIGHT_ENTITY w) | exact (after_get_panels LIGHT_ENTITY w)]).
Qed.

Lemma store_weather_io (w : world Env) :
  gets (snd (store_weather w)) = (gets w ++ [EvGet WEATHER_ENTITY])%list
  /\ panels (snd (store_weather w)) = panels w.
Proof.
  rewrite store_weather_run.
  destruct (weather_info_of _); cbn [snd];
    (split; [exact (after_get_gets WEATHER_ENTITY w) | exact (after_get_panels WEATHER_ENTITY w)]).
Qed.

Lemma store_adaptive_io (w : world Env) :
  gets (snd (store_adaptive w)) = (gets w ++ [EvGet ADAPTIVE_SWITCH])%list
  /\ panels (snd (store_adaptive w)) = panels w.
Proof.
  rewrite store_adaptive_run.
  destruct (adaptive_of _); cbn [snd];
    (split; [exact (after_get_gets ADAPTIVE_SWITCH w) | exact (after_get_panels ADAPTIVE_SWITCH w)]).
Qed.

Lemma draw_cached_io (w : world Env) :
  gets (snd (draw_cached w)) = gets w
  /\ match fst (draw_cached w) with
     | Ok _ => exists img, panels (snd (draw_cached w)) = (panels w ++ [EvDisplay img])%list
     | Raise _ => panels (snd (draw_cached w)) = panels w
     end.
Proof.
  rewrite draw_cached_run. destruct (panel_image _ _ _ _) as [img|e]; cbn [fst snd].
  - unfold gets, panels. cbn [w_trace]. rewrite !filter_app. simpl.
    rewrite app_nil_r. eauto.
  - auto.
Qed.

(** [refresh_display] never calls a service; when it returns it has read
    the light, the weather and the switch, in that order, and pushed one
    panel; when it raises it has pushed none. *)
Theorem refresh_reads_then_draws (w : world Env) :
  posts (snd (refresh_display w)) = posts w
  /\ (forall e, fst (refresh_display w) = Raise e ->
        panels (snd (refresh_display w)) = panels w)
  /\ (fst (refresh_display w) = Ok tt ->
        gets (snd (refresh_display w))
        = (gets w ++ [EvGet LIGHT_ENTITY; EvGet WEATHER_ENTITY;
                      EvGet ADAPTIVE_SWITCH])%list
        /\ exists img,
             panels (snd (refresh_display w)) = (panels w ++ [EvDisplay img])%list).
Proof.
  split; [apply refresh_display_posts|].
  unfold refresh_display, bind.
  destruct (store_light_io w) as [G1 P1].
  destruct (store_light w) as [[[]|e1] w1]; cbn [fst snd] in *.
  2:{ split; [intros e _; exact P1 | discriminate]. }
  destruct (store_weather_io w1) as [G2 P2].
  destruct (store_weather w1) as [[[]|e2] w2]; cbn [fst snd] in *.
  2:{ split; [intros e _; congruence | discriminate]. }
  destruct (store_adaptive_io w2) as [G3 P3].
  destruct (store_adaptive w2) as [[[]|e3] w3]; cbn [fst snd] in *.
  2:{ split; [intros e _; congruence | discriminate]. }
  destruct (draw_cached_io w3) as [G4 P4].
  destruct (draw_cached w3) as [[[]|e4] w4]; cbn [fst snd] in *.
  - split; [discriminate|]. intros _. split.
    + rewrite G4, G3, G2, G1, <- !app_assoc. reflexivity.
    + destruct P4 as (img & P4). exists img. congruence.
  - split; [intros e _; congruence | discriminate].
Qed.

(** The dictionary of line 194 is built only after its three reads: when
    a read raises the cache is left as it was, and otherwise it holds
    the three readings; nothing is drawn and no service is called. *)
Theorem init_state_cache_all_or_nothing (w : world Env) :
  posts (snd (init_state_cache w)) = posts w
  /\ panels (snd (init_state_cache w)) = panels w
  /\ (forall e, fst (init_state_cache w) = Raise e ->
        state_cache (snd (init_state_cache w)) = state_cache w)
  /\ (fst (init_state_cache w) = Ok tt ->
        exists l wx a,
          fst (get_light_info w) = Ok l
          /\ fst (get_weather_info (snd (get_light_info w))) = Ok wx
          /\ fst (get_adaptive_on (snd (get_weather_info (snd (get_light_info w)))))
             = Ok a
          /\ state_cache (snd (init_state_cache w)) = mk_cache l wx a).
Proof.
  unfold init_state_cache, bind.
  rewrite get_light_info_run. cbn [fst snd].
  destruct (light_info_of _) as [l|e1].
  2:{ cbn [fst snd]. rewrite after_get_posts, after_get_panels.
      repeat split; try discriminate. }
  rewrite get_weather_info_run. cbn [fst snd].
  destruct (weather_info_of _) as [wx|e2].
  2:{ cbn [fst snd]. rewrite !after_get_posts, !after_get_panels.
      repeat split; try discriminate. }
  rewrite get_adaptive_on_run. cbn [fst snd].
  destruct (adaptive_of _) as [a|e3].
  2:{ cbn [fst snd]. rewrite !after_get_posts, !after_get_panels.
      repeat split; try discriminate. }
  unfold set_cache. cbn [fst snd state_cache].
  split; [|split; [|split; [discriminate|]]].
  - unfold posts. cbn [w_trace].
    change (filter is_post (w_trace ?X)) with (posts X).
    now rewrite !after_get_posts.
  - unfold panels. cbn [w_trace].
    change (filter is_display (w_trace ?X)) with (panels X).
    now rewrite !after_get_panels.
  - intros _. exists l, wx, a. auto.
Qed.

Lemma posts_only_now (good : event -> Prop) : posts_only good (now (Env:=Env)).
Proof. apply posts_only_same. reflexivity. Qed.

Lemma posts_only_sleep (good : event -> Prop) : posts_only good (sleep (Env:=Env)).
Proof. apply posts_only_same. reflexivity. Qed.

Lemma main_loop_posts_only (good : event -> Prop) (n : nat) :
  forall last, posts_only good (main_loop (Env:=Env) n last).
Proof.
  induction n as [|n IH]; intros last; cbn [main_loop].
  - apply posts_only_ret.
  - apply posts_only_bind; [apply posts_only_now|intros t].
    apply posts_only_bind.
    + destruct (interval_elapsed t last); [|apply posts_only_ret].
      apply posts_only_bind; [apply refresh_display_posts_only|intros _].
      apply posts_only_ret.
    + intros last'. apply posts_only_bind; [apply posts_only_sleep|intros _].
      apply IH.
Qed.

(** [main] only reads: however many turns its loop takes and whatever the
    hub answers, it calls no service. *)
Theorem main_never_calls_a_service (n : nat) (w : world Env) :
  posts (snd (main n w)) = posts w.
Proof.
  assert (Hmain : posts_only (fun _ => False) (main (Env:=Env) n)).
  { unfold main.
    apply posts_only_bind; [apply posts_only_print|intros _].
    apply posts_only_bind; [apply refresh_display_posts_only|intros _].
    apply posts_only_bind; [apply posts_only_now|intros last].
    apply main_loop_posts_only. }
  destruct (Hmain w) as (new & E & G).
  destruct new as [|e new]; [now rewrite app_nil_r in E|].
  now inversion G.
Qed.

End Statements.

Lemma refresh_reads_then_draws_witness :
  gets (snd (refresh_display (world_of Buttons.bright_hub)))
  = [EvGet LIGHT_ENTITY; EvGet WEATHER_ENTITY; EvGet ADAPTIVE_SWITCH]
  /\ exists img,
       panels (snd (refresh_display (world_of Buttons.bright_hub))) = [EvDisplay img].
Proof.
  apply (proj2 (proj2 (refresh_reads_then_draws (world_of Buttons.bright_hub)))).
  vm_compute; reflexivity.
Defined.

Lemma init_state_cache_all_or_nothing_witness :
  state_cache
    (snd (init_state_cache
            (world_of (mk_sim [light_off] [GetResponse 200 (Some (JList [JInt 1]))]
                         [switch true] 0))))
  = blank_cache.
Proof.
  apply (proj1 (proj2 (proj2 (init_state_cache_all_or_nothing
           (world_of (mk_sim [light_off] [GetResponse 200 (Some (JList [JInt 1]))]
                        [switch true] 0)))))
           AttributeError).
  vm_compute; reflexivity.
Defined.

End Refreshing.

(* ================================================================== *)
(** ** The panel                                                        *)
(* ================================================================== *)

Module Layout.
Import Py Panel PyFacts.

(** [ImageFont.truetype(FONT_PATH, size)], lines 142 to 144. *)
Definition font_size (f : font) : Z :=
  match f with
  | font_large => 18
  | font_med => 14
  | font_small => 12
  end.

(** Every line starts at least the size of its font below the start of
    the line before. *)
Fixpoint spaced (img : image) : bool :=
  match img with
  | [] => true
  | a :: rest =>
      match rest with
      | [] => true
      | b :: _ => (ty a + font_size (tfont a) <=? ty b) && spaced rest
      end
  end.

Definition at_y (y : Z) (c : text_cmd) : bool := ty c =? y.

(** Whatever is drawn, the lines of the panel start at x = 4, never
    overlap (each starts at least its font size below the previous one),
    and end with the four lines of the legend; the mode line says NATURAL
    exactly when adaptive mode is on; the two weather lines, at y = 64 and
    y = 80, are there exactly when there is a weather reading. *)
Theorem panel_layout (now_str : string) (info : light_info)
    (wx : option weather_info) (a : bool) (img : image) :
  panel_image now_str info wx a = Ok img ->
  spaced img = true
  /\ Forall (fun c => tx c = 4) img
  /\ (exists top, img = (top ++ legend)%list
                  /\ List.length top = match wx with Some _ => 5%nat | None => 3%nat end)
  /\ In (mk_text 4 44 [Lit (if a then "MODE: NATURAL" else "MODE: MANUAL")] font_med) img
  /\ (wx = None <-> filter (at_y 64) img = [] /\ filter (at_y 80) img = []).
Proof.
  unfold panel_image. destruct (li_state info) as [| | | |s| |]; try discriminate.
  cbn [state_upper res_bind]. intros [= <-].
  split; [destruct wx; reflexivity|].
  split; [destruct wx; repeat constructor|].
  split.
  - match goal with
    | |- exists top, ?I = _ /\ _ =>
        exists (firstn (match wx with Some _ => 5 | None => 3 end) I)
    end.
    destruct wx; split; reflexivity.
  - split; [right; right; left; reflexivity|].
    destruct wx; cbn; split; try discriminate; auto.
    intros [Hno _]. discriminate Hno.
Qed.

Lemma panel_layout_witness :
  exists img,
    panel_image "Thu Jan 01  00:00" unknown_light None false = Ok img
    /\ spaced img = true
    /\ List.length img = 7%nat.
Proof.
  eexists. split; [reflexivity|].
  split; [|reflexivity].
  eapply (panel_layout "Thu Jan 01  00:00" unknown_light None false).
  reflexivity.
Defined.

(** Drawing raises [AttributeError] exactly when the state of the light
    is not a string; a light entity whose state is a number can be read
    but not drawn. *)
Theorem panel_needs_string_state (now_str : string) (info : light_info)
    (wx : option weather_info) (a : bool) :
  (exists img, panel_image now_str info wx a = Ok img)
  <-> exists s, li_state info = JStr s.
Proof.
  unfold panel_image. split.
  - destruct (li_state info) as [| | | |s| |]; cbn [state_upper res_bind];
      intros (img & Himg); try discriminate. eauto.
  - intros (s & ->). cbn [state_upper res_bind]. eauto.
Qed.

End Layout.

(* ================================================================== *)
(** ** The cycler over several presses                                  *)
(* ================================================================== *)

Module Cycling.
Import Py Panel PyFacts Cycler.

(** Whatever the kelvin read, the cycler answers a preset, and three
    presses in a row go through the three presets and come back. *)
Theorem cycler_visits_all (kelvin : option Z) :
  exists k1 k2 k3,
    next_kelvin kelvin = Ok k1
    /\ next_kelvin (Some k1) = Ok k2
    /\ next_kelvin (Some k2) = Ok k3
    /\ next_kelvin (Some k3) = Ok k1
    /\ In k1 presets /\ In k2 presets /\ In k3 presets
    /\ k1 <> k2 /\ k2 <> k3 /\ k1 <> k3.
Proof.
  rewrite next_kelvin_nearest. unfold Spec.next_preset.
  destruct (Spec.nearest_index (current_kelvin kelvin)) as [|[|n]].
  - exists 4000, 6000, 2700. repeat split; try reflexivity; try discriminate;
      simpl; auto.
  - exists 6000, 2700, 4000. repeat split; try reflexivity; try discriminate;
      simpl; auto.
  - exists 2700, 4000, 6000. repeat split; try reflexivity; try discriminate;
      simpl; auto.
Qed.

(** The truncations do not derail the cycle: the kelvin that comes back
    from the mired value sent for a preset still has that preset as its
    nearest one, so the next press moves on from it. *)
Theorem cycler_survives_round_trip (K : Z) :
  In K presets ->
  exists m k,
    mired_of_kelvin K = Ok m
    /\ kelvin_of (JInt m) = Ok k
    /\ next_kelvin (Some k) = next_kelvin (Some K).
Proof.
  intros [<- | [<- | [<- | []]]].
  - exists 370, 2702. repeat split; vm_compute; reflexivity.
  - exists 250, 4000. repeat split; vm_compute; reflexivity.
  - exists 166, 6024. repeat split; vm_compute; reflexivity.
Qed.

Lemma cycler_survives_round_trip_witness :
  exists m k,
    mired_of_kelvin 6000 = Ok m
    /\ kelvin_of (JInt m) = Ok k
    /\ next_kelvin (Some k) = next_kelvin (Some 6000).
Proof.
  apply (cycler_survives_round_trip 6000). right. right. left. reflexivity.
Defined.

End Cycling.

(* ================================================================== *)
(** ** The order of the requests of a press                             *)
(* ================================================================== *)

Module Ordering.
Import Py Panel PyFacts Effects Failures Buttons Handlers Sim.

(** The requests sent to the hub, reads and service calls, in order. *)
Definition is_io (e : event) : bool := is_get e || is_post e.

Section Requests.

Context {Env : Type} `{Outside Env}.

Definition io (w : world Env) : list event := filter is_io (w_trace w).

Lemma after_get_io (id : string) (w : world Env) :
  io (after_get id w) = (io w ++ [EvGet id])%list.
Proof.
  unfold io, after_get, read_log. simpl. rewrite filter_app. simpl.
  destruct (read_failed _); reflexivity.
Qed.

Lemma print_io (msg : string) (w : world Env) : io (snd (print msg w)) = io w.
Proof.
  unfold io, print, emit. simpl. rewrite filter_app. simpl. apply app_nil_r.
Qed.

Lemma ha_call_service_io (d s : string) (data : list (string * json))
    (w : world Env) :
  io (snd (ha_call_service d s data w)) = (io w ++ [EvPost d s data])%list.
Proof.
  unfold ha_call_service, bind, do_post, io.
  destruct (http_post d s data (w_env w)) as [r e']. simpl.
  destruct r as [|st txt]; [|destruct (negb (st =? 200))];
    unfold print, emit, ret; simpl; rewrite ?filter_app; simpl;
    rewrite ?app_nil_r; reflexivity.
Qed.

Lemma store_light_reqs (w : world Env) :
  io (snd (store_light w)) = (io w ++ [EvGet LIGHT_ENTITY])%list.
Proof.
  rewrite store_light_run.
  destruct (light_info_of _); cbn [snd]; exact (after_get_io LIGHT_ENTITY w).
Qed.

Lemma store_weather_reqs (w : world Env) :
  io (snd (store_weather w)) = (io w ++ [EvGet WEATHER_ENTITY])%list.
Proof.
  rewrite store_weather_run.
  destruct (weather_info_of _); cbn [snd]; exact (after_get_io WEATHER_ENTITY w).
Qed.

Lemma store_adaptive_reqs (w : world Env) :
  io (snd (store_adaptive w)) = (io w ++ [EvGet ADAPTIVE_SWITCH])%list.
Proof.
  rewrite store_adaptive_run.
  destruct (adaptive_of _); cbn [snd]; exact (after_get_io ADAPTIVE_SWITCH w).
Qed.

Lemma draw_cached_reqs (w : world Env) : io (snd (draw_cached w)) = io w.
Proof.
  rewrite draw_cached_run. destruct (panel_image _ _ _ _); cbn [snd]; [|reflexivity].
  unfold io. cbn [w_trace]. rewrite filter_app. simpl. apply app_nil_r.
Qed.

(** The requests of a refresh are reads, and the three reads when it
    returns. *)
Lemma refresh_display_io (w : world Env) :
  exists rest,
    io (snd (refresh_display w)) = (io w ++ rest)%list
    /\ Forall (fun e => is_get e = true) rest
    /\ (fst (refresh_display w) = Ok tt ->
        rest = [EvGet LIGHT_ENTITY; EvGet WEATHER_ENTITY; EvGet ADAPTIVE_SWITCH]).
Proof.
  unfold refresh_display, bind.
  pose proof (store_light_reqs w) as R1.
  destruct (store_light w) as [[[]|e1] w1]; cbn [fst snd] in *.
  2:{ exists [EvGet LIGHT_ENTITY].
      split; [exact R1 | split; [repeat constructor | discriminate]]. }
  pose proof (store_weather_reqs w1) as R2.
  destruct (store_weather w1) as [[[]|e2] w2]; cbn [fst snd] in *.
  2:{ exists [EvGet LIGHT_ENTITY; EvGet WEATHER_ENTITY].
      rewrite R2, R1, <- app_assoc.
      split; [reflexivity | split; [repeat constructor | discriminate]]. }
  pose proof (store_adaptive_reqs w2) as R3.
  destruct (store_adaptive w2) as [[[]|e3] w3]; cbn [fst snd] in *.
  2:{ exists [EvGet LIGHT_ENTITY; EvGet WEATHER_ENTITY; EvGet ADAPTIVE_SWITCH].
      rewrite R3, R2, R1, <- !app_assoc.
      split; [reflexivity | split; [repeat constructor | discriminate]]. }
  exists [EvGet LIGHT_ENTITY; EvGet WEATHER_ENTITY; EvGet ADAPTIVE_SWITCH].
  rewrite draw_cached_reqs, R3, R2, R1, <- !app_assoc.
  split; [reflexivity | split; [repeat constructor | reflexivity]].
Qed.

(** What the requests of a Brighter or Dimmer press are, once the light
    has been read and the new brightness computed. *)
Lemma brightness_press_io (msg : string) (step : json -> res json)
    (w : world Env) (info : light_info) (b : json) (payload : list (string * json)) :
  fst (get_light_info w) = Ok info ->
  step (py_or (li_brightness info) (JInt 128)) = Ok b ->
  turn_on_payload b None = Ok payload ->
  let press := (print msg ;;; info <- get_light_info ;;
                b <- lift (step (py_or (li_brightness info) (JInt 128))) ;;
                set_light b None false ;;; refresh_display) in
  exists rest,
    io (snd (press w))
    = (io w ++ [EvGet LIGHT_ENTITY; EvPost "light" "turn_on" payload] ++ rest)%list
    /\ Forall (fun e => is_get e = true) rest
    /\ (fst (press w) = Ok tt ->
        rest = [EvGet LIGHT_ENTITY; EvGet WEATHER_ENTITY; EvGet ADAPTIVE_SWITCH]).
Proof.
  intros Hinfo Hb Hp press.
  rewrite get_light_info_run in Hinfo. cbn [fst] in Hinfo.
  set (W := after_get LIGHT_ENTITY (snd (print msg w))).
  assert (Hrun : press w
                 = (ha_call_service "light" "turn_on" payload ;;; refresh_display) W).
  { unfold press. unfold bind at 1. rewrite print_run. cbv beta iota.
    unfold bind at 1. rewrite get_light_info_run, print_answer, Hinfo.
    fold W. unfold bind at 1. unfold lift at 1. rewrite Hb.
    unfold set_light. unfold bind at 2. unfold lift at 1. rewrite Hp.
    reflexivity. }
  rewrite Hrun. unfold bind.
  pose proof (ha_call_service_io "light" "turn_on" payload W) as Hcall.
  pose proof (ha_call_service_Ok "light" "turn_on" payload W) as Hok.
  destruct (ha_call_service "light" "turn_on" payload W) as [r w1].
  cbn [fst snd] in *. subst r.
  destruct (refresh_display_io w1) as (rest & Hio & Hgets & Hall).
  exists rest. split; [|split; assumption].
  rewrite Hio, Hcall. unfold W. rewrite after_get_io, print_io.
  now rewrite <- !app_assoc.
Qed.

(** In a Brighter or Dimmer press the service call comes after the one
    read of the light and before every read of the refresh: the refresh
    reads the hub after the change was sent.  [b] is the brightness read,
    a non-zero int. *)
Theorem press_calls_before_refresh (w : world Env) (info : light_info) (b : Z) :
  fst (get_light_info w) = Ok info ->
  li_brightness info = JInt b ->
  b <> 0 ->
  (exists rest,
     io (snd (on_btn2 w))
     = (io w ++ [EvGet LIGHT_ENTITY;
                 EvPost "light" "turn_on" (brightness_payload (Spec.clamped b 25))]
        ++ rest)%list
     /\ Forall (fun e => is_get e = true) rest
     /\ (fst (on_btn2 w) = Ok tt ->
         rest = [EvGet LIGHT_ENTITY; EvGet WEATHER_ENTITY; EvGet ADAPTIVE_SWITCH]))
  /\ (exists rest,
        io (snd (on_btn3 w))
        = (io w ++ [EvGet LIGHT_ENTITY;
                    EvPost "light" "turn_on" (brightness_payload (Spec.clamped b (-25)))]
           ++ rest)%list
        /\ Forall (fun e => is_get e = true) rest
        /\ (fst (on_btn3 w) = Ok tt ->
            rest = [EvGet LIGHT_ENTITY; EvGet WEATHER_ENTITY; EvGet ADAPTIVE_SWITCH])).
Proof.
  intros Hinfo Hb Hnz.
  assert (Hor : py_or (li_brightness info) (JInt 128) = JInt b).
  { rewrite Hb. unfold py_or. simpl.
    destruct (Z.eqb_spec b 0); [contradiction|reflexivity]. }
  split.
  - apply (brightness_press_io "BTN2: Brighter" (fun x => py_add_int x 25)
             w info (JInt (b + 25))); auto.
    + rewrite Hor. reflexivity.
    + unfold turn_on_payload. rewrite clamp_brightness_int. reflexivity.
  - apply (brightness_press_io "BTN3: Dimmer" (fun x => py_sub_int x 25)
             w info (JInt (b - 25))); auto.
    + rewrite Hor. reflexivity.
    + unfold turn_on_payload. rewrite clamp_brightness_int. reflexivity.
Qed.

End Requests.

Lemma press_calls_before_refresh_witness :
  exists rest,
    io (snd (on_btn2 (world_of bright_hub)))
    = (io (world_of bright_hub)
       ++ [EvGet LIGHT_ENTITY;
           EvPost "light" "turn_on" (brightness_payload (Spec.clamped 250 25))]
       ++ rest)%list
    /\ Forall (fun e => is_get e = true) rest
    /\ (fst (on_btn2 (world_of bright_hub)) = Ok tt ->
        rest = [EvGet LIGHT_ENTITY; EvGet WEATHER_ENTITY; EvGet ADAPTIVE_SWITCH]).
Proof.
  refine (proj1 (press_calls_before_refresh (world_of bright_hub)
                   (mk_light_info (JStr "on") (JInt 250) (Some 98) (JInt 370)
                      (Some 2702))
                   250 _ _ _)).
  - vm_compute; reflexivity.
  - reflexivity.
  - lia.
Defined.

End Ordering.

(* ================================================================== *)
(** ** The conversions of [set_light]                                   *)
(* ================================================================== *)

Module Conversions.
Import Py Panel PyFacts Buttons.

(** The kelvin that [get_light_info] derives from the mired value that
    [set_light] sends for [K], or -1 if a conversion raises. *)
Definition round_trip (K : Z) : Z :=
  match mired_of_kelvin K with
  | Ok m => match kelvin_of (JInt m) with
            | Ok k => k
            | Raise _ => -1
            end
  | Raise _ => -1
  end.

Definition round_trip_close (K : Z) : bool :=
  (K <=? round_trip K) && (100 * (round_trip K - K) <=? K).

(** The clamp of [set_light] is idempotent: what it returns is a number
    from 1 to 255 that it returns unchanged. *)
Theorem clamp_brightness_idempotent (x v : json) :
  clamp_brightness x = Ok v ->
  brightness_ok v /\ clamp_brightness v = Ok v.
Proof.
  intros Hx. split; [eapply clamp_brightness_ok, Hx|].
  pose proof (clamp_brightness_ok x v Hx) as Hv.
  destruct v as [|b|a|f|s|l|kv]; simpl in Hv; try contradiction.
  - rewrite clamp_brightness_int. do 2 f_equal. lia.
  - destruct Hv as [Hlo Hhi].
    unfold clamp_brightness, py_min_int, py_max_int, py_lt_int, py_gt_int.
    rewrite Hhi. cbn [res_bind]. rewrite Hlo. reflexivity.
Qed.

Lemma clamp_brightness_idempotent_witness :
  brightness_ok (JInt 255) /\ clamp_brightness (JInt 255) = Ok (JInt 255).
Proof.
  apply (clamp_brightness_idempotent (JInt 300) (JInt 255)). reflexivity.
Defined.

(** For a kelvin from 1000 to 10000, the kelvin read back from the mired
    value sent is never below the kelvin asked for and at most one percent
    above it. *)
Theorem kelvin_round_trip_within_one_percent (K : Z) :
  1000 <= K <= 10000 ->
  exists m k,
    mired_of_kelvin K = Ok m
    /\ kelvin_of (JInt m) = Ok k
    /\ K <= k /\ 100 * (k - K) <= K.
Proof.
  intros HK.
  assert (Hall : forallb round_trip_close (zrange 1000 (Z.to_nat 9001)) = true)
    by (vm_compute; reflexivity).
  pose proof (forallb_zrange _ _ _ Hall K ltac:(lia)) as Hc.
  unfold round_trip_close, round_trip in Hc.
  apply andb_true_iff in Hc. destruct Hc as [H1 H2].
  apply Z.leb_le in H1, H2.
  destruct (mired_of_kelvin K) as [m|e] eqn:Hm; [|lia].
  destruct (kelvin_of (JInt m)) as [k|e] eqn:Hk; [|lia].
  exists m, k. repeat split; assumption.
Qed.

Lemma kelvin_round_trip_within_one_percent_witness :
  exists m k,
    mired_of_kelvin 6000 = Ok m
    /\ kelvin_of (JInt m) = Ok k
    /\ 6000 <= k /\ 100 * (k - 6000) <= 6000.
Proof. apply (kelvin_round_trip_within_one_percent 6000). lia. Defined.

End Conversions.

(* ================================================================== *)
(** ** Presses and reconciliations                                      *)
(* ================================================================== *)

Module Scheduling.
Import Py Panel PyFacts Effects Failures Threads Buttons Handlers Sim.

(** The line by which Button 4 declines a press. *)
Definition is_declined (e : event) : bool :=
  match e with
  | EvPrint msg => String.eqb msg "BTN4: Natural is OFF, ignoring"
  | _ => false
  end.

(** What settles a press: a panel pushed, or the press declined. *)
Definition settles (e : event) : bool := is_display e || is_declined e.

(** The statements a handler runs at most, and those it runs before it
    stands in the middle of its reconciliation. *)
Definition handler_lines : nat := 8.

Definition lines_to_202 (b : button) : nat :=
  match b with
  | Btn1 => 4%nat
  | _ => 5%nat
  end.

(** The presses [bs], the [i]-th handler onwards: each handler runs to its
    end before the next button is pressed. *)
Fixpoint presses (i : nat) (bs : list button) : list action :=
  match bs with
  | [] => []
  | b :: bs' =>
      (Press b :: repeat (StepHandler i) handler_lines) ++ presses (S i) bs'
  end.

(** A hub as [hub_ok] has it, which a service call leaves such. *)
Definition serves {Env : Type} `{Outside Env} (Inv : Env -> Prop) : Prop :=
  hub_ok Inv
  /\ forall d s data e, Inv e -> Inv (snd (http_post d s data e)).

Section Runs.

Context {Env : Type} {HO : Outside Env}.


Definition declined (w : world Env) : nat :=
  List.length (filter is_declined (w_trace w)).

Definition settled (w : world Env) : nat :=
  List.length (filter settles (w_trace w)).

(** The handler of a button, as [Panel] has it. *)
Definition on_btn (b : button) : M Env unit :=
  match b with
  | Btn1 => on_btn1
  | Btn2 => on_btn2
  | Btn3 => on_btn3
  | Btn4 => on_btn4
  end.

(** How a thread ends. *)
Definition finish (r : res unit) : thread Env :=
  match r with
  | Ok _ => Running Done
  | Raise e => Raised e
  end.

(** [k] statements of one thread. *)
Fixpoint steps (k : nat) (t : thread Env) (w : world Env) : thread Env * world Env :=
  match k with
  | O => (t, w)
  | S k' => let (t', w') := step_thread t w in steps k' t' w'
  end.

(** Code of at most [k] statements. *)
Inductive bounded : nat -> proc Env -> Prop :=
| bounded_Done (k : nat) : bounded k Done
| bounded_Do (k : nat) (A : Type) (line : Z) (m : M Env A) (f : A -> proc Env) :
    (forall a, bounded k (f a)) -> bounded (S k) (Do line m f).

(** *** The code of the threads is the code of [Panel] *)

Lemma bind_ret_tt (m : M Env unit) (w : world Env) :
  (m ;;; ret tt) w = m w.
Proof. unfold bind. destruct (m w) as [[[]|e] w']; reflexivity. Qed.

Lemma exec_refresh (k : proc Env) (w : world Env) :
  exec (refresh_proc k) w = (refresh_display ;;; exec k) w.
Proof.
  unfold refresh_proc, refresh_display. cbn [exec]. unfold bind.
  destruct (store_light w) as [[[]|e1] w1]; [|reflexivity].
  destruct (store_weather w1) as [[[]|e2] w2]; [|reflexivity].
  destruct (store_adaptive w2) as [[[]|e3] w3]; [|reflexivity].
  destruct (draw_cached w3) as [[[]|e4] w4]; reflexivity.
Qed.

Lemma exec_refresh_Done (w : world Env) :
  exec (refresh_proc Done) w = refresh_display w.
Proof. rewrite exec_refresh. apply bind_ret_tt. Qed.

Lemma bind_ext {A B} (m : M Env A) (f g : A -> M Env B) (w : world Env) :
  (forall a w', f a w' = g a w') -> bind m f w = bind m g w.
Proof. intros Hfg. unfold bind. destruct (m w) as [[a|e] w']; auto. Qed.

Lemma bind_assoc {A B C} (m : M Env A) (f : A -> M Env B) (g : B -> M Env C)
    (w : world Env) :
  bind (bind m f) g w = bind m (fun a => bind (f a) g) w.
Proof. unfold bind. destruct (m w) as [[a|e] w']; reflexivity. Qed.

Lemma exec_handler (b : button) (w : world Env) :
  exec (handler b) w = on_btn b w.
Proof.
  destruct b; cbn [handler on_btn].
  - unfold btn1_proc, on_btn1. cbn [exec]. apply bind_ext.
    intros [|] w1; cbn [exec]; rewrite bind_assoc;
      apply bind_ext; intros _ w2; apply bind_ext; intros _ w3;
      apply exec_refresh_Done.
  - unfold btn2_proc, on_btn2. cbn [exec].
    apply bind_ext; intros _ w1. apply bind_ext; intros info w2.
    change (bind (ret ?x) ?f w2) with (f x w2). cbv beta zeta.
    rewrite bind_assoc. apply bind_ext; intros v w3.
    apply bind_ext; intros _ w4. apply exec_refresh_Done.
  - unfold btn3_proc, on_btn3. cbn [exec].
    apply bind_ext; intros _ w1. apply bind_ext; intros info w2.
    change (bind (ret ?x) ?f w2) with (f x w2). cbv beta zeta.
    rewrite bind_assoc. apply bind_ext; intros v w3.
    apply bind_ext; intros _ w4. apply exec_refresh_Done.
  - unfold btn4_proc, on_btn4. cbn [exec]. apply bind_ext.
    intros [|] w1; cbn [negb exec].
    + apply bind_ext; intros _ w2. apply bind_ext; intros info w3.
      apply bind_ext; intros _ w4. apply exec_refresh_Done.
    + apply bind_ret_tt.
Qed.

Lemma exec_main_loop (n : nat) : forall (last : spec_float) (w : world Env),
  exec (main_loop_proc n last) w = main_loop n last w.
Proof.
  induction n as [|n IH]; intros last w; cbn [main_loop_proc main_loop exec].
  - reflexivity.
  - apply bind_ext; intros t w1.
    destruct (interval_elapsed t last).
    + rewrite exec_refresh, bind_assoc. apply bind_ext; intros _ w2.
      cbn [exec]. change (bind (ret ?x) ?f w2) with (f x w2). cbv beta.
      apply bind_ext; intros _ w3. apply IH.
    + cbn [exec]. change (bind (ret ?x) ?f w1) with (f x w1). cbv beta.
      apply bind_ext; intros _ w3. apply IH.
Qed.

Lemma exec_main (n : nat) (w : world Env) :
  exec (main_proc n) w = main n w.
Proof.
  unfold main_proc, main. cbn [exec]. apply bind_ext; intros _ w1.
  rewrite exec_refresh. apply bind_ext; intros _ w2. cbn [exec].
  apply bind_ext; intros last w3. apply exec_main_loop.
Qed.

(** *** A thread that runs alone *)

Lemma steps_Done (k : nat) (w : world Env) :
  steps k (Running Done) w = (Running Done, w).
Proof. induction k as [|k IH]; [reflexivity | exact IH]. Qed.

Lemma steps_Raised (k : nat) (e : exn) (w : world Env) :
  steps k (Raised e) w = (Raised e, w).
Proof. induction k as [|k IH]; [reflexivity | exact IH]. Qed.

(** Run for as many statements as it has, a thread does what its code
    does when nothing interrupts it. *)
Lemma steps_exec (k : nat) (p : proc Env) :
  bounded k p ->
  forall w, steps k (Running p) w = (finish (fst (exec p w)), snd (exec p w)).
Proof.
  induction 1 as [k|k A line m f Hf IH]; intros w.
  - apply steps_Done.
  - cbn [steps step_thread exec]. unfold bind.
    destruct (m w) as [[a|e] w'].
    + apply IH.
    + apply steps_Raised.
Qed.

Lemma bounded_handler (b : button) : bounded handler_lines (handler b).
Proof.
  destruct b; unfold handler_lines, handler, btn1_proc, btn2_proc, btn3_proc,
    btn4_proc, refresh_proc;
    repeat first
      [ apply bounded_Done
      | apply bounded_Do; intros ?
      | match goal with
        | |- bounded _ (if ?c then _ else _) => destruct c
        end ].
Qed.

Lemma set_nth_same {A} (x : A) : forall (l : list A) (i : nat),
  nth_error l i = Some x -> set_nth i x l = l.
Proof.
  induction l as [|y l IH]; intros [|i] Hi; simpl in *; try discriminate.
  - now injection Hi as ->.
  - now rewrite IH.
Qed.

Lemma set_nth_twice {A} (x y : A) : forall (l : list A) (i : nat),
  set_nth i x (set_nth i y l) = set_nth i x l.
Proof.
  induction l as [|z l IH]; intros [|i]; simpl; auto. now rewrite IH.
Qed.

Lemma nth_error_set_nth {A} (x y : A) : forall (l : list A) (i : nat),
  nth_error l i = Some y -> nth_error (set_nth i x l) i = Some x.
Proof.
  induction l as [|z l IH]; intros [|i] Hi; simpl in *; try discriminate; eauto.
Qed.

Lemma set_nth_last {A} (x y : A) (l : list A) :
  set_nth (List.length l) x (l ++ [y]) = (l ++ [x])%list.
Proof. induction l as [|z l IH]; simpl; [reflexivity | now rewrite IH]. Qed.

Lemma nth_error_last {A} (x : A) (l : list A) :
  nth_error (l ++ [x]) (List.length l) = Some x.
Proof. induction l as [|z l IH]; simpl; auto. Qed.

Lemma run_app (a b : list action) (s : system Env) :
  run (a ++ b) s = run b (run a s).
Proof. revert s. induction a as [|x a IH]; intros s; simpl; auto. Qed.

(** The [i]-th handler takes [k] steps while the others stand still. *)
Lemma run_handler (i k : nat) : forall (s : system Env) (t : thread Env),
  nth_error (sys_handlers s) i = Some t ->
  run (repeat (StepHandler i) k) s
  = mk_system (snd (steps k t (sys_world s))) (sys_main s)
      (set_nth i (fst (steps k t (sys_world s))) (sys_handlers s)).
Proof.
  induction k as [|k IH]; intros s t Ht.
  - cbn [repeat run steps fst snd]. rewrite (set_nth_same _ _ _ Ht).
    now destruct s.
  - cbn [repeat run steps step_system]. rewrite Ht.
    destruct (step_thread t (sys_world s)) as [t' w'].
    rewrite (IH _ t'); cbn [sys_world sys_main sys_handlers].
    + now rewrite set_nth_twice.
    + apply (nth_error_set_nth _ _ _ _ Ht).
Qed.

(** A press, and the first [k] statements of its handler. *)
Lemma run_press_steps (b : button) (k : nat) (w : world Env)
    (t : thread Env) (hs : list (thread Env)) :
  run (Press b :: repeat (StepHandler (List.length hs)) k) (mk_system w t hs)
  = mk_system (snd (steps k (Running (handler b)) w)) t
      (hs ++ [fst (steps k (Running (handler b)) w)]).
Proof.
  cbn [run step_system sys_world sys_main sys_handlers].
  rewrite (run_handler _ _ _ (Running (handler b)));
    cbn [sys_world sys_main sys_handlers]; [|apply nth_error_last].
  now rewrite set_nth_last.
Qed.

(** A press whose handler runs to its end at once: the handler of
    [Panel], run in the world of the moment. *)
Lemma press_run (b : button) (s : system Env) :
  run (Press b :: repeat (StepHandler (List.length (sys_handlers s))) handler_lines) s
  = mk_system (snd (on_btn b (sys_world s))) (sys_main s)
      (sys_handlers s ++ [finish (fst (on_btn b (sys_world s)))]).
Proof.
  cbn [run step_system].
  rewrite (run_handler _ _ _ (Running (handler b)));
    cbn [sys_world sys_main sys_handlers]; [|apply nth_error_last].
  rewrite (steps_exec _ _ (bounded_handler b)), exec_handler. cbn [fst snd].
  now rewrite set_nth_last.
Qed.

End Runs.

Section Hub.

Context {Env : Type} {HO : Outside Env}.

Variable Inv : Env -> Prop.
Hypothesis Hserves : serves Inv.

(** The light in the cache has a state that can be drawn. *)
Definition cache_ok (w : world Env) : Prop :=
  exists s, li_state (c_light (state_cache w)) = JStr s.

Definition good (w : world Env) : Prop := Inv (w_env w) /\ cache_ok w.

Lemma bind_Ok {A B} (m : M Env A) (k : A -> M Env B) (w w1 : world Env) (a : A) :
  m w = (Ok a, w1) -> bind m k w = k a w1.
Proof. intros Hm. unfold bind. now rewrite Hm. Qed.

Lemma bind_print {B} (msg : string) (k : unit -> M Env B) (w : world Env) :
  bind (print msg) k w = k tt (snd (print msg w)).
Proof. reflexivity. Qed.

Lemma bind_lift_Ok {A B} (a : A) (k : A -> M Env B) (w : world Env) :
  bind (lift (Ok a)) k w = k a w.
Proof. reflexivity. Qed.

(** *** Reads *)

Lemma light_reading_ok (r : get_result) :
  outcome_ok r ->
  exists info s,
    light_info_of (read_value r) = Ok info
    /\ li_state info = JStr s
    /\ (li_brightness info = JNull \/ exists b, li_brightness info = JInt b).
Proof.
  intros [Hf | (kv & st & Hj & Hst & Hattrs)].
  - rewrite (read_failed_value r Hf). exists unknown_light, "unknown". auto.
  - rewrite Hj.
    destruct (dict_lookup "attributes" kv) as [[| | | | | |attrs]|] eqn:Ha;
      try contradiction.
    + destruct Hattrs as [Hb Hc].
      rewrite (light_info_of_attrs _ _ _ Hst Ha Hb Hc).
      eexists. exists st. split; [reflexivity|]. split; [reflexivity|].
      cbn [li_brightness]. unfold attr_in_range in Hb. unfold attr.
      destruct (dict_lookup "brightness" attrs) as [[| |b| | | |]|];
        try contradiction; eauto.
    + rewrite (light_info_of_bare _ _ Hst Ha).
      eexists. exists st. auto.
Qed.

Lemma light_read_good (w : world Env) :
  Inv (w_env w) ->
  exists info s,
    get_light_info w = (Ok info, after_get LIGHT_ENTITY w)
    /\ Inv (w_env (after_get LIGHT_ENTITY w))
    /\ li_state info = JStr s
    /\ (li_brightness info = JNull \/ exists b, li_brightness info = JInt b).
Proof.
  intros Hw.
  destruct (answer_ok Inv (proj1 Hserves) LIGHT_ENTITY w Hw) as [Ho Hw1].
  destruct (light_reading_ok _ Ho) as (info & s & Hi & Hs & Hb).
  exists info, s. rewrite get_light_info_run, Hi. auto.
Qed.

Lemma weather_read_good (w : world Env) :
  Inv (w_env w) ->
  exists wx,
    get_weather_info w = (Ok wx, after_get WEATHER_ENTITY w)
    /\ Inv (w_env (after_get WEATHER_ENTITY w)).
Proof.
  intros Hw.
  destruct (answer_ok Inv (proj1 Hserves) WEATHER_ENTITY w Hw) as [Ho Hw1].
  destruct (weather_info_of_outcome _ Ho) as (wx & Hwx).
  exists wx. rewrite get_weather_info_run, Hwx. auto.
Qed.

Lemma adaptive_read_good (w : world Env) :
  Inv (w_env w) ->
  exists a,
    get_adaptive_on w = (Ok a, after_get ADAPTIVE_SWITCH w)
    /\ Inv (w_env (after_get ADAPTIVE_SWITCH w)).
Proof.
  intros Hw.
  destruct (answer_ok Inv (proj1 Hserves) ADAPTIVE_SWITCH w Hw) as [Ho Hw1].
  destruct (adaptive_of_outcome _ Ho) as (a & Ha).
  exists a. rewrite get_adaptive_on_run, Ha. auto.
Qed.

(** *** What settles a press, statement by statement *)

Lemma settled_after_get (id : string) (w : world Env) :
  settled (after_get id w) = settled w.
Proof.
  unfold settled, after_get, read_log. cbn [w_trace].
  rewrite filter_app, length_app.
  destruct (read_failed _); cbn; lia.
Qed.

Lemma settled_print (msg : string) (w : world Env) :
  is_declined (EvPrint msg) = false ->
  settled (snd (print msg w)) = settled w.
Proof.
  intros Hm. unfold settled, print, emit. cbn [snd w_trace].
  rewrite filter_app, length_app. cbn [filter settles is_display orb].
  rewrite Hm. simpl. lia.
Qed.

Lemma call_service_good (d s : string) (data : list (string * json))
    (w : world Env) :
  Inv (w_env w) ->
  exists w',
    ha_call_service d s data w = (Ok tt, w')
    /\ Inv (w_env w') /\ state_cache w' = state_cache w
    /\ settled w' = settled w.
Proof.
  intros Hw. pose proof (proj2 Hserves d s data (w_env w) Hw) as Hpost.
  unfold ha_call_service, bind, do_post.
  destruct (http_post d s data (w_env w)) as [[|st txt] e']; cbn [snd] in Hpost.
  - eexists. split; [reflexivity|]. cbn [w_env state_cache].
    repeat split; [assumption|].
    unfold settled. cbn [w_trace]. rewrite !filter_app, !length_app. cbn. lia.
  - destruct (negb (st =? 200)); (eexists; split; [reflexivity|]);
      cbn [w_env state_cache]; (repeat split; [assumption|]);
      unfold settled; cbn [w_trace]; rewrite !filter_app, !length_app; cbn; lia.
Qed.

(** *** The statements of [refresh_display] *)

Lemma store_light_good (w : world Env) :
  Inv (w_env w) ->
  exists w',
    store_light w = (Ok tt, w') /\ good w' /\ settled w' = settled w.
Proof.
  intros Hw. destruct (light_read_good w Hw) as (info & s & Hrun & Hw1 & Hs & _).
  unfold store_light. rewrite (bind_Ok _ _ _ _ _ Hrun).
  eexists. split; [reflexivity|]. split; [split; [exact Hw1|]|].
  - exists s. exact Hs.
  - exact (settled_after_get LIGHT_ENTITY w).
Qed.

Lemma store_weather_good (w : world Env) :
  good w ->
  exists w',
    store_weather w = (Ok tt, w') /\ good w' /\ settled w' = settled w.
Proof.
  intros [Hw Hc]. destruct (weather_read_good w Hw) as (wx & Hrun & Hw1).
  unfold store_weather. rewrite (bind_Ok _ _ _ _ _ Hrun).
  eexists. split; [reflexivity|]. split; [split; [exact Hw1 | exact Hc]|].
  exact (settled_after_get WEATHER_ENTITY w).
Qed.

Lemma store_adaptive_good (w : world Env) :
  good w ->
  exists w',
    store_adaptive w = (Ok tt, w') /\ good w' /\ settled w' = settled w.
Proof.
  intros [Hw Hc]. destruct (adaptive_read_good w Hw) as (a & Hrun & Hw1).
  unfold store_adaptive. rewrite (bind_Ok _ _ _ _ _ Hrun).
  eexists. split; [reflexivity|]. split; [split; [exact Hw1 | exact Hc]|].
  exact (settled_after_get ADAPTIVE_SWITCH w).
Qed.

Lemma draw_cached_good (w : world Env) :
  good w ->
  exists w',
    draw_cached w = (Ok tt, w') /\ good w' /\ settled w' = S (settled w).
Proof.
  intros [Hw [s Hs]]. rewrite draw_cached_run.
  destruct (panel_image_string_state (strftime (w_env w)) _
              (c_weather (state_cache w)) (c_adaptive (state_cache w)) s Hs)
    as (img & Hi).
  rewrite Hi. eexists. split; [reflexivity|].
  split; [split; [exact Hw | exists s; exact Hs]|].
  unfold settled. cbn [w_trace]. rewrite filter_app, length_app. cbn. lia.
Qed.

(** With such a hub a refresh returns, having pushed its panel. *)
Lemma refresh_good (w : world Env) :
  Inv (w_env w) ->
  exists w',
    refresh_display w = (Ok tt, w') /\ good w' /\ settled w' = S (settled w).
Proof.
  intros Hw. unfold refresh_display.
  destruct (store_light_good w Hw) as (w1 & R1 & G1 & S1).
  destruct (store_weather_good w1 G1) as (w2 & R2 & G2 & S2).
  destruct (store_adaptive_good w2 G2) as (w3 & R3 & G3 & S3).
  destruct (draw_cached_good w3 G3) as (w4 & R4 & G4 & S4).
  rewrite (bind_Ok _ _ _ _ _ R1), (bind_Ok _ _ _ _ _ R2), (bind_Ok _ _ _ _ _ R3).
  exists w4. split; [exact R4|]. split; [exact G4|]. congruence.
Qed.

(** *** The handlers *)

Lemma call_then_refresh_good (d s : string) (data : list (string * json))
    (w : world Env) :
  Inv (w_env w) ->
  exists w',
    (ha_call_service d s data ;;; refresh_display) w = (Ok tt, w')
    /\ good w' /\ settled w' = S (settled w).
Proof.
  intros Hw. destruct (call_service_good d s data w Hw) as (w1 & R1 & Hw1 & _ & S1).
  destruct (refresh_good w1 Hw1) as (w2 & R2 & G2 & S2).
  rewrite (bind_Ok _ _ _ _ _ R1). exists w2. split; [exact R2|].
  split; [exact G2 | congruence].
Qed.

Lemma brightness_or_128 (info : light_info) :
  li_brightness info = JNull \/ (exists b, li_brightness info = JInt b) ->
  exists x, py_or (li_brightness info) (JInt 128) = JInt x.
Proof.
  intros [-> | (b & ->)]; unfold py_or; cbn [truthy]; [eauto|].
  destruct (negb (b =? 0)); eauto.
Qed.

Lemma set_brightness_good (x : Z) (w : world Env) :
  Inv (w_env w) ->
  exists w',
    (set_light (JInt x) None false ;;; refresh_display) w = (Ok tt, w')
    /\ good w' /\ settled w' = S (settled w).
Proof.
  intros Hw. unfold set_light, turn_on_payload.
  rewrite clamp_brightness_int. cbn [res_bind].
  rewrite bind_assoc. unfold bind at 1. unfold lift at 1.
  apply call_then_refresh_good, Hw.
Qed.

Lemma cycle_good (info : light_info) (w : world Env) :
  li_brightness info = JNull \/ (exists b, li_brightness info = JInt b) ->
  Inv (w_env w) ->
  exists w',
    (cycle_color_temp info ;;; refresh_display) w = (Ok tt, w')
    /\ good w' /\ settled w' = S (settled w).
Proof.
  intros Hb Hw. unfold cycle_color_temp.
  rewrite Cycler.next_kelvin_nearest.
  rewrite bind_assoc. unfold bind at 1. unfold lift at 1.
  unfold set_light, turn_on_payload. rewrite mired_of_next_preset.
  destruct Hb as [-> | (b & ->)]; [|rewrite clamp_brightness_int];
    cbn [res_bind]; rewrite bind_assoc; unfold bind at 1; unfold lift at 1;
    apply call_then_refresh_good, Hw.
Qed.

(** With such a hub every handler returns, and the press is settled: by
    the panel of its refresh, or by the refusal of Button 4. *)
Lemma handler_good (b : button) (w : world Env) :
  good w ->
  exists w',
    on_btn b w = (Ok tt, w') /\ good w' /\ settled w' = S (settled w).
Proof.
  intros [Hw Hc]. destruct b; cbn [on_btn].
  - unfold on_btn1.
    destruct (adaptive_read_good w Hw) as (a & Hrun & Hw1).
    rewrite (bind_Ok _ _ _ _ _ Hrun).
    pose proof (settled_after_get ADAPTIVE_SWITCH w) as S1.
    destruct a; rewrite bind_assoc, bind_print.
    + destruct (call_then_refresh_good "switch" "turn_off"
                  [("entity_id", JStr ADAPTIVE_SWITCH)]
                  (snd (print "BTN1: Natural OFF" (after_get ADAPTIVE_SWITCH w))) Hw1)
        as (w2 & R2 & G2 & S2).
      exists w2. split; [exact R2|]. split; [exact G2|].
      rewrite S2, settled_print; [congruence | reflexivity].
    + destruct (call_then_refresh_good "switch" "turn_on"
                  [("entity_id", JStr ADAPTIVE_SWITCH)]
                  (snd (print "BTN1: Natural ON" (after_get ADAPTIVE_SWITCH w))) Hw1)
        as (w2 & R2 & G2 & S2).
      exists w2. split; [exact R2|]. split; [exact G2|].
      rewrite S2, settled_print; [congruence | reflexivity].
  - unfold on_btn2.
    rewrite bind_print.
    destruct (light_read_good (snd (print "BTN2: Brighter" w)) Hw)
      as (info & s & Hrun & Hw1 & _ & Hb).
    rewrite (bind_Ok _ _ _ _ _ Hrun). cbv zeta.
    destruct (brightness_or_128 info Hb) as (x & ->).
    unfold bind at 1. unfold lift at 1. cbn [py_add_int].
    destruct (set_brightness_good (x + 25) _ Hw1) as (w2 & R2 & G2 & S2).
    exists w2. split; [exact R2|]. split; [exact G2|].
    rewrite S2, settled_after_get. f_equal. now apply settled_print.
  - unfold on_btn3.
    rewrite bind_print.
    destruct (light_read_good (snd (print "BTN3: Dimmer" w)) Hw)
      as (info & s & Hrun & Hw1 & _ & Hb).
    rewrite (bind_Ok _ _ _ _ _ Hrun). cbv zeta.
    destruct (brightness_or_128 info Hb) as (x & ->).
    unfold bind at 1. unfold lift at 1. cbn [py_sub_int].
    destruct (set_brightness_good (x - 25) _ Hw1) as (w2 & R2 & G2 & S2).
    exists w2. split; [exact R2|]. split; [exact G2|].
    rewrite S2, settled_after_get. f_equal. now apply settled_print.
  - unfold on_btn4.
    destruct (adaptive_read_good w Hw) as (a & Hrun & Hw1).
    rewrite (bind_Ok _ _ _ _ _ Hrun).
    pose proof (settled_after_get ADAPTIVE_SWITCH w) as S1.
    destruct a; cbn [negb].
    + rewrite bind_print.
      destruct (light_read_good
                  (snd (print "BTN4: Cycle color temp" (after_get ADAPTIVE_SWITCH w)))
                  Hw1) as (info & s & Hrun2 & Hw2 & _ & Hb).
      rewrite (bind_Ok _ _ _ _ _ Hrun2).
      destruct (cycle_good info _ Hb Hw2) as (w3 & R3 & G3 & S3).
      exists w3. split; [exact R3|]. split; [exact G3|].
      rewrite S3, settled_after_get, settled_print; [congruence | reflexivity].
    + eexists. split; [reflexivity|]. split; [split; [exact Hw1 | exact Hc]|].
      unfold settled in *. cbn [snd print emit w_trace].
      rewrite filter_app, length_app. rewrite S1. cbn. lia.
Qed.

(** *** The schedule: presses while [main] is in its first refresh *)

(** The code of [main] once it has run lines 249 and 201. *)
Definition main_at_202 (n : nat) : proc Env :=
  Do 202 store_weather (fun _ =>
  Do 203 store_adaptive (fun _ =>
  Do 204 draw_cached (fun _ =>
  Do 251 now (fun last =>
  main_loop_proc n last)))).

Lemma main_boots (n : nat) (w : world Env) :
  Inv (w_env w) ->
  exists w1,
    run [StepMain; StepMain] (start n w)
    = mk_system w1 (Running (main_at_202 n)) []
    /\ good w1 /\ settled w1 = settled w.
Proof.
  intros Hw.
  destruct (store_light_good (snd (print "Booting!" w)) Hw) as (w1 & R1 & G1 & S1).
  exists w1. split; [|split; [exact G1|]].
  - unfold start, main_proc, refresh_proc.
    cbn [run step_system step_thread sys_main sys_world sys_handlers print emit].
    cbn [print emit snd] in R1. rewrite R1. reflexivity.
  - rewrite S1. now apply settled_print.
Qed.

Lemma main_finishes (n : nat) (w : world Env) (hs : list (thread Env)) :
  good w ->
  exists w4,
    run [StepMain; StepMain; StepMain] (mk_system w (Running (main_at_202 n)) hs)
    = mk_system w4 (Running (Do 251 now (fun last => main_loop_proc n last))) hs
    /\ good w4 /\ settled w4 = S (settled w).
Proof.
  intros G.
  destruct (store_weather_good w G) as (w2 & R2 & G2 & S2).
  destruct (store_adaptive_good w2 G2) as (w3 & R3 & G3 & S3).
  destruct (draw_cached_good w3 G3) as (w4 & R4 & G4 & S4).
  exists w4. split; [|split; [exact G4 | congruence]].
  unfold main_at_202.
  cbn [run step_system step_thread sys_main sys_world sys_handlers].
  rewrite R2. cbn [run step_system step_thread sys_main sys_world sys_handlers].
  rewrite R3. cbn [run step_system step_thread sys_main sys_world sys_handlers].
  rewrite R4. reflexivity.
Qed.

(** Each press is served in turn, and settled, while the main thread
    stands where it was. *)
Lemma presses_good (bs : list button) : forall s : system Env,
  good (sys_world s) ->
  exists w',
    run (presses (List.length (sys_handlers s)) bs) s
    = mk_system w' (sys_main s)
        (sys_handlers s ++ map (fun _ => Running Done) bs)
    /\ good w' /\ settled w' = (settled (sys_world s) + List.length bs)%nat.
Proof.
  induction bs as [|b bs IH]; intros s G.
  - exists (sys_world s). cbn [presses run map List.length].
    rewrite app_nil_r. split; [now destruct s|]. split; [exact G | lia].
  - cbn [presses]. rewrite run_app, press_run.
    destruct (handler_good b (sys_world s) G) as (w1 & R1 & G1 & S1).
    rewrite R1. cbn [fst snd finish].
    destruct (IH (mk_system w1 (sys_main s) (sys_handlers s ++ [Running Done])) G1)
      as (w' & R' & G' & S').
    cbn [sys_world sys_main sys_handlers] in R', S'.
    rewrite length_app, Nat.add_1_r in R'.
    exists w'. split; [|split; [exact G'|]].
    + rewrite R'. cbn [map]. now rewrite <- app_assoc.
    + rewrite S', S1. cbn [List.length]. lia.
Qed.

(** A handler of Button 1, 2 or 3 gets to the middle of its refresh. *)
Lemma handler_reaches_202 (b : button) (w : world Env) :
  good w -> b <> Btn4 ->
  position (fst (steps (lines_to_202 b) (Running (handler b)) w)) = At 202.
Proof.
  intros [Hw Hc] Hb. destruct b; [| | |contradiction];
    cbn [lines_to_202 handler].
  - unfold btn1_proc.
    destruct (adaptive_read_good w Hw) as (a & Hrun & Hw1).
    cbn [steps step_thread]. rewrite Hrun.
    destruct a; cbn [steps step_thread print emit];
      match goal with
      | |- context [ha_call_service ?d ?s ?data ?W] =>
          destruct (call_service_good d s data W Hw1) as (w2 & R2 & Hw2 & _)
      end; rewrite R2; unfold refresh_proc; cbn [steps step_thread];
      destruct (store_light_good w2 Hw2) as (w3 & R3 & _);
      rewrite R3; reflexivity.
  - unfold btn2_proc. cbn [steps step_thread print emit].
    match goal with
    | |- context [get_light_info ?W] =>
        destruct (light_read_good W Hw) as (info & s & Hrun & Hw1 & _ & Hbri)
    end.
    rewrite Hrun. cbn [steps step_thread ret].
    destruct (brightness_or_128 info Hbri) as (x & ->).
    cbn [py_add_int py_sub_int].
    rewrite bind_lift_Ok. unfold set_light, turn_on_payload.
    rewrite clamp_brightness_int. cbn [res_bind]. rewrite bind_lift_Ok.
    match goal with
    | |- context [ha_call_service ?d ?s ?data ?W] =>
        destruct (call_service_good d s data W Hw1) as (w2 & R2 & Hw2 & _)
    end.
    rewrite R2. unfold refresh_proc. cbn [steps step_thread].
    destruct (store_light_good w2 Hw2) as (w3 & R3 & _).
    rewrite R3. reflexivity.
  - unfold btn3_proc. cbn [steps step_thread print emit].
    match goal with
    | |- context [get_light_info ?W] =>
        destruct (light_read_good W Hw) as (info & s & Hrun & Hw1 & _ & Hbri)
    end.
    rewrite Hrun. cbn [steps step_thread ret].
    destruct (brightness_or_128 info Hbri) as (x & ->).
    cbn [py_add_int py_sub_int].
    rewrite bind_lift_Ok. unfold set_light, turn_on_payload.
    rewrite clamp_brightness_int. cbn [res_bind]. rewrite bind_lift_Ok.
    match goal with
    | |- context [ha_call_service ?d ?s ?data ?W] =>
        destruct (call_service_good d s data W Hw1) as (w2 & R2 & Hw2 & _)
    end.
    rewrite R2. unfold refresh_proc. cbn [steps step_thread].
    destruct (store_light_good w2 Hw2) as (w3 & R3 & _).
    rewrite R3. reflexivity.
Qed.

Lemma none_reconciling (bs : list button) :
  filter reconciling (map (fun _ => Running (Env:=Env) Done) bs) = [].
Proof. induction bs as [|b bs IH]; [reflexivity | exact IH]. Qed.

Lemma positions_returned (bs : list button) :
  map position (map (fun _ => Running (Env:=Env) Done) bs)
  = map (fun _ => Returned) bs.
Proof. rewrite map_map. reflexivity. Qed.

Lemma settled_split (w : world Env) :
  settled w = (displays w + declined w)%nat.
Proof.
  unfold settled, displays, declined.
  induction (w_trace w) as [|e t IH]; [reflexivity|].
  cbn [filter]. unfold settles at 1.
  destruct (is_display e) eqn:Hd; cbn [orb].
  - assert (Hn : is_declined e = false) by (destruct e; try discriminate; reflexivity).
    rewrite Hn. cbn [List.length]. lia.
  - destruct (is_declined e); cbn [List.length]; lia.
Qed.

(** C1, as the code has it.  The script has no scheduler of refreshes: a
    reconciliation is a call of [refresh_display], made by [main] (at its
    start and when the interval has elapsed) and by each handler at its
    end, and run by the caller itself, whatever the other threads are
    doing.  The threads followed here run the code of [main] and of the
    handlers.  With a hub whose reads fail or answer with documented
    entities, and for any presses [bs] that arrive while the first
    reconciliation of [main] stands between its lines 201 and 202, each
    served before the next: every handler returns while [main] is still
    in its reconciliation; a handler of Button 1, 2 or 3 that has run
    its own line 201 makes two reconciliations in flight; and once [main]
    has finished, the panels pushed and the presses declined by Button 4
    are one more than the presses, a reconciliation for every press
    that was not declined. *)
Theorem every_press_refreshes (n : nat) (w : world Env) (bs : list button) :
  Inv (w_env w) ->
  let s1 := run [StepMain; StepMain] (start n w) in
  let s2 := run (presses 0 bs) s1 in
  let s3 := run [StepMain; StepMain; StepMain] s2 in
  ((forall b w0, exec (handler b) w0 = on_btn b w0)
   /\ (forall w0, exec (main_proc n) w0 = main n w0))
  /\ (position (sys_main s1) = At 202 /\ in_flight s1 = 1%nat)
  /\ (position (sys_main s2) = At 202
      /\ map position (sys_handlers s2) = map (fun _ => Returned) bs)
  /\ (forall b, b <> Btn4 ->
        in_flight (run (Press b
                          :: repeat (StepHandler (List.length bs)) (lines_to_202 b))
                       s2)
        = 2%nat)
  /\ (position (sys_main s3) = At 251
      /\ (displays (sys_world s3) + declined (sys_world s3)
          = displays w + declined w + 1 + List.length bs)%nat).
Proof.
  intros Hw s1 s2 s3.
  destruct (main_boots n w Hw) as (w1 & E1 & G1 & S1).
  destruct (presses_good bs (mk_system w1 (Running (main_at_202 n)) []) G1)
    as (w2 & E2 & G2 & S2).
  cbn [sys_world sys_main sys_handlers List.length app] in E2, S2.
  destruct (main_finishes n w2 (map (fun _ => Running Done) bs) G2)
    as (w4 & E3 & G4 & S4).
  subst s3 s2 s1. rewrite E1, E2.
  split; [split; [exact exec_handler | exact (exec_main n)]|].
  split; [split; reflexivity|].
  split; [split; [reflexivity | apply positions_returned]|].
  split.
  - intros b Hb.
    replace (List.length bs)
      with (List.length (map (fun _ => Running (Env:=Env) Done) bs))
      by apply length_map.
    rewrite run_press_steps.
    pose proof (handler_reaches_202 b w2 G2 Hb) as Hpos.
    unfold in_flight. cbn [sys_main sys_handlers filter].
    change (reconciling (Running (main_at_202 n))) with true.
    rewrite filter_app, none_reconciling. cbn [app filter].
    unfold reconciling at 1. rewrite Hpos. reflexivity.
  - rewrite E3. split; [reflexivity|]. cbn [sys_world].
    rewrite <- !settled_split. lia.
Qed.

End Hub.

(** A hub in a steady state. *)
Definition steady_hub : sim :=
  mk_sim [light_on 128 250] [sunny] [switch false] 0.

(** [main] has run line 201 of its first refresh when Button 2 is pressed,
    and the handler runs up to line 201 of its own. *)
Definition two_in_flight : list action :=
  [StepMain; StepMain; Press Btn2;
   StepHandler 0; StepHandler 0; StepHandler 0; StepHandler 0; StepHandler 0].

(** Button 2 and then Button 3 are pressed while [main] is in its first
    refresh, each handler runs to its end, and then [main] finishes. *)
Definition two_presses_during_refresh : list action :=
  ([StepMain; StepMain] ++ presses 0 [Btn2; Btn3]
   ++ [StepMain; StepMain; StepMain])%list.

(** C1 as stated fails: with the reconciliation of [main] in progress, a
    press of Button 2 brings a second one in flight, and the two presses
    that arrived during the reconciliation of [main] have each had a
    reconciliation of their own by the time [main] has finished: three
    panels are pushed, two more reconciliations, not one. *)
Lemma two_presses_two_refreshes :
  in_flight (run two_in_flight (start 0 (world_of steady_hub))) = 2%nat
  /\ map position
       (sys_handlers (run two_presses_during_refresh (start 0 (world_of steady_hub))))
     = [Returned; Returned]
  /\ position
       (sys_main (run two_presses_during_refresh (start 0 (world_of steady_hub))))
     = At 251
  /\ displays
       (sys_world (run two_presses_during_refresh (start 0 (world_of steady_hub))))
     = 3%nat.
Proof. repeat split; vm_compute; reflexivity. Qed.

Lemma flaky_hub_serves : serves (H:=flaky_outside) (fun _ => True).
Proof. split; [exact flaky_hub_ok | auto]. Qed.

(** The hub that is down on every other request, and three presses. *)
Definition flaky_world : world nat := mk_world 0%nat blank_cache [].

Lemma every_press_refreshes_witness :
  position
    (sys_main
       (run (H:=flaky_outside) [StepMain; StepMain; StepMain]
          (run (H:=flaky_outside) (presses 0 [Btn4; Btn2; Btn1])
             (run (H:=flaky_outside) [StepMain; StepMain]
                (start (H:=flaky_outside) 0 flaky_world)))))
  = At 251
  /\ (displays
        (sys_world
           (run (H:=flaky_outside) [StepMain; StepMain; StepMain]
              (run (H:=flaky_outside) (presses 0 [Btn4; Btn2; Btn1])
                 (run (H:=flaky_outside) [StepMain; StepMain]
                    (start (H:=flaky_outside) 0 flaky_world)))))
      + declined
          (sys_world
             (run (H:=flaky_outside) [StepMain; StepMain; StepMain]
                (run (H:=flaky_outside) (presses 0 [Btn4; Btn2; Btn1])
                   (run (H:=flaky_outside) [StepMain; StepMain]
                      (start (H:=flaky_outside) 0 flaky_world)))))
      = displays flaky_world + declined flaky_world + 1 + 3)%nat.
Proof.
  refine (proj2 (proj2 (proj2 (proj2
            (every_press_refreshes (HO:=flaky_outside) (fun _ => True)
               flaky_hub_serves 0%nat flaky_world [Btn4; Btn2; Btn1] _))))).
  exact I.
Defined.

End Scheduling.
